(** * OSIMAP ingestion pipeline: upload validation and orchestration

    A shallow embedding of the upload path of the OSIMAP web system:
    - the client-side checks of the upload page (validateFile,
      sanitizeFileName, onDrop),
    - the server-side workbook check (validateExcelFile),
    - the pipeline orchestrator (runSingleScript, runPythonScripts) and the
      /status and /upload routes of backend/server.js.

    JavaScript strings are sequences of UTF-16 code units and are modelled as
    lists of numbers; the global variables of server.js are threaded through a
    state record; the calls a handler makes to the outside (responses, spawned
    processes, file system) are recorded in an action trace. *)

From Stdlib Require Import ZArith NArith Bool Ascii String DecimalString.
From stdpp Require Import base list gmap.

Local Open Scope N_scope.

(** ** JavaScript strings *)

Module JS.

(** A string is its sequence of UTF-16 code units. *)
Abbreviation jsstring := (list N) (only parsing).

(** An ASCII literal of the source. *)
Definition str (s : string) : jsstring :=
  map N_of_ascii (list_ascii_of_string s).

(** Code units that the source names one by one. *)
Definition dot : N := 46.
Definition underscore : N := 95.
Definition dquote : N := 34.
(** U+274C, the cross mark that opens every message. *)
Definition cross : N := 10060.

Definition quoted (s : jsstring) : jsstring := dquote :: s ++ [dquote].

Definition jsstring_eqb (a b : jsstring) : bool := bool_decide (a = b).

Definition in_range (lo hi c : N) : bool := (lo <=? c) && (c <=? hi).

(** [\d], [a-z], [A-Z] and [\w] of a regular expression without the u flag. *)
Definition is_digit (c : N) : bool := in_range 48 57 c.
Definition is_lower (c : N) : bool := in_range 97 122 c.
Definition is_upper (c : N) : bool := in_range 65 90 c.
Definition is_word (c : N) : bool :=
  is_lower c || is_upper c || is_digit c || (c =? underscore).

(** [\s], and the code units String.prototype.trim removes: WhiteSpace and
    LineTerminator of ECMAScript. *)
Definition is_space (c : N) : bool :=
  in_range 9 13 c || (c =? 32) || (c =? 160) || (c =? 5760)
  || in_range 8192 8202 c || (c =? 8232) || (c =? 8233) || (c =? 8239)
  || (c =? 8287) || (c =? 12288) || (c =? 65279).

(** s.length *)
Definition length (s : jsstring) : Z := Z.of_nat (List.length s).

(** s.startsWith(p) *)
Fixpoint startsWith (s p : jsstring) {struct p} : bool :=
  match p, s with
  | [], _ => true
  | _ :: _, [] => false
  | a :: p', b :: s' => (a =? b) && startsWith s' p'
  end.

(** s.includes(p) *)
Fixpoint includes (s p : jsstring) : bool :=
  startsWith s p ||
  match s with
  | [] => false
  | _ :: s' => includes s' p
  end.

(** s.substring(start, end): both ends are clamped to [0, s.length] and
    swapped when start > end. *)
Definition clamp (s : jsstring) (i : Z) : nat :=
  Z.to_nat (Z.min (Z.max i 0) (length s)).

Definition substring (s : jsstring) (start fin : Z) : jsstring :=
  let a := clamp s start in
  let b := clamp s fin in
  take (Nat.max a b - Nat.min a b) (drop (Nat.min a b) s).

(** s.substring(start): the end defaults to s.length. *)
Definition substring_from (s : jsstring) (start : Z) : jsstring :=
  substring s start (length s).

(** s.lastIndexOf(c) for a one-unit string c: -1 when c does not occur. *)
Fixpoint lastIndexOf_from (s : jsstring) (c : N) (i : Z) (found : Z) : Z :=
  match s with
  | [] => found
  | a :: s' => lastIndexOf_from s' c (i + 1) (if a =? c then i else found)
  end.

Definition lastIndexOf (s : jsstring) (c : N) : Z :=
  lastIndexOf_from s c 0 (-1).

(** The lower-case mappings of the Unicode Character Database (version
    14.0) inside the Basic Multilingual Plane, above U+007F: a code unit and
    its lower-case form. The two code units whose lower-case form holds an
    ASCII letter, U+0130 and U+212A, are in lower_unit below. *)
Definition lower_table : list (N * N) :=
  [(192, 224); (193, 225); (194, 226); (195, 227); (196, 228);
   (197, 229); (198, 230); (199, 231); (200, 232); (201, 233);
   (202, 234); (203, 235); (204, 236); (205, 237); (206, 238);
   (207, 239); (208, 240); (209, 241); (210, 242); (211, 243);
   (212, 244); (213, 245); (214, 246); (216, 248); (217, 249);
   (218, 250); (219, 251); (220, 252); (221, 253); (222, 254);
   (256, 257); (258, 259); (260, 261); (262, 263); (264, 265);
   (266, 267); (268, 269); (270, 271); (272, 273); (274, 275);
   (276, 277); (278, 279); (280, 281); (282, 283); (284, 285);
   (286, 287); (288, 289); (290, 291); (292, 293); (294, 295);
   (296, 297); (298, 299); (300, 301); (302, 303); (306, 307);
   (308, 309); (310, 311); (313, 314); (315, 316); (317, 318);
   (319, 320); (321, 322); (323, 324); (325, 326); (327, 328);
   (330, 331); (332, 333); (334, 335); (336, 337); (338, 339);
   (340, 341); (342, 343); (344, 345); (346, 347); (348, 349);
   (350, 351); (352, 353); (354, 355); (356, 357); (358, 359);
   (360, 361); (362, 363); (364, 365); (366, 367); (368, 369);
   (370, 371); (372, 373); (374, 375); (376, 255); (377, 378);
   (379, 380); (381, 382); (385, 595); (386, 387); (388, 389);
   (390, 596); (391, 392); (393, 598); (394, 599); (395, 396);
   (398, 477); (399, 601); (400, 603); (401, 402); (403, 608);
   (404, 611); (406, 617); (407, 616); (408, 409); (412, 623);
   (413, 626); (415, 629); (416, 417); (418, 419); (420, 421);
   (422, 640); (423, 424); (425, 643); (428, 429); (430, 648);
   (431, 432); (433, 650); (434, 651); (435, 436); (437, 438);
   (439, 658); (440, 441); (444, 445); (452, 454); (453, 454);
   (455, 457); (456, 457); (458, 460); (459, 460); (461, 462);
   (463, 464); (465, 466); (467, 468); (469, 470); (471, 472);
   (473, 474); (475, 476); (478, 479); (480, 481); (482, 483);
   (484, 485); (486, 487); (488, 489); (490, 491); (492, 493);
   (494, 495); (497, 499); (498, 499); (500, 501); (502, 405);
   (503, 447); (504, 505); (506, 507); (508, 509); (510, 511);
   (512, 513); (514, 515); (516, 517); (518, 519); (520, 521);
   (522, 523); (524, 525); (526, 527); (528, 529); (530, 531);
   (532, 533); (534, 535); (536, 537); (538, 539); (540, 541);
   (542, 543); (544, 414); (546, 547); (548, 549); (550, 551);
   (552, 553); (554, 555); (556, 557); (558, 559); (560, 561);
   (562, 563); (570, 11365); (571, 572); (573, 410); (574, 11366);
   (577, 578); (579, 384); (580, 649); (581, 652); (582, 583);
   (584, 585); (586, 587); (588, 589); (590, 591); (880, 881);
   (882, 883); (886, 887); (895, 1011); (902, 940); (904, 941);
   (905, 942); (906, 943); (908, 972); (910, 973); (911, 974);
   (913, 945); (914, 946); (915, 947); (916, 948); (917, 949);
   (918, 950); (919, 951); (920, 952); (921, 953); (922, 954);
   (923, 955); (924, 956); (925, 957); (926, 958); (927, 959);
   (928, 960); (929, 961); (931, 963); (932, 964); (933, 965);
   (934, 966); (935, 967); (936, 968); (937, 969); (938, 970);
   (939, 971); (975, 983); (984, 985); (986, 987); (988, 989);
   (990, 991); (992, 993); (994, 995); (996, 997); (998, 999);
   (1000, 1001); (1002, 1003); (1004, 1005); (1006, 1007); (1012, 952);
   (1015, 1016); (1017, 1010); (1018, 1019); (1021, 891); (1022, 892);
   (1023, 893); (1024, 1104); (1025, 1105); (1026, 1106); (1027, 1107);
   (1028, 1108); (1029, 1109); (1030, 1110); (1031, 1111); (1032, 1112);
   (1033, 1113); (1034, 1114); (1035, 1115); (1036, 1116); (1037, 1117);
   (1038, 1118); (1039, 1119); (1040, 1072); (1041, 1073); (1042, 1074);
   (1043, 1075); (1044, 1076); (1045, 1077); (1046, 1078); (1047, 1079);
   (1048, 1080); (1049, 1081); (1050, 1082); (1051, 1083); (1052, 1084);
   (1053, 1085); (1054, 1086); (1055, 1087); (1056, 1088); (1057, 1089);
   (1058, 1090); (1059, 1091); (1060, 1092); (1061, 1093); (1062, 1094);
   (1063, 1095); (1064, 1096); (1065, 1097); (1066, 1098); (1067, 1099);
   (1068, 1100); (1069, 1101); (1070, 1102); (1071, 1103); (1120, 1121);
   (1122, 1123); (1124, 1125); (1126, 1127); (1128, 1129); (1130, 1131);
   (1132, 1133); (1134, 1135); (1136, 1137); (1138, 1139); (1140, 1141);
   (1142, 1143); (1144, 1145); (1146, 1147); (1148, 1149); (1150, 1151);
   (1152, 1153); (1162, 1163); (1164, 1165); (1166, 1167); (1168, 1169);
   (1170, 1171); (1172, 1173); (1174, 1175); (1176, 1177); (1178, 1179);
   (1180, 1181); (1182, 1183); (1184, 1185); (1186, 1187); (1188, 1189);
   (1190, 1191); (1192, 1193); (1194, 1195); (1196, 1197); (1198, 1199);
   (1200, 1201); (1202, 1203); (1204, 1205); (1206, 1207); (1208, 1209);
   (1210, 1211); (1212, 1213); (1214, 1215); (1216, 1231); (1217, 1218);
   (1219, 1220); (1221, 1222); (1223, 1224); (1225, 1226); (1227, 1228);
   (1229, 1230); (1232, 1233); (1234, 1235); (1236, 1237); (1238, 1239);
   (1240, 1241); (1242, 1243); (1244, 1245); (1246, 1247); (1248, 1249);
   (1250, 1251); (1252, 1253); (1254, 1255); (1256, 1257); (1258, 1259);
   (1260, 1261); (1262, 1263); (1264, 1265); (1266, 1267); (1268, 1269);
   (1270, 1271); (1272, 1273); (1274, 1275); (1276, 1277); (1278, 1279);
   (1280, 1281); (1282, 1283); (1284, 1285); (1286, 1287); (1288, 1289);
   (1290, 1291); (1292, 1293); (1294, 1295); (1296, 1297); (1298, 1299);
   (1300, 1301); (1302, 1303); (1304, 1305); (1306, 1307); (1308, 1309);
   (1310, 1311); (1312, 1313); (1314, 1315); (1316, 1317); (1318, 1319);
   (1320, 1321); (1322, 1323); (1324, 1325); (1326, 1327); (1329, 1377);
   (1330, 1378); (1331, 1379); (1332, 1380); (1333, 1381); (1334, 1382);
   (1335, 1383); (1336, 1384); (1337, 1385); (1338, 1386); (1339, 1387);
   (1340, 1388); (1341, 1389); (1342, 1390); (1343, 1391); (1344, 1392);
   (1345, 1393); (1346, 1394); (1347, 1395); (1348, 1396); (1349, 1397);
   (1350, 1398); (1351, 1399); (1352, 1400); (1353, 1401); (1354, 1402);
   (1355, 1403); (1356, 1404); (1357, 1405); (1358, 1406); (1359, 1407);
   (1360, 1408); (1361, 1409); (1362, 1410); (1363, 1411); (1364, 1412);
   (1365, 1413); (1366, 1414); (4256, 11520); (4257, 11521); (4258, 11522);
   (4259, 11523); (4260, 11524); (4261, 11525); (4262, 11526); (4263, 11527);
   (4264, 11528); (4265, 11529); (4266, 11530); (4267, 11531); (4268, 11532);
   (4269, 11533); (4270, 11534); (4271, 11535); (4272, 11536); (4273, 11537);
   (4274, 11538); (4275, 11539); (4276, 11540); (4277, 11541); (4278, 11542);
   (4279, 11543); (4280, 11544); (4281, 11545); (4282, 11546); (4283, 11547);
   (4284, 11548); (4285, 11549); (4286, 11550); (4287, 11551); (4288, 11552);
   (4289, 11553); (4290, 11554); (4291, 11555); (4292, 11556); (4293, 11557);
   (4295, 11559); (4301, 11565); (5024, 43888); (5025, 43889); (5026, 43890);
   (5027, 43891); (5028, 43892); (5029, 43893); (5030, 43894); (5031, 43895);
   (5032, 43896); (5033, 43897); (5034, 43898); (5035, 43899); (5036, 43900);
   (5037, 43901); (5038, 43902); (5039, 43903); (5040, 43904); (5041, 43905);
   (5042, 43906); (5043, 43907); (5044, 43908); (5045, 43909); (5046, 43910);
   (5047, 43911); (5048, 43912); (5049, 43913); (5050, 43914); (5051, 43915);
   (5052, 43916); (5053, 43917); (5054, 43918); (5055, 43919); (5056, 43920);
   (5057, 43921); (5058, 43922); (5059, 43923); (5060, 43924); (5061, 43925);
   (5062, 43926); (5063, 43927); (5064, 43928); (5065, 43929); (5066, 43930);
   (5067, 43931); (5068, 43932); (5069, 43933); (5070, 43934); (5071, 43935);
   (5072, 43936); (5073, 43937); (5074, 43938); (5075, 43939); (5076, 43940);
   (5077, 43941); (5078, 43942); (5079, 43943); (5080, 43944); (5081, 43945);
   (5082, 43946); (5083, 43947); (5084, 43948); (5085, 43949); (5086, 43950);
   (5087, 43951); (5088, 43952); (5089, 43953); (5090, 43954); (5091, 43955);
   (5092, 43956); (5093, 43957); (5094, 43958); (5095, 43959); (5096, 43960);
   (5097, 43961); (5098, 43962); (5099, 43963); (5100, 43964); (5101, 43965);
   (5102, 43966); (5103, 43967); (5104, 5112); (5105, 5113); (5106, 5114);
   (5107, 5115); (5108, 5116); (5109, 5117); (7312, 4304); (7313, 4305);
   (7314, 4306); (7315, 4307); (7316, 4308); (7317, 4309); (7318, 4310);
   (7319, 4311); (7320, 4312); (7321, 4313); (7322, 4314); (7323, 4315);
   (7324, 4316); (7325, 4317); (7326, 4318); (7327, 4319); (7328, 4320);
   (7329, 4321); (7330, 4322); (7331, 4323); (7332, 4324); (7333, 4325);
   (7334, 4326); (7335, 4327); (7336, 4328); (7337, 4329); (7338, 4330);
   (7339, 4331); (7340, 4332); (7341, 4333); (7342, 4334); (7343, 4335);
   (7344, 4336); (7345, 4337); (7346, 4338); (7347, 4339); (7348, 4340);
   (7349, 4341); (7350, 4342); (7351, 4343); (7352, 4344); (7353, 4345);
   (7354, 4346); (7357, 4349); (7358, 4350); (7359, 4351); (7680, 7681);
   (7682, 7683); (7684, 7685); (7686, 7687); (7688, 7689); (7690, 7691);
   (7692, 7693); (7694, 7695); (7696, 7697); (7698, 7699); (7700, 7701);
   (7702, 7703); (7704, 7705); (7706, 7707); (7708, 7709); (7710, 7711);
   (7712, 7713); (7714, 7715); (7716, 7717); (7718, 7719); (7720, 7721);
   (7722, 7723); (7724, 7725); (7726, 7727); (7728, 7729); (7730, 7731);
   (7732, 7733); (7734, 7735); (7736, 7737); (7738, 7739); (7740, 7741);
   (7742, 7743); (7744, 7745); (7746, 7747); (7748, 7749); (7750, 7751);
   (7752, 7753); (7754, 7755); (7756, 7757); (7758, 7759); (7760, 7761);
   (7762, 7763); (7764, 7765); (7766, 7767); (7768, 7769); (7770, 7771);
   (7772, 7773); (7774, 7775); (7776, 7777); (7778, 7779); (7780, 7781);
   (7782, 7783); (7784, 7785); (7786, 7787); (7788, 7789); (7790, 7791);
   (7792, 7793); (7794, 7795); (7796, 7797); (7798, 7799); (7800, 7801);
   (7802, 7803); (7804, 7805); (7806, 7807); (7808, 7809); (7810, 7811);
   (7812, 7813); (7814, 7815); (7816, 7817); (7818, 7819); (7820, 7821);
   (7822, 7823); (7824, 7825); (7826, 7827); (7828, 7829); (7838, 223);
   (7840, 7841); (7842, 7843); (7844, 7845); (7846, 7847); (7848, 7849);
   (7850, 7851); (7852, 7853); (7854, 7855); (7856, 7857); (7858, 7859);
   (7860, 7861); (7862, 7863); (7864, 7865); (7866, 7867); (7868, 7869);
   (7870, 7871); (7872, 7873); (7874, 7875); (7876, 7877); (7878, 7879);
   (7880, 7881); (7882, 7883); (7884, 7885); (7886, 7887); (7888, 7889);
   (7890, 7891); (7892, 7893); (7894, 7895); (7896, 7897); (7898, 7899);
   (7900, 7901); (7902, 7903); (7904, 7905); (7906, 7907); (7908, 7909);
   (7910, 7911); (7912, 7913); (7914, 7915); (7916, 7917); (7918, 7919);
   (7920, 7921); (7922, 7923); (7924, 7925); (7926, 7927); (7928, 7929);
   (7930, 7931); (7932, 7933); (7934, 7935); (7944, 7936); (7945, 7937);
   (7946, 7938); (7947, 7939); (7948, 7940); (7949, 7941); (7950, 7942);
   (7951, 7943); (7960, 7952); (7961, 7953); (7962, 7954); (7963, 7955);
   (7964, 7956); (7965, 7957); (7976, 7968); (7977, 7969); (7978, 7970);
   (7979, 7971); (7980, 7972); (7981, 7973); (7982, 7974); (7983, 7975);
   (7992, 7984); (7993, 7985); (7994, 7986); (7995, 7987); (7996, 7988);
   (7997, 7989); (7998, 7990); (7999, 7991); (8008, 8000); (8009, 8001);
   (8010, 8002); (8011, 8003); (8012, 8004); (8013, 8005); (8025, 8017);
   (8027, 8019); (8029, 8021); (8031, 8023); (8040, 8032); (8041, 8033);
   (8042, 8034); (8043, 8035); (8044, 8036); (8045, 8037); (8046, 8038);
   (8047, 8039); (8072, 8064); (8073, 8065); (8074, 8066); (8075, 8067);
   (8076, 8068); (8077, 8069); (8078, 8070); (8079, 8071); (8088, 8080);
   (8089, 8081); (8090, 8082); (8091, 8083); (8092, 8084); (8093, 8085);
   (8094, 8086); (8095, 8087); (8104, 8096); (8105, 8097); (8106, 8098);
   (8107, 8099); (8108, 8100); (8109, 8101); (8110, 8102); (8111, 8103);
   (8120, 8112); (8121, 8113); (8122, 8048); (8123, 8049); (8124, 8115);
   (8136, 8050); (8137, 8051); (8138, 8052); (8139, 8053); (8140, 8131);
   (8152, 8144); (8153, 8145); (8154, 8054); (8155, 8055); (8168, 8160);
   (8169, 8161); (8170, 8058); (8171, 8059); (8172, 8165); (8184, 8056);
   (8185, 8057); (8186, 8060); (8187, 8061); (8188, 8179); (8486, 969);
   (8491, 229); (8498, 8526); (8544, 8560); (8545, 8561); (8546, 8562);
   (8547, 8563); (8548, 8564); (8549, 8565); (8550, 8566); (8551, 8567);
   (8552, 8568); (8553, 8569); (8554, 8570); (8555, 8571); (8556, 8572);
   (8557, 8573); (8558, 8574); (8559, 8575); (8579, 8580); (9398, 9424);
   (9399, 9425); (9400, 9426); (9401, 9427); (9402, 9428); (9403, 9429);
   (9404, 9430); (9405, 9431); (9406, 9432); (9407, 9433); (9408, 9434);
   (9409, 9435); (9410, 9436); (9411, 9437); (9412, 9438); (9413, 9439);
   (9414, 9440); (9415, 9441); (9416, 9442); (9417, 9443); (9418, 9444);
   (9419, 9445); (9420, 9446); (9421, 9447); (9422, 9448); (9423, 9449);
   (11264, 11312); (11265, 11313); (11266, 11314); (11267, 11315); (11268, 11316);
   (11269, 11317); (11270, 11318); (11271, 11319); (11272, 11320); (11273, 11321);
   (11274, 11322); (11275, 11323); (11276, 11324); (11277, 11325); (11278, 11326);
   (11279, 11327); (11280, 11328); (11281, 11329); (11282, 11330); (11283, 11331);
   (11284, 11332); (11285, 11333); (11286, 11334); (11287, 11335); (11288, 11336);
   (11289, 11337); (11290, 11338); (11291, 11339); (11292, 11340); (11293, 11341);
   (11294, 11342); (11295, 11343); (11296, 11344); (11297, 11345); (11298, 11346);
   (11299, 11347); (11300, 11348); (11301, 11349); (11302, 11350); (11303, 11351);
   (11304, 11352); (11305, 11353); (11306, 11354); (11307, 11355); (11308, 11356);
   (11309, 11357); (11310, 11358); (11311, 11359); (11360, 11361); (11362, 619);
   (11363, 7549); (11364, 637); (11367, 11368); (11369, 11370); (11371, 11372);
   (11373, 593); (11374, 625); (11375, 592); (11376, 594); (11378, 11379);
   (11381, 11382); (11390, 575); (11391, 576); (11392, 11393); (11394, 11395);
   (11396, 11397); (11398, 11399); (11400, 11401); (11402, 11403); (11404, 11405);
   (11406, 11407); (11408, 11409); (11410, 11411); (11412, 11413); (11414, 11415);
   (11416, 11417); (11418, 11419); (11420, 11421); (11422, 11423); (11424, 11425);
   (11426, 11427); (11428, 11429); (11430, 11431); (11432, 11433); (11434, 11435);
   (11436, 11437); (11438, 11439); (11440, 11441); (11442, 11443); (11444, 11445);
   (11446, 11447); (11448, 11449); (11450, 11451); (11452, 11453); (11454, 11455);
   (11456, 11457); (11458, 11459); (11460, 11461); (11462, 11463); (11464, 11465);
   (11466, 11467); (11468, 11469); (11470, 11471); (11472, 11473); (11474, 11475);
   (11476, 11477); (11478, 11479); (11480, 11481); (11482, 11483); (11484, 11485);
   (11486, 11487); (11488, 11489); (11490, 11491); (11499, 11500); (11501, 11502);
   (11506, 11507); (42560, 42561); (42562, 42563); (42564, 42565); (42566, 42567);
   (42568, 42569); (42570, 42571); (42572, 42573); (42574, 42575); (42576, 42577);
   (42578, 42579); (42580, 42581); (42582, 42583); (42584, 42585); (42586, 42587);
   (42588, 42589); (42590, 42591); (42592, 42593); (42594, 42595); (42596, 42597);
   (42598, 42599); (42600, 42601); (42602, 42603); (42604, 42605); (42624, 42625);
   (42626, 42627); (42628, 42629); (42630, 42631); (42632, 42633); (42634, 42635);
   (42636, 42637); (42638, 42639); (42640, 42641); (42642, 42643); (42644, 42645);
   (42646, 42647); (42648, 42649); (42650, 42651); (42786, 42787); (42788, 42789);
   (42790, 42791); (42792, 42793); (42794, 42795); (42796, 42797); (42798, 42799);
   (42802, 42803); (42804, 42805); (42806, 42807); (42808, 42809); (42810, 42811);
   (42812, 42813); (42814, 42815); (42816, 42817); (42818, 42819); (42820, 42821);
   (42822, 42823); (42824, 42825); (42826, 42827); (42828, 42829); (42830, 42831);
   (42832, 42833); (42834, 42835); (42836, 42837); (42838, 42839); (42840, 42841);
   (42842, 42843); (42844, 42845); (42846, 42847); (42848, 42849); (42850, 42851);
   (42852, 42853); (42854, 42855); (42856, 42857); (42858, 42859); (42860, 42861);
   (42862, 42863); (42873, 42874); (42875, 42876); (42877, 7545); (42878, 42879);
   (42880, 42881); (42882, 42883); (42884, 42885); (42886, 42887); (42891, 42892);
   (42893, 613); (42896, 42897); (42898, 42899); (42902, 42903); (42904, 42905);
   (42906, 42907); (42908, 42909); (42910, 42911); (42912, 42913); (42914, 42915);
   (42916, 42917); (42918, 42919); (42920, 42921); (42922, 614); (42923, 604);
   (42924, 609); (42925, 620); (42926, 618); (42928, 670); (42929, 647);
   (42930, 669); (42931, 43859); (42932, 42933); (42934, 42935); (42936, 42937);
   (42938, 42939); (42940, 42941); (42942, 42943); (42944, 42945); (42946, 42947);
   (42948, 42900); (42949, 642); (42950, 7566); (42951, 42952); (42953, 42954);
   (42960, 42961); (42966, 42967); (42968, 42969); (42997, 42998); (65313, 65345);
   (65314, 65346); (65315, 65347); (65316, 65348); (65317, 65349); (65318, 65350);
   (65319, 65351); (65320, 65352); (65321, 65353); (65322, 65354); (65323, 65355);
   (65324, 65356); (65325, 65357); (65326, 65358); (65327, 65359); (65328, 65360);
   (65329, 65361); (65330, 65362); (65331, 65363); (65332, 65364); (65333, 65365);
   (65334, 65366); (65335, 65367); (65336, 65368); (65337, 65369); (65338, 65370)].

Fixpoint lower_other (c : N) (table : list (N * N)) : option N :=
  match table with
  | [] => None
  | (upper, lower) :: table' =>
      if c =? upper then Some lower else lower_other c table'
  end.

(** String.prototype.toLowerCase on one code unit: the ASCII capitals;
    U+0130, which gives i followed by U+0307; U+212A (the Kelvin sign),
    which gives k; the other capitals of the Basic Multilingual Plane by the
    table. The mapping is the one of a code unit on its own: the capital
    sigma gives the small sigma, also at the end of a word, where the
    engine writes the final form U+03C2, and a letter outside the Basic
    Multilingual Plane (a surrogate pair) is kept. Both results are code
    units above U+007F, as those of the table are. *)
Definition lower_unit (c : N) : list N :=
  if is_upper c then [c + 32]
  else if c =? 304 then [105; 775]
  else if c =? 8490 then [107]
  else match lower_other c lower_table with
       | Some lower => [lower]
       | None => [c]
       end.

Definition toLowerCase (s : jsstring) : jsstring :=
  flat_map lower_unit s.

(** s.trim() *)
Fixpoint trimStart (s : jsstring) : jsstring :=
  match s with
  | c :: s' => if is_space c then trimStart s' else s
  | [] => []
  end.

Definition trim (s : jsstring) : jsstring :=
  rev (trimStart (rev (trimStart s))).

(** a.length on an array *)
Definition array_length {A : Type} (a : list A) : Z :=
  Z.of_nat (List.length a).

(** a.join(sep) on an array of strings *)
Fixpoint join (sep : jsstring) (a : list jsstring) : jsstring :=
  match a with
  | [] => []
  | [x] => x
  | x :: a' => x ++ sep ++ join sep a'
  end.

(** a.includes(x) on an array of strings *)
Definition array_includes (a : list jsstring) (x : jsstring) : bool :=
  existsb (jsstring_eqb x) a.

(** errors.push(e) *)
Definition push (errors : list jsstring) (e : jsstring) : list jsstring :=
  errors ++ [e].

(** Every message shown to the user starts with the cross mark and a
    space. *)
Definition msg (text : jsstring) : jsstring := cross :: str " " ++ text.

(** The text of an integer in a template literal. *)
Definition of_Z (z : Z) : jsstring :=
  str (NilZero.string_of_int (Z.to_int z)).

End JS.

Import JS.

(** ** The upload page: sanitizeFileName *)

Module Client.

(** fileName.replace(/\.\./g, ''): the matches are found from left to
    right and do not overlap. *)
Fixpoint remove_dotdot (s : jsstring) : jsstring :=
  match s with
  | a :: s' =>
      match s' with
      | b :: s'' =>
          if (a =? dot) && (b =? dot) then remove_dotdot s''
          else a :: remove_dotdot s'
      | [] => [a]
      end
  | [] => []
  end.

(** The class [a-zA-Z0-9._-]. *)
Definition is_safe (c : N) : bool :=
  is_lower c || is_upper c || is_digit c
  || (c =? dot) || (c =? underscore) || (c =? 45).

(** fileName.replace(/[^a-zA-Z0-9._-]/g, '_') *)
Definition replace_unsafe (s : jsstring) : jsstring :=
  map (fun c => if is_safe c then c else underscore) s.

Definition sanitizeFileName (fileName : jsstring) : jsstring :=
  let fileName := remove_dotdot fileName in
  let fileName := replace_unsafe fileName in
  let fileName :=
    if startsWith fileName (str ".") then str "file_" ++ fileName
    else fileName in
  if (200 <? JS.length fileName)%Z then
    let ext := substring_from fileName (lastIndexOf fileName dot) in
    substring fileName 0 (200 - JS.length ext) ++ ext
  else fileName.

(** ** The upload page: validateFile *)

(** The File object of the browser, as far as the page reads it. *)
Record File := {
  name : jsstring;
  size : Z;
  type : jsstring
}.

Definition MAX_FILE_SIZE : Z := 50 * 1024 * 1024.
Definition MIN_FILE_SIZE : Z := 1024.
Definition ALLOWED_EXTENSIONS : list jsstring := [str ".xlsx"; str ".xls"].
Definition REQUIRED_COLUMNS : list jsstring :=
  [str "barangay"; str "lat"; str "lng"; str "datecommitted";
   str "timecommitted"; str "offensetype"].
Definition SEVERITY_CALC_COLUMNS : list jsstring :=
  [str "victimcount"; str "suspectcount"; str "victiminjured";
   str "victimkilled"; str "victimunharmed"; str "suspectkilled"].
Definition ALL_REQUIRED_COLUMNS : list jsstring :=
  REQUIRED_COLUMNS ++ SEVERITY_CALC_COLUMNS.

Definition two_digits (n : Z) : jsstring :=
  of_Z (n / 10) ++ of_Z (n mod 10).

(** (bytes / (1024 * 1024)).toFixed(2). The division by a power of two is
    exact on a size below 2^53, and toFixed takes the integer n closest to
    100 times the quotient, the larger one on a tie. *)
Definition megabytes_toFixed2 (bytes : Z) : jsstring :=
  let n := ((200 * bytes + 1048576) / 2097152)%Z in
  of_Z (n / 100) ++ str "." ++ two_digits (n mod 100).

Definition too_large_msg (bytes : Z) : jsstring :=
  msg (str "File is too large (" ++ megabytes_toFixed2 bytes
       ++ str "MB) - maximum size is "
       ++ of_Z (MAX_FILE_SIZE / (1024 * 1024)) ++ str "MB").

Definition too_small_msg (bytes : Z) : jsstring :=
  msg (str "File is too small (" ++ of_Z bytes
       ++ str " bytes) - it may be empty or corrupted").

Definition invalid_chars_msg : jsstring :=
  msg (str "File name contains invalid characters - please use only letters, numbers, dashes, and underscores").
Definition too_long_msg : jsstring :=
  msg (str "File name is too long - please shorten it to 255 characters or less").
Definition malicious_msg : jsstring :=
  msg (str "File name contains potentially malicious content").
Definition invalid_type_msg (fileExtension : jsstring) : jsstring :=
  msg (str "Invalid file type " ++ quoted fileExtension
       ++ str " - only .xlsx and .xls files are allowed").
Definition multiple_ext_msg : jsstring :=
  msg (str "File has multiple extensions - please use a single extension (.xlsx or .xls)").
Definition hidden_msg : jsstring :=
  msg (str "Hidden files (starting with " ++ quoted (str ".")
       ++ str ") are not allowed").
Definition mime_msg : jsstring :=
  msg (str "File type doesn't match Excel format - make sure it's a genuine .xlsx or .xls file").

(** The class of /[\x00-\x1F\x7F<>:...|?*]/: the control characters and
    the characters < > : | ? * and the double quote. *)
Definition is_forbidden (c : N) : bool :=
  in_range 0 31 c || (c =? 127) || (c =? 60) || (c =? 62) || (c =? 58)
  || (c =? dquote) || (c =? 124) || (c =? 63) || (c =? 42).

(** Matching under the i flag without the u flag: a code unit above U+007F
    never matches an ASCII one, so only the ASCII capitals are folded. *)
Definition fold_case (s : jsstring) : jsstring :=
  map (fun c => if is_upper c then c + 32 else c) s.

(** /<script|javascript:|onerror=|onload=/i.test(fileName) *)
Definition script_injection (fileName : jsstring) : bool :=
  let folded := fold_case fileName in
  includes folded (str "<script") || includes folded (str "javascript:")
  || includes folded (str "onerror=") || includes folded (str "onload=").

(** (fileName.match(/\./g) || []).length *)
Definition count_dots (fileName : jsstring) : Z :=
  array_length (List.filter (fun c => c =? dot) fileName).

Definition validMimeTypes : list jsstring :=
  [str "application/vnd.openxmlformats-officedocument.spreadsheetml.sheet";
   str "application/vnd.ms-excel"].

Definition validateFile (file : File) : list jsstring :=
  let errors := [] in
  let errors :=
    if (MAX_FILE_SIZE <? size file)%Z
    then push errors (too_large_msg (size file)) else errors in
  let errors :=
    if (size file <? MIN_FILE_SIZE)%Z
    then push errors (too_small_msg (size file)) else errors in
  let fileName := name file in
  let errors :=
    if existsb is_forbidden fileName
    then push errors invalid_chars_msg else errors in
  let errors :=
    if (255 <? JS.length fileName)%Z
    then push errors too_long_msg else errors in
  let errors :=
    if script_injection fileName
    then push errors malicious_msg else errors in
  let fileExtension :=
    toLowerCase (substring_from fileName (lastIndexOf fileName dot)) in
  let errors :=
    if negb (array_includes ALLOWED_EXTENSIONS fileExtension)
    then push errors (invalid_type_msg fileExtension) else errors in
  let extensionCount := count_dots fileName in
  let errors :=
    if (1 <? extensionCount)%Z
    then push errors multiple_ext_msg else errors in
  let errors :=
    if startsWith fileName (str ".")
    then push errors hidden_msg else errors in
  let errors :=
    if negb (array_includes validMimeTypes (type file))
       && negb (jsstring_eqb (type file) [])
    then push errors mime_msg else errors in
  errors.

(** ** The upload page: onDrop *)

(** The metadata field appended to the form. *)
Record Metadata := {
  originalName : jsstring;
  sanitizedName : jsstring;
  meta_size : Z;
  meta_type : jsstring;
  requiredColumns : list jsstring;
  severityCalcColumns : list jsstring;
  allRequiredColumns : list jsstring;
  requireYearInSheetName : bool
}.

Record FormData := {
  form_file : File;
  form_metadata : Metadata
}.

(** What a run of onDrop does to the page and to the network, in order.
    Console output is left out. *)
Inductive effect : Type :=
| setValidationErrors (errors : list jsstring)
| setProcessingStage (stage : jsstring)
| setUploadStatus (status : jsstring)
| setCurrentStep (step : Z)
| logProcessingFailed (reason : jsstring)
| fetchPost (url : jsstring) (body : FormData).

(** An entry of rejectedFiles: the file and the errors of the drop zone. *)
Record FileError := { code : jsstring; message : jsstring }.
Record Rejection := { rejected_file : File; fileErrors : list FileError }.

Definition rejection_msg (file : File) (error : FileError) : jsstring :=
  if jsstring_eqb (code error) (str "file-too-large") then
    msg (quoted (name file) ++ str " exceeds the maximum file size of 50MB")
  else if jsstring_eqb (code error) (str "file-invalid-type") then
    msg (quoted (name file)
         ++ str " is not a valid Excel file - only .xlsx and .xls formats are accepted")
  else if jsstring_eqb (code error) (str "too-many-files") then
    msg (str "Please upload only one file at a time")
  else if jsstring_eqb (code error) (str "validation-failed") then
    message error
  else msg (name file ++ str ": " ++ message error).

Definition failed_status : jsstring := msg (str "File validation failed").

Definition resetStatus : list effect :=
  [setUploadStatus []; setProcessingStage []; setCurrentStep 0;
   setValidationErrors []].

Definition upload_url : jsstring := str "http://localhost:5000/upload".

(** U+1F4E4 as a surrogate pair, then the text of the status line. *)
Definition uploading_status : jsstring :=
  [55357; 56548] ++ str " Uploading file...".

(** The body of acceptedFiles.forEach, up to the call of fetch; what the
    promise does with the answer is not part of this model. *)
Definition onDrop_file (file : File) : list effect :=
  let validationErrorsList := validateFile file in
  if (0 <? array_length validationErrorsList)%Z then
    [setValidationErrors validationErrorsList;
     setProcessingStage (str "error");
     setUploadStatus failed_status;
     logProcessingFailed
       (str "Validation failed: " ++ join (str ", ") validationErrorsList)]
  else
    let sanitizedFileName := sanitizeFileName (name file) in
    let fileToUpload :=
      if negb (jsstring_eqb sanitizedFileName (name file))
      then {| name := sanitizedFileName; size := size file;
              type := type file |}
      else file in
    let formData :=
      {| form_file := fileToUpload;
         form_metadata :=
           {| originalName := name file;
              sanitizedName := sanitizedFileName;
              meta_size := size file;
              meta_type := type file;
              requiredColumns := REQUIRED_COLUMNS;
              severityCalcColumns := SEVERITY_CALC_COLUMNS;
              allRequiredColumns := ALL_REQUIRED_COLUMNS;
              requireYearInSheetName := true |} |} in
    [setProcessingStage (str "uploading");
     setCurrentStep 1;
     setUploadStatus uploading_status;
     fetchPost upload_url formData].

Definition onDrop (acceptedFiles : list File)
    (rejectedFiles : list Rejection) : list effect :=
  if (0 <? array_length rejectedFiles)%Z then
    let errors :=
      flat_map (fun r => map (rejection_msg (rejected_file r)) (fileErrors r))
               rejectedFiles in
    [setValidationErrors errors;
     setProcessingStage (str "error");
     setUploadStatus failed_status]
  else if (array_length acceptedFiles =? 0)%Z then []
  else resetStatus ++ flat_map onDrop_file acceptedFiles.

(** The files a run of onDrop hands to fetch. *)
Definition sent_files (effects : list effect) : list File :=
  flat_map (fun e => match e with
                     | fetchPost _ body => [form_file body]
                     | _ => []
                     end) effects.

End Client.

(** ** The back end: validateExcelFile *)

Module Server.

Definition REQUIRED_COLUMNS : list jsstring :=
  [str "barangay"; str "lat"; str "lng"; str "datecommitted";
   str "timecommitted"; str "offensetype"].
Definition SEVERITY_CALC_COLUMNS : list jsstring :=
  [str "victimcount"; str "suspectcount"; str "victiminjured";
   str "victimkilled"; str "victimunharmed"; str "suspectkilled"].
Definition ALL_REQUIRED_COLUMNS : list jsstring :=
  REQUIRED_COLUMNS ++ SEVERITY_CALC_COLUMNS.

(** A worksheet, by the rows XLSX.utils.sheet_to_json(worksheet,
    {header: 1}) makes of it; a cell is given by the text String(cell), and
    an empty cell, which is a hole of the row that map and some skip, is
    left out. *)
Abbreviation worksheet := (list (list jsstring)) (only parsing).

Record workbook := {
  SheetNames : list jsstring;
  Sheets : gmap jsstring worksheet
}.

(** A file of the data folder, by what XLSX.readFile makes of its bytes: a
    workbook, or an exception with its message. *)
Inductive contents : Type :=
| Spreadsheet (wb : workbook)
| Unparsable (message : jsstring).

Definition enoent (filePath : jsstring) : jsstring :=
  str "ENOENT: no such file or directory, open '" ++ filePath ++ str "'".

(** XLSX.readFile(filePath): the workbook, or the message of what it
    throws. *)
Definition readFile (files : gmap jsstring contents) (filePath : jsstring)
    : jsstring + workbook :=
  match files !! filePath with
  | Some (Spreadsheet wb) => inr wb
  | Some (Unparsable message) => inl message
  | None => inl (enoent filePath)
  end.

(** sheet_to_json gives no rows for a sheet that is not there. *)
Definition sheet_to_json (ws : option worksheet) : worksheet :=
  default [] ws.

(** Whether the code unit at index i is a word character; there is none
    outside the string. *)
Definition word_at (s : jsstring) (i : nat) : bool :=
  match s !! i with
  | Some c => is_word c
  | None => false
  end.

(** The assertion \b at index i: exactly one of the code units before and
    after the position is a word character. *)
Definition word_boundary (s : jsstring) (i : nat) : bool :=
  xorb (match i with O => false | S j => word_at s j end) (word_at s i).

Definition unit_at (s : jsstring) (i : nat) (p : N -> bool) : bool :=
  match s !! i with
  | Some c => p c
  | None => false
  end.

(** /\b(19|20)\d{2}\b/ matched at index i. *)
Definition year_at (s : jsstring) (i : nat) : bool :=
  word_boundary s i
  && ((unit_at s i (N.eqb 49) && unit_at s (i + 1) (N.eqb 57))
      || (unit_at s i (N.eqb 50) && unit_at s (i + 1) (N.eqb 48)))
  && unit_at s (i + 2) is_digit
  && unit_at s (i + 3) is_digit
  && word_boundary s (i + 4).

(** sheetName.match(yearRegex): the text of the leftmost match, or null. *)
Definition match_year (sheetName : jsstring) : option jsstring :=
  match List.find (year_at sheetName) (seq 0 (List.length sheetName)) with
  | Some i => Some (take 4 (drop i sheetName))
  | None => None
  end.

(** replace(/\s+/g, '_'): each run of white space becomes one underscore. *)
Fixpoint collapse_spaces (in_run : bool) (s : jsstring) : jsstring :=
  match s with
  | [] => []
  | c :: s' =>
      if is_space c
      then (if in_run then [] else [underscore]) ++ collapse_spaces true s'
      else c :: collapse_spaces false s'
  end.

(** String(h).trim().toLowerCase().replace(/\s+/g, '_')
    .replace(/[^\w]/g, '') *)
Definition normalizeHeader (h : jsstring) : jsstring :=
  List.filter is_word
         (collapse_spaces false (toLowerCase (trim h))).

(** col.replace(/_/g, '') *)
Definition remove_underscores (col : jsstring) : jsstring :=
  List.filter (fun c => negb (c =? underscore)) col.

(** The callback of normalizedHeaders.some for the column col. *)
Definition found (normalizedHeaders : list jsstring) (col : jsstring)
    : bool :=
  let normalizedCol := toLowerCase (remove_underscores col) in
  existsb
    (fun header =>
       let normalizedHeader := toLowerCase header in
       if jsstring_eqb normalizedHeader normalizedCol then true
       else
         let colWithUnderscore := toLowerCase col in
         if jsstring_eqb normalizedHeader colWithUnderscore then true
         else false)
    normalizedHeaders.

Definition no_sheets_msg : jsstring :=
  msg (str "Excel file contains no sheets - please add at least one sheet with data").

Definition year_msg (sheetName : jsstring) : jsstring :=
  msg (str "Sheet name " ++ quoted sheetName
       ++ str " must include a 4-digit year (e.g., " ++ quoted (str "2023")
       ++ str ", " ++ quoted (str "Accidents_2024") ++ str ", or "
       ++ quoted (str "Data_2025") ++ str ")").

Definition empty_msg (sheetName : jsstring) : jsstring :=
  msg (str "Sheet " ++ quoted sheetName
       ++ str " is completely empty - please add data to this sheet").

Definition missing_basic_msg (sheetName : jsstring)
    (missingBasic : list jsstring) : jsstring :=
  msg (str "Sheet " ++ quoted sheetName ++ str " is missing basic columns: "
       ++ join (str ", ") missingBasic).

Definition missing_severity_msg (sheetName : jsstring)
    (missingSeverity : list jsstring) : jsstring :=
  msg (str "Sheet " ++ quoted sheetName
       ++ str " is missing severity columns: "
       ++ join (str ", ") missingSeverity).

Definition headers_only_msg (sheetName : jsstring) : jsstring :=
  msg (str "Sheet " ++ quoted sheetName
       ++ str " only has column headers but no data rows").

Definition corrupted_msg : jsstring :=
  msg (str "This file appears to be corrupted or is not a valid Excel file (.xlsx or .xls)").
Definition not_found_msg : jsstring :=
  msg (str "File could not be found - please try uploading again").
Definition unreadable_msg : jsstring :=
  msg (str "Unable to read Excel file - it may be corrupted, password-protected, or have an invalid format").

(** The column check of one sheet: the messages it pushes. *)
Definition check_columns (errors : list jsstring) (sheetName : jsstring)
    (headers : list jsstring) : list jsstring :=
  let normalizedHeaders := map normalizeHeader headers in
  let missingColumns :=
    List.filter (fun col => negb (found normalizedHeaders col))
           ALL_REQUIRED_COLUMNS in
  if (0 <? array_length missingColumns)%Z then
    let missingBasic :=
      List.filter (fun col => array_includes REQUIRED_COLUMNS col)
             missingColumns in
    let missingSeverity :=
      List.filter (fun col => array_includes SEVERITY_CALC_COLUMNS col)
             missingColumns in
    let errors :=
      if (0 <? array_length missingBasic)%Z
      then push errors (missing_basic_msg sheetName missingBasic)
      else errors in
    if (0 <? array_length missingSeverity)%Z
    then push errors (missing_severity_msg sheetName missingSeverity)
    else errors
  else errors.

(** The callback of sheetNames.forEach: the error list after the sheet. *)
Definition validate_sheet (wb : workbook) (errors : list jsstring)
    (sheetName : jsstring) : list jsstring :=
  let yearMatch := match_year sheetName in
  let errors :=
    match yearMatch with
    | None => push errors (year_msg sheetName)
    | Some _ => errors
    end in
  let jsonData := sheet_to_json (Sheets wb !! sheetName) in
  match jsonData with
  | [] => push errors (empty_msg sheetName)
  | headers :: _ =>
      let errors := check_columns errors sheetName headers in
      if (array_length jsonData <? 2)%Z
      then push errors (headers_only_msg sheetName)
      else errors
  end.

Record ValidationOutcome := {
  valid : bool;
  errors : list jsstring
}.

Definition validateExcelFile (files : gmap jsstring contents)
    (filePath : jsstring) : ValidationOutcome :=
  match readFile files filePath with
  | inr workbook =>
      let sheetNames := SheetNames workbook in
      if (array_length sheetNames =? 0)%Z then
        {| valid := false; errors := push [] no_sheets_msg |}
      else
        let errors := fold_left (validate_sheet workbook) sheetNames [] in
        if (array_length errors =? 0)%Z
        then {| valid := true; errors := [] |}
        else {| valid := false; errors := errors |}
  | inl message =>
      if includes message (str "Unsupported file") then
        {| valid := false; errors := push [] corrupted_msg |}
      else if includes message (str "ENOENT")
              || includes message (str "no such file") then
        {| valid := false; errors := push [] not_found_msg |}
      else {| valid := false; errors := push [] unreadable_msg |}
  end.

(** ** The back end: the pipeline orchestrator *)

(** The global processing state of server.js. Times are in milliseconds
    since the epoch. *)
Record PipelineRun := {
  isProcessing : bool;
  processingStartTime : option Z;
  processingError : option jsstring
}.

(** The continuations runPythonScripts passes to runSingleScript. *)
Inductive callback : Type :=
| run_next (scriptPath : jsstring) (onSuccess : callback)
    (* () => runSingleScript(scriptPath, onSuccess) *)
| finish.
    (* () => { isProcessing = false } *)

(** A child process started by runSingleScript, with the arguments its
    handlers have captured; closed once its close event has been handled. *)
Record child := {
  scriptPath : jsstring;
  onSuccess : option callback;
  closed : bool
}.

(** The server: the global state, the child processes in the order they
    were spawned (a process is named by its index), and the data folder as
    the handlers of server.js write and read it. What the Python scripts do
    to the folder while they run is no part of this state. *)
Record server := {
  run : PipelineRun;
  children : list child;
  files : gmap jsstring contents
}.

(** The objects handed to res.json: their fields in order, each with a
    value of one of the kinds the routes use. *)
Inductive value : Type :=
| JNull
| JBool (b : bool)
| JNum (n : Z)
| JStr (s : jsstring)
| JDate (ms : Z)
| JStrings (items : list jsstring).

Abbreviation json := (list (string * value)) (only parsing).

(** What a handler does to the outside, in order. Console output is left
    out. *)
Inductive action : Type :=
| respond (status : Z) (body : json)
| spawn (pid : nat) (script : jsstring)
| unlink (filePath : jsstring).

(** What reaches the server: the two routes (requests to /upload as multer
    hands them over, with the file of the field or none), and the close
    and error events of the child processes. *)
Record part := {
  originalname : jsstring;
  data : contents
}.

Inductive event : Type :=
| GetStatus (now : Z)
| PostUpload (now : Z) (file : option part)
| ChildClose (pid : nat) (code : option Z)
| ChildError (pid : nat) (message : jsstring).

Definition slash : N := 47.

(** The segments of a path, between its separators. *)
Fixpoint segments (p : jsstring) : list jsstring :=
  match p with
  | [] => [[]]
  | c :: p' =>
      if c =? slash then [] :: segments p'
      else match segments p' with
           | seg :: segs => (c :: seg) :: segs
           | [] => [[c]]
           end
  end.

(** One segment in the normalization of a path: an empty segment and the
    segment . are dropped; the segment .. removes the segment before it,
    and where there is none to remove it is kept in a relative path
    (allowAboveRoot) and dropped in an absolute one. *)
Definition normalize_segment (allowAboveRoot : bool) (res : list jsstring)
    (seg : jsstring) : list jsstring :=
  if jsstring_eqb seg [] || jsstring_eqb seg (str ".") then res
  else if jsstring_eqb seg (str "..") then
    match last res with
    | Some l =>
        if jsstring_eqb l (str "..")
        then (if allowAboveRoot then res ++ [seg] else res)
        else removelast res
    | None => if allowAboveRoot then [seg] else []
    end
  else res ++ [seg].

(** path.normalize(p) of POSIX *)
Definition normalize (p : jsstring) : jsstring :=
  match p with
  | [] => str "."
  | c :: _ =>
      let isAbsolute := c =? slash in
      let trailingSeparator :=
        match last p with
        | Some l => l =? slash
        | None => false
        end in
      let path :=
        join [slash]
             (fold_left (normalize_segment (negb isAbsolute))
                        (segments p) []) in
      match path with
      | [] =>
          if isAbsolute then [slash]
          else if trailingSeparator then str "./" else str "."
      | _ :: _ =>
          (if isAbsolute then [slash] else [])
          ++ path ++ (if trailingSeparator then [slash] else [])
      end
  end.

(** path.join(dir, file) of POSIX: the arguments that are not empty, with
    a separator between them, normalized. *)
Definition path_join (dir file : jsstring) : jsstring :=
  match dir, file with
  | [], [] => str "."
  | [], _ :: _ => normalize file
  | _ :: _, [] => normalize dir
  | _ :: _, _ :: _ => normalize (dir ++ [slash] ++ file)
  end.

(** A path without the separators at its end. *)
Fixpoint strip_slashes (p : jsstring) : jsstring :=
  match p with
  | [] => []
  | c :: p' =>
      match strip_slashes p' with
      | [] => if c =? slash then [] else [c]
      | q :: qs => c :: q :: qs
      end
  end.

(** path.basename(p) of POSIX: the last segment of the path, separators at
    the end of the path set aside. *)
Definition basename (p : jsstring) : jsstring :=
  let p := strip_slashes p in
  substring_from p (lastIndexOf p slash + 1).

(** The text of an exit code in a template literal; the code is null when
    a signal ended the process. *)
Definition code_text (code : option Z) : jsstring :=
  match code with
  | Some n => of_Z n
  | None => str "null"
  end.

Definition exit_msg (scriptPath : jsstring) (code : option Z) : jsstring :=
  str "Script " ++ basename scriptPath ++ str " failed with exit code "
  ++ code_text code.

Definition start_msg (scriptPath : jsstring) (message : jsstring)
    : jsstring :=
  str "Failed to start " ++ basename scriptPath ++ str ": " ++ message.

Definition set_run (s : server) (r : PipelineRun) : server :=
  {| run := r; children := children s; files := files s |}.

(** isProcessing = false; processingError = e *)
Definition fail (s : server) (e : jsstring) : server :=
  set_run s {| isProcessing := false;
               processingStartTime := processingStartTime (run s);
               processingError := Some e |}.

(** runSingleScript: spawn the process and register the two handlers. *)
Definition runSingleScript (scriptPath : jsstring)
    (onSuccess : option callback) (s : server) : server * list action :=
  ({| run := run s;
      children := children s ++ [{| scriptPath := scriptPath;
                                    onSuccess := onSuccess;
                                    closed := false |}];
      files := files s |},
   [spawn (List.length (children s)) scriptPath]).

Definition call (cb : callback) (s : server) : server * list action :=
  match cb with
  | run_next scriptPath onSuccess =>
      runSingleScript scriptPath (Some onSuccess) s
  | finish =>
      (set_run s {| isProcessing := false;
                    processingStartTime := processingStartTime (run s);
                    processingError := processingError (run s) |}, [])
  end.

(** process.on("close", ...) of the child pid. *)
Definition on_close (pid : nat) (code : option Z) (s : server)
    : server * list action :=
  match children s !! pid with
  | Some c =>
      if closed c then (s, [])
      else
        let s :=
          {| run := run s;
             children := <[pid := {| scriptPath := scriptPath c;
                                     onSuccess := onSuccess c;
                                     closed := true |}]> (children s);
             files := files s |} in
        if bool_decide (code = Some 0%Z) then
          match onSuccess c with
          | Some cb => call cb s
          | None => (s, [])
          end
        else (fail s (exit_msg (scriptPath c) code), [])
  | None => (s, [])
  end.

(** process.on("error", ...) of the child pid. *)
Definition on_error (pid : nat) (message : jsstring) (s : server)
    : server * list action :=
  match children s !! pid with
  | Some c =>
      if closed c then (s, [])
      else (fail s (start_msg (scriptPath c) message), [])
  | None => (s, [])
  end.

Section Routes.

(** process.cwd() *)
Variable cwd : jsstring.

Definition dataFolder : jsstring := path_join cwd (str "data").

Definition script1 : jsstring := path_join cwd (str "cleaning2.py").
Definition script2 : jsstring := path_join cwd (str "export_geojson.py").
Definition script3 : jsstring := path_join cwd (str "cluster_hdbscan.py").
Definition cleanupScript : jsstring :=
  path_join cwd (str "cleanup_files.py").
Definition uploadScript : jsstring :=
  path_join cwd (str "mobile_cluster_fetch.py").

Definition runPythonScripts (now : Z) (s : server)
    : server * list action :=
  let s := set_run s {| isProcessing := true;
                        processingStartTime := Some now;
                        processingError := None |} in
  runSingleScript script1
    (Some (run_next cleanupScript
             (run_next script2
                (run_next script3
                   (run_next uploadScript finish))))) s.

(** A string is truthy when it is not empty, null is not. *)
Definition truthy (v : option jsstring) : bool :=
  match v with
  | Some (_ :: _) => true
  | _ => false
  end.

Definition status_of (r : PipelineRun) : jsstring :=
  if isProcessing r then str "processing"
  else if truthy (processingError r) then str "error"
  else str "idle".

(** app.get("/status") *)
Definition get_status (now : Z) (s : server) : server * list action :=
  let r := run s in
  let processingTime :=
    match processingStartTime r with
    | Some t => ((now - t) / 1000)%Z
    | None => 0%Z
    end in
  let statusResponse :=
    [("isProcessing"%string, JBool (isProcessing r));
          ("processingTime"%string, JNum processingTime);
          ("processingStartTime"%string,
           match processingStartTime r with
           | Some t => JDate t
           | None => JNull
           end);
          ("processingError"%string,
           match processingError r with
           | Some e => JStr e
           | None => JNull
           end);
          ("status"%string, JStr (status_of r))] in
  (s, [respond 200 statusResponse]).

(** The disk storage of multer: the file goes to the data folder under
    file.originalname. *)
Definition filename (file : part) : jsstring := originalname file.
Definition file_path (file : part) : jsstring :=
  path_join dataFolder (filename file).

Definition multer_store (file : part) (s : server) : server :=
  {| run := run s; children := children s;
     files := <[file_path file := data file]> (files s) |}.

(** app.post("/upload", upload.single("file"), ...) *)
Definition post_upload (now : Z) (file : option part) (s : server)
    : server * list action :=
  match file with
  | None =>
      (s, [respond 400
             ([("message"%string, JStr (str "No file uploaded"));
                    ("error"%string, JStr (str "No file received"))])])
  | Some file =>
      let s := multer_store file s in
      let filePath := file_path file in
      let validation := validateExcelFile (files s) filePath in
      if negb (valid validation) then
        let s := {| run := run s; children := children s;
                    files := delete filePath (files s) |} in
        (s, [unlink filePath;
             respond 400
               ([("message"%string,
                       JStr (str "Excel file validation failed"));
                      ("error"%string,
                       JStr (str "File does not meet requirements"));
                      ("validationErrors"%string,
                       JStrings (errors validation))])])
      else
        let response :=
          respond 200
            ([("message"%string,
                    JStr (str "File validated successfully. Processing started..."));
                   ("filename"%string, JStr (filename file))]) in
        let (s, spawned) := runPythonScripts now s in
        (s, response :: spawned)
  end.

Definition step (s : server) (e : event) : server * list action :=
  match e with
  | GetStatus now => get_status now s
  | PostUpload now file => post_upload now file s
  | ChildClose pid code => on_close pid code s
  | ChildError pid message => on_error pid message s
  end.

(** The server after a sequence of events, with all it did on the way. *)
Fixpoint run_events (s : server) (es : list event)
    : server * list action :=
  match es with
  | [] => (s, [])
  | e :: es' =>
      let (s1, a1) := step s e in
      let (s2, a2) := run_events s1 es' in
      (s2, a1 ++ a2)
  end.

(** The server at start-up, with whatever the data folder holds. *)
Definition idle : PipelineRun :=
  {| isProcessing := false; processingStartTime := None;
     processingError := None |}.

Definition init (files : gmap jsstring contents) : server :=
  {| run := idle; children := []; files := files |}.

Inductive reachable : server -> Prop :=
| reach_init files : reachable (init files)
| reach_step s e : reachable s -> reachable (fst (step s e)).

End Routes.

(** A field of a response object. *)
Definition field (key : string) (body : json) : option value :=
  match List.find (fun kv => String.eqb (fst kv) key) body with
  | Some kv => Some (snd kv)
  | None => None
  end.

End Server.

(** ** The properties of the specification, in its own words *)

Module Spec.

(** A sheet name contains a 4-digit substring in 1900-2099: four
    consecutive digits whose value lies in that range. *)
Definition digit_value (c : N) : Z := Z.of_N c - 48.

Definition year_value (w : jsstring) : option Z :=
  match w with
  | [a; b; c; d] =>
      if forallb is_digit w
      then Some (1000 * digit_value a + 100 * digit_value b
                 + 10 * digit_value c + digit_value d)%Z
      else None
  | _ => None
  end.

Definition is_year (w : jsstring) : bool :=
  match year_value w with
  | Some y => (1900 <=? y)%Z && (y <=? 2099)%Z
  | None => false
  end.

Definition has_year_substring (sheetName : jsstring) : bool :=
  existsb (fun i => is_year (take 4 (drop i sheetName)))
          (seq 0 (List.length sheetName)).

(** A size is inside the inclusive range [1024, 50 x 1024 x 1024]. *)
Definition size_in_range (bytes : Z) : Prop :=
  (1024 <= bytes <= 50 * 1024 * 1024)%Z.

(** The number of messages of a kind in an error list. *)
Definition count (kind : jsstring -> bool) (errors : list jsstring) : nat :=
  List.length (List.filter kind errors).

(** A size error of the upload page: one of its two messages on the size,
    which are the only ones that start with this text. *)
Definition is_size_error (e : jsstring) : bool :=
  startsWith e (msg (str "File is too ")).

(** A message on the year of a sheet name: the only ones that start with
    this text. *)
Definition is_year_error (e : jsstring) : bool :=
  startsWith e (msg (str "Sheet name ")).

(** A message on the missing severity columns of the sheet sheetName. *)
Definition is_severity_error (sheetName e : jsstring) : bool :=
  startsWith e (msg (str "Sheet " ++ quoted sheetName
                     ++ str " is missing severity columns: ")).

(** The success response the specification gives to the upload route. *)
Definition accepted_response (filename : jsstring)
    : list (string * Server.value) :=
  [("accepted"%string, Server.JBool true);
   ("filename"%string, Server.JStr filename)].

End Spec.

(** ** Runs of the pipeline *)

Module Runs.

Import Server.

(** The object of the success response of the upload route. *)
Definition success_body (filename : jsstring) : list (string * value) :=
  [("message"%string,
    JStr (str "File validated successfully. Processing started..."));
   ("filename"%string, JStr filename)].

(** The invariant of the global state: an error that is set goes with
    isProcessing = false. *)
Definition error_excludes_processing (r : PipelineRun) : Prop :=
  processingError r <> None -> isProcessing r = false.

(** The file names of the stages, in the order runPythonScripts nests
    them. *)
Definition stage_names : list jsstring :=
  [str "cleaning2.py"; str "cleanup_files.py"; str "export_geojson.py";
   str "cluster_hdbscan.py"; str "mobile_cluster_fetch.py"].

Definition stage_scripts (cwd : jsstring) : list jsstring :=
  map (path_join cwd) stage_names.

(** The continuation that runs the scripts ps one after the other. *)
Fixpoint chain (ps : list jsstring) : callback :=
  match ps with
  | [] => finish
  | p :: ps' => run_next p (chain ps')
  end.

(** The child process of stage i (counted from 0) of the scripts all. *)
Definition stage_child (all : list jsstring) (i : nat) (done : bool)
    : child :=
  {| scriptPath := default [] (all !! i);
     onSuccess := Some (chain (drop (S i) all));
     closed := done |}.

(** The children of a run that has reached stage j: the stages before it
    have closed. *)
Definition run_children (all : list jsstring) (j : nat) (done : bool)
    : list child :=
  map (fun i => stage_child all i true) (seq 0 j) ++ [stage_child all j done].

(** The first j stages of the run whose first process is n exit with
    code 0. *)
Definition successes (n j : nat) : list event :=
  map (fun i => ChildClose (n + i) (Some 0%Z)) (seq 0 j).

(** The ways a stage fails: its process exits with a code other than 0
    (null when a signal ended it), or it cannot be started, in which case
    Node emits error and then close with the negative error number. *)
Inductive failure : Type :=
| exits (code : option Z)
| fails_to_start (message : jsstring) (errno : Z).

Definition is_failure (f : failure) : Prop :=
  match f with
  | exits code => code <> Some 0%Z
  | fails_to_start _ errno => (errno < 0)%Z
  end.

(** The first event of the failure of the process pid, and the ones that
    follow it. *)
Definition failure_event (pid : nat) (f : failure) : event :=
  match f with
  | exits code => ChildClose pid code
  | fails_to_start message _ => ChildError pid message
  end.

Definition failure_rest (pid : nat) (f : failure) : list event :=
  match f with
  | exits _ => []
  | fails_to_start _ errno => [ChildClose pid (Some errno)]
  end.

(** The message recorded at the first event, and the one that stands
    after the last, for the stage whose script has the file name stage. *)
Definition first_message (stage : jsstring) (f : failure) : jsstring :=
  match f with
  | exits code =>
      str "Script " ++ stage ++ str " failed with exit code "
      ++ code_text code
  | fails_to_start message _ =>
      str "Failed to start " ++ stage ++ str ": " ++ message
  end.

Definition last_message (stage : jsstring) (f : failure) : jsstring :=
  match f with
  | exits code =>
      str "Script " ++ stage ++ str " failed with exit code "
      ++ code_text code
  | fails_to_start _ errno =>
      str "Script " ++ stage ++ str " failed with exit code "
      ++ of_Z errno
  end.

(** Events other than an upload. *)
Definition no_upload (e : event) : Prop :=
  match e with
  | PostUpload _ _ => False
  | _ => True
  end.

Definition is_spawn (a : action) : bool :=
  match a with
  | spawn _ _ => true
  | _ => false
  end.

(** The answer of the status route for a run that failed with message e
    after starting at the time start. *)
Definition error_status (start now : Z) (e : jsstring)
    : list (string * value) :=
  [("isProcessing"%string, JBool false);
   ("processingTime"%string, JNum ((now - start) / 1000));
   ("processingStartTime"%string, JDate start);
   ("processingError"%string, JStr e);
   ("status"%string, JStr (str "error"))].

End Runs.

(** ** Concrete inputs *)

Module Examples.

Import Client Server.

(** A name of 210 code units: 194 times a, a dot, 10 times b, .xlsx *)
Definition long_name : jsstring :=
  replicate 194 97 ++ str "." ++ replicate 10 98 ++ str ".xlsx".

(** A name of 212 code units that starts with ../ *)
Definition traversal_name : jsstring :=
  str "../" ++ replicate 193 97 ++ str "." ++ replicate 10 98
  ++ str ".xlsx".

Definition xlsx_type : jsstring :=
  str "application/vnd.openxmlformats-officedocument.spreadsheetml.sheet".

Definition tiny_file : File :=
  {| name := str "Accidents_2024.xlsx"; size := 12; type := xlsx_type |}.

Definition good_file : File :=
  {| name := str "Accidents 2024.xlsx"; size := 4096; type := xlsx_type |}.

(** A header row with the twelve required columns, and one data row. *)
Definition full_headers : list jsstring :=
  map str ["Barangay"; "Lat"; "Lng"; "DateCommitted"; "TimeCommitted";
           "OffenseType"; "VictimCount"; "SuspectCount"; "VictimInjured";
           "VictimKilled"; "VictimUnharmed"; "SuspectKilled"]%string.

Definition data_row : list jsstring :=
  map str ["Poblacion"; "14.1"; "121.2"; "2024-01-05"; "10:30"; "Theft";
           "1"; "1"; "0"; "0"; "1"; "0"]%string.

(** The same header row with the column of the victims killed spelled
    with a space, and with an underscore. *)
Definition spaced_headers : list jsstring :=
  map str ["Barangay"; "Lat"; "Lng"; "DateCommitted"; "TimeCommitted";
           "OffenseType"; "VictimCount"; "SuspectCount"; "VictimInjured";
           "Victim Killed"; "VictimUnharmed"; "SuspectKilled"]%string.

Definition underscored_headers : list jsstring :=
  map str ["Barangay"; "Lat"; "Lng"; "DateCommitted"; "TimeCommitted";
           "OffenseType"; "VictimCount"; "SuspectCount"; "VictimInjured";
           "victim_killed"; "VictimUnharmed"; "SuspectKilled"]%string.

(** The header row without the column of the victims killed. *)
Definition eleven_headers : list jsstring :=
  map str ["Barangay"; "Lat"; "Lng"; "DateCommitted"; "TimeCommitted";
           "OffenseType"; "VictimCount"; "SuspectCount"; "VictimInjured";
           "VictimUnharmed"; "SuspectKilled"]%string.

Definition one_sheet (sheetName : jsstring) (headers : list jsstring)
    : workbook :=
  {| SheetNames := [sheetName];
     Sheets := {[ sheetName := [headers; data_row] ]} |}.

Definition cwd : jsstring := str "/srv/osimap".

Definition staged (wb : workbook) : gmap jsstring contents :=
  {[ str "/srv/osimap/data/upload.xlsx" := Spreadsheet wb ]}.

Definition staged_path : jsstring := str "/srv/osimap/data/upload.xlsx".

(** An upload that passes the check of the workbook, under a name with a
    space. *)
Definition spaced_upload : part :=
  {| originalname := str "my file.xlsx";
     data := Spreadsheet (one_sheet (str "2024") full_headers) |}.

Definition spaced_upload_event : event :=
  PostUpload 1000 (Some spaced_upload).

(** The server after that upload and a first stage that exits with 1. *)
Definition failed_server : server :=
  fst (step cwd (fst (step cwd (init ∅) spaced_upload_event))
            (ChildClose 0 (Some 1%Z))).

(** What goes on after a failure: a status query, and stray events of
    processes. *)
Definition later_events : list event :=
  [GetStatus 5000; ChildClose 1 (Some 0%Z); ChildError 0 (str "late");
   ChildClose 2 (Some 0%Z)].

End Examples.

(** ** The upload page: the answer of the upload and the polling *)

Module Page.

Import Client.

(** The outcome of a fetch: it fails, or it gives a response with its
    status, its status text and the object of its body. *)
Inductive fetched (A : Type) : Type :=
| NetworkError (message : jsstring)
| HttpResponse (status : Z) (statusText : jsstring) (data : A).

Arguments NetworkError {A} message.
Arguments HttpResponse {A} status statusText data.

(** res.ok *)
Definition res_ok (status : Z) : bool :=
  (200 <=? status)%Z && (status <=? 299)%Z.

(** The fields the page reads in the answer of /upload, with the types
    server.js gives them; a field that is not there is undefined. *)
Record UploadReply := {
  reply_error : option jsstring;
  reply_validationErrors : option (list jsstring)
}.

(** The fields the page reads in the answer of /status, with the types
    server.js gives them. *)
Record StatusData := {
  data_isProcessing : bool;
  data_processingTime : Z;
  data_processingError : option jsstring;
  data_status : jsstring
}.

(** What the handlers of the page do, in order: the effects of onDrop, and
    those that only the handlers have. An array shown as the list of errors
    may hold undefined. *)
Inductive reaction : Type :=
| page (e : effect)
| showErrors (errors : list (option jsstring))
| clearInterval
| logFileUploaded (filename : jsstring)
| logProcessingStarted
| logProcessingCompleted
| pollBackendStatus.

(** String(x) of an element in Array.prototype.join: empty for undefined. *)
Definition text_of (x : option jsstring) : jsstring := default [] x.

(** A string is truthy when it is not empty; undefined and null are not. *)
Definition truthy_text (x : option jsstring) : bool :=
  match x with
  | Some (_ :: _) => true
  | _ => false
  end.

(** data.validationErrors || [data.error]: an array is truthy, also when it
    is empty, and so is the one-element array, so the third alternative of
    the source is never taken. *)
Definition backendErrors (data : UploadReply) : list (option jsstring) :=
  match reply_validationErrors data with
  | Some errors => map Some errors
  | None => [reply_error data]
  end.

Definition processing_status : jsstring :=
  [55357; 56522] ++ str " Processing data through pipeline...".

(** The first then of the upload: the effects, and the value passed on. *)
Definition first_then (status : Z) (data : UploadReply)
    : list reaction * option UploadReply :=
  if negb (res_ok status) then
    let errors := backendErrors data in
    ([showErrors errors;
      page (setProcessingStage (str "error"));
      page (setUploadStatus failed_status);
      page (logProcessingFailed
              (str "Validation failed: "
               ++ join (str ", ") (map text_of errors)))],
     None)
  else ([], Some data).

(** The second then of the upload, for the file sent under fileName. *)
Definition second_then (fileName : jsstring) (data : option UploadReply)
    : list reaction :=
  match data with
  | None => []
  | Some data =>
      if truthy_text (reply_error data)
         || match reply_validationErrors data with
            | Some _ => true
            | None => false
            end
      then
        let errors := backendErrors data in
        [showErrors errors;
         page (setProcessingStage (str "error"));
         page (setUploadStatus (msg (str "Data validation failed")));
         page (logProcessingFailed
                 (str "Backend validation failed: "
                  ++ join (str ", ") (map text_of errors)))]
      else
        [logFileUploaded fileName;
         page (setProcessingStage (str "processing"));
         page (setCurrentStep 2);
         page (setUploadStatus processing_status);
         logProcessingStarted;
         pollBackendStatus]
  end.

(** The catch of the upload, for an error with the given message. *)
Definition on_catch (message : jsstring) : list reaction :=
  let errorMsg :=
    match message with
    | [] => str "Unknown error"
    | _ :: _ => message
    end in
  [page (setProcessingStage (str "error"));
   page (setUploadStatus (msg (str "Upload failed")));
   page (setValidationErrors
           (if includes errorMsg (str "Failed to fetch")
               || includes errorMsg (str "NetworkError")
            then [msg (str "Cannot connect to server - please ensure the backend is running")]
            else if includes errorMsg (str "timeout")
            then [msg (str "Upload timed out - the server took too long to respond")]
            else [msg errorMsg]));
   page (logProcessingFailed (str "Upload failed: " ++ message))].

(** The whole chain after the fetch of onDrop. *)
Definition on_upload_reply (fileName : jsstring) (r : fetched UploadReply)
    : list reaction :=
  match r with
  | NetworkError message => on_catch message
  | HttpResponse status _ data =>
      let (shown, passed) := first_then status data in
      shown ++ second_then fileName passed
  end.

(** statusData.processingError || alternative *)
Definition or_unknown (e : option jsstring) : jsstring :=
  if truthy_text e then text_of e else str "Unknown error".

Definition poll_failed (message : jsstring) : list reaction :=
  [clearInterval;
   page (setProcessingStage (str "error"));
   page (setUploadStatus
           (msg (str "Failed to check processing status. Please check backend server.")));
   page (logProcessingFailed (str "Status polling failed: " ++ message))].

Definition completed_status : jsstring :=
  9989%N :: str " Pipeline completed successfully!".

Definition converting_status : jsstring :=
  [55357; 56826; 65039] ++ str " Converting to GeoJSON...".

Definition still_processing_status (processingTime : Z) : jsstring :=
  [55357; 56580] ++ str " Still processing... (" ++ of_Z processingTime
  ++ str "s elapsed)".

(** What one tick of the interval of pollBackendStatus does with the status
    object it has read. *)
Definition on_status (statusData : StatusData) : list reaction :=
  if jsstring_eqb (data_status statusData) (str "error") then
    [clearInterval;
     page (setProcessingStage (str "error"));
     page (setUploadStatus
             (msg (str "Processing failed: "
                   ++ or_unknown (data_processingError statusData))));
     page (logProcessingFailed
             (or_unknown (data_processingError statusData)))]
  else if negb (data_isProcessing statusData)
          && jsstring_eqb (data_status statusData) (str "idle") then
    [clearInterval;
     page (setProcessingStage (str "complete"));
     page (setCurrentStep 4);
     page (setUploadStatus completed_status);
     logProcessingCompleted]
  else if data_isProcessing statusData then
    let processingTime := data_processingTime statusData in
    if (processingTime <? 3)%Z then
      [page (setCurrentStep 2); page (setUploadStatus processing_status)]
    else if (processingTime <? 6)%Z then
      [page (setCurrentStep 3); page (setUploadStatus converting_status)]
    else
      [page (setCurrentStep 3);
       page (setUploadStatus (still_processing_status processingTime))]
  else [].

(** One tick of the interval, from the outcome of its fetch. *)
Definition poll (r : fetched StatusData) : list reaction :=
  match r with
  | NetworkError message => poll_failed message
  | HttpResponse status statusText statusData =>
      if negb (res_ok status)
      then poll_failed (str "HTTP " ++ of_Z status ++ str ": " ++ statusText)
      else on_status statusData
  end.

(** Whether a tick ends the polling. *)
Definition stops (reactions : list reaction) : bool :=
  existsb (fun r => match r with clearInterval => true | _ => false end)
          reactions.

(** The objects of server.js as the page reads them after res.json(). *)
Definition upload_reply_of (body : list (string * Server.value))
    : UploadReply :=
  {| reply_error :=
       match Server.field "error" body with
       | Some (Server.JStr e) => Some e
       | _ => None
       end;
     reply_validationErrors :=
       match Server.field "validationErrors" body with
       | Some (Server.JStrings errors) => Some errors
       | _ => None
       end |}.

Definition status_data_of (body : list (string * Server.value))
    : option StatusData :=
  match Server.field "isProcessing" body,
        Server.field "processingTime" body,
        Server.field "processingError" body,
        Server.field "status" body with
  | Some (Server.JBool b), Some (Server.JNum t), Some e,
    Some (Server.JStr st) =>
      Some {| data_isProcessing := b;
              data_processingTime := t;
              data_processingError :=
                match e with
                | Server.JStr m => Some m
                | _ => None
                end;
              data_status := st |}
  | _, _, _, _ => None
  end.

End Page.

(** ** The activity log: the events of the session *)

Module Logging.

(** A call of logUserActivity, by its arguments. *)
Record LogCall := {
  activity : jsstring;
  logType : jsstring;
  details : option jsstring;
  ipAddress : option jsstring
}.

(** The functions of logAuthEvent that read or write the flag
    sessionExpirationLogged. *)
Inductive auth_event : Type :=
| login (ipAddress : option jsstring)
| logout (ipAddress : option jsstring)
| sessionExpired.

Definition session_expired_call : LogCall :=
  {| activity := str "Session expired";
     logType := str "WARNING";
     details := Some (str "User session timed out due to inactivity");
     ipAddress := None |}.

(** One call: the flag after it and the calls of logUserActivity it
    makes. *)
Definition auth_step (sessionExpirationLogged : bool) (e : auth_event)
    : bool * list LogCall :=
  match e with
  | login ip =>
      (false,
       [{| activity := str "User logged in successfully";
           logType := str "LOGIN"; details := None; ipAddress := ip |}])
  | logout ip =>
      (sessionExpirationLogged,
       [{| activity := str "User logged out";
           logType := str "LOGOUT"; details := None; ipAddress := ip |}])
  | sessionExpired =>
      if negb sessionExpirationLogged
      then (true, [session_expired_call])
      else (sessionExpirationLogged, [])
  end.

Fixpoint auth_run (sessionExpirationLogged : bool) (es : list auth_event)
    : bool * list LogCall :=
  match es with
  | [] => (sessionExpirationLogged, [])
  | e :: es' =>
      let (flag, calls) := auth_step sessionExpirationLogged e in
      let (flag', calls') := auth_run flag es' in
      (flag', calls ++ calls')
  end.

Definition is_session_expired (c : LogCall) : bool :=
  jsstring_eqb (activity c) (str "Session expired").

Definition is_login (e : auth_event) : bool :=
  match e with
  | login _ => true
  | _ => false
  end.

(** The number of calls that log the end of a session. *)
Definition expired_calls (calls : list LogCall) : nat :=
  List.length (List.filter is_session_expired calls).

End Logging.

(** ** Notions used to state the properties of the whole *)

Module Facts.

Import Client Server.

(** The processes that have not closed. *)
Definition live (s : server) : nat :=
  List.length (List.filter (fun c => negb (closed c)) (children s)).

Definition is_upload (e : event) : bool :=
  match e with
  | PostUpload _ _ => true
  | _ => false
  end.

(** The scripts of the spawn actions of a trace. *)
Definition spawned_scripts (actions : list action) : list jsstring :=
  flat_map (fun a => match a with spawn _ script => [script] | _ => [] end)
           actions.

(** What a sheet needs to pass: a year in its name, a header row with every
    required column, and a data row. *)
Definition sheet_passes (wb : workbook) (sheetName : jsstring) : Prop :=
  match_year sheetName <> None
  /\ exists headers row rows,
       Sheets wb !! sheetName = Some (headers :: row :: rows)
       /\ forall col, In col ALL_REQUIRED_COLUMNS ->
                      In col (map normalizeHeader headers).

(** The required columns no header normalizes to. *)
Definition missing_among (columns headers : list jsstring)
    : list jsstring :=
  List.filter
    (fun col => negb (array_includes (map normalizeHeader headers) col))
    columns.

(** There is no word character right before, or right after, a position. *)
Definition clear_before (pre : jsstring) : Prop :=
  match last pre with
  | Some c => is_word c = false
  | None => True
  end.

Definition clear_after (post : jsstring) : Prop :=
  match post with
  | c :: _ => is_word c = false
  | [] => True
  end.

(** What validateFile asks of a file, check by check. *)
Definition file_passes (file : File) : Prop :=
  (MIN_FILE_SIZE <= size file <= MAX_FILE_SIZE)%Z
  /\ existsb is_forbidden (name file) = false
  /\ (JS.length (name file) <= 255)%Z
  /\ script_injection (name file) = false
  /\ array_includes ALLOWED_EXTENSIONS
       (toLowerCase
          (substring_from (name file) (lastIndexOf (name file) dot))) = true
  /\ (count_dots (name file) <= 1)%Z
  /\ startsWith (name file) (str ".") = false
  /\ (array_includes validMimeTypes (type file) = true \/ type file = []).

(** The file onDrop sends for a file that passed validateFile. *)
Definition renamed (file : File) : File :=
  {| name := sanitizeFileName (name file); size := size file;
     type := type file |}.

Definition passes (file : File) : bool :=
  bool_decide (validateFile file = []).

(** The first response in a trace of the server. *)
Definition response_of (actions : list action)
    : option (Z * list (string * value)) :=
  match List.find (fun a => match a with respond _ _ => true | _ => false end)
                  actions with
  | Some (respond status body) => Some (status, body)
  | _ => None
  end.

(** One tick of the polling of the page against the server s at the time
    now: the status route answers, and the page handles the object. *)
Definition poll_server (now : Z) (s : server) : list Page.reaction :=
  match response_of (snd (get_status now s)) with
  | Some (status, body) =>
      match Page.status_data_of body with
      | Some statusData =>
          Page.poll (Page.HttpResponse status (str "OK") statusData)
      | None => []
      end
  | None => []
  end.

(** The page after the upload of a request to the server s: the upload
    route answers, and the chain after the fetch handles the answer, for a
    file sent under the name fileName. *)
Definition page_after_upload (cwd : jsstring) (now : Z)
    (file : option part) (s : server) (fileName : jsstring)
    : list Page.reaction :=
  match response_of (snd (post_upload cwd now file s)) with
  | Some (status, body) =>
      Page.on_upload_reply fileName
        (Page.HttpResponse status [] (Page.upload_reply_of body))
  | None => []
  end.

End Facts.

(** * Properties *)

Import Client Server Spec Runs Examples.

Local Close Scope N_scope.

(** ** The error list of a validator *)

Lemma existsb_push (p : jsstring -> bool) (errors : list jsstring)
    (e : jsstring) :
  existsb p (push errors e) = existsb p errors || p e.
Proof.
  unfold push. rewrite existsb_app. simpl. now rewrite orb_false_r.
Qed.

Lemma existsb_push_if (p : jsstring -> bool) (b : bool)
    (errors : list jsstring) (e : jsstring) :
  existsb p (if b then push errors e else errors)
  = existsb p errors || (b && p e).
Proof.
  destruct b; simpl.
  - apply existsb_push.
  - now rewrite orb_false_r.
Qed.

(** ** The upload page *)

(** C5: sanitizeFileName is not idempotent on a name of 210 code units whose
    cut falls right after a dot: the first pass leaves two dots in a row,
    which the second pass removes. *)
Theorem sanitizeFileName_not_idempotent :
  sanitizeFileName (sanitizeFileName long_name) <> sanitizeFileName long_name.
Proof.
  intros H. apply (f_equal List.length) in H. vm_compute in H. discriminate.
Qed.

(** C6: sanitizeFileName gives a name with two dots in a row for a name that
    starts with ../ and is cut right after a dot. *)
Theorem sanitizeFileName_leaves_dotdot :
  includes traversal_name (str "..") = true
  /\ sanitizeFileName traversal_name
     = str "_" ++ replicate 193 97%N ++ str "..xlsx"
  /\ includes (sanitizeFileName traversal_name) (str "..") = true.
Proof. repeat split; vm_compute; reflexivity. Qed.

Lemma sent_files_app (a b : list effect) :
  sent_files (a ++ b) = sent_files a ++ sent_files b.
Proof. unfold sent_files. apply flat_map_app. Qed.

Lemma onDrop_file_aborts (file : File) :
  validateFile file <> [] -> sent_files (onDrop_file file) = [].
Proof.
  intros H. unfold onDrop_file.
  destruct (validateFile file) as [|e errors] eqn:E; [congruence|].
  reflexivity.
Qed.

Lemma invalid_type_not_size_error (fileExtension : jsstring) :
  is_size_error (invalid_type_msg fileExtension) = false.
Proof. reflexivity. Qed.

Lemma validateFile_size_error (file : File) :
  existsb is_size_error (validateFile file)
  = (MAX_FILE_SIZE <? size file)%Z || (size file <? MIN_FILE_SIZE)%Z.
Proof.
  unfold validateFile. cbv zeta.
  rewrite !existsb_push_if.
  replace (is_size_error (too_large_msg (size file))) with true
    by reflexivity.
  replace (is_size_error (too_small_msg (size file))) with true
    by reflexivity.
  replace (is_size_error invalid_chars_msg) with false by reflexivity.
  replace (is_size_error too_long_msg) with false by reflexivity.
  replace (is_size_error malicious_msg) with false by reflexivity.
  rewrite invalid_type_not_size_error.
  replace (is_size_error multiple_ext_msg) with false by reflexivity.
  replace (is_size_error hidden_msg) with false by reflexivity.
  replace (is_size_error mime_msg) with false by reflexivity.
  simpl existsb.
  rewrite !andb_false_r, !andb_true_r, !orb_false_r. reflexivity.
Qed.

(** C7: validateFile reports a size error exactly for the sizes outside
    [1024, 50 x 1024 x 1024], and a file with a non-empty error list is not
    handed to fetch, neither by the body of the loop nor by onDrop. *)
Theorem client_size_check_and_abort (file : File)
    (rejected : list Rejection) :
  (existsb is_size_error (validateFile file) = true
   <-> ~ size_in_range (size file))
  /\ (validateFile file <> [] ->
      sent_files (onDrop_file file) = []
      /\ sent_files (onDrop [file] rejected) = []).
Proof.
  split.
  - rewrite validateFile_size_error. unfold size_in_range.
    change MAX_FILE_SIZE with 52428800%Z. change MIN_FILE_SIZE with 1024%Z.
    rewrite orb_true_iff, !Z.ltb_lt. lia.
  - intros H. pose proof (onDrop_file_aborts file H) as Hf.
    split; [exact Hf|].
    unfold onDrop.
    destruct (0 <? array_length rejected)%Z; [reflexivity|].
    change (array_length [file] =? 0)%Z with false. cbv iota.
    rewrite sent_files_app. simpl flat_map. rewrite app_nil_r, Hf.
    reflexivity.
Qed.

Lemma client_size_check_and_abort_witness :
  existsb is_size_error (validateFile tiny_file) = true
  /\ sent_files (onDrop [tiny_file] []) = [].
Proof.
  split.
  - apply (proj1 (client_size_check_and_abort tiny_file [])).
    unfold size_in_range. simpl. lia.
  - apply (proj2 (client_size_check_and_abort tiny_file [])).
    vm_compute. discriminate.
Defined.

(** ** The check of the workbook *)

Lemma validateExcelFile_unopenable (files : gmap jsstring contents)
    (filePath message : jsstring) :
  readFile files filePath = inl message ->
  valid (validateExcelFile files filePath) = false
  /\ (errors (validateExcelFile files filePath) = [corrupted_msg]
      \/ errors (validateExcelFile files filePath) = [not_found_msg]
      \/ errors (validateExcelFile files filePath) = [unreadable_msg]).
Proof.
  intros H. unfold validateExcelFile. rewrite H.
  destruct (includes message (str "Unsupported file")); [auto|].
  destruct (includes message (str "ENOENT") ||
            includes message (str "no such file")); auto.
Qed.

(** C10: a workbook that opens and has no sheet gives valid = false with the
    single message on the missing sheets, whatever its Sheets object holds;
    a workbook that does not open never gives that message. *)
Theorem zero_sheets_single_error (files : gmap jsstring contents)
    (filePath : jsstring) (wb : workbook) :
  files !! filePath = Some (Spreadsheet wb) ->
  SheetNames wb = [] ->
  validateExcelFile files filePath
  = {| valid := false; errors := [no_sheets_msg] |}
  /\ (forall files' filePath' message,
        readFile files' filePath' = inl message ->
        errors (validateExcelFile files' filePath') <> [no_sheets_msg]).
Proof.
  intros Hfile Hnames. split.
  - unfold validateExcelFile, readFile. rewrite Hfile, Hnames. reflexivity.
  - intros files' filePath' message H.
    destruct (validateExcelFile_unopenable _ _ _ H) as [_ [E|[E|E]]];
      rewrite E; intros D; apply (f_equal (fun l => List.length <$> l)) in D;
      vm_compute in D; discriminate.
Qed.

Lemma zero_sheets_single_error_witness :
  validateExcelFile
    (staged {| SheetNames := []; Sheets := ∅ |}) staged_path
  = {| valid := false; errors := [no_sheets_msg] |}.
Proof.
  apply (zero_sheets_single_error
           (staged {| SheetNames := []; Sheets := ∅ |}) staged_path
           {| SheetNames := []; Sheets := ∅ |}).
  - reflexivity.
  - reflexivity.
Defined.

(** C1: the sheet name Accidents_2024 contains the year 2024, and it is one
    of the names the message itself gives as an example, yet the check of
    the year rejects it: the underscore before the year is a word character,
    so the regular expression finds no word boundary there. *)
Theorem year_check_rejects_underscored_year :
  has_year_substring (str "Accidents_2024") = true
  /\ match_year (str "Accidents_2024") = None
  /\ validateExcelFile
       (staged (one_sheet (str "Accidents_2024") full_headers)) staged_path
     = {| valid := false;
          errors := [year_msg (str "Accidents_2024")] |}.
Proof. repeat split; vm_compute; reflexivity. Qed.

(** The spellings victim_killed and Victim Killed do not normalize to
    victimkilled but to victim_killed: white space becomes an underscore
    and the underscore is a word character that is kept. A row with such a
    cell is reported as the row without the column. *)
Remark underscored_header_still_missing :
  validateExcelFile
    (staged (one_sheet (str "2024") eleven_headers)) staged_path
  = {| valid := false;
       errors := [missing_severity_msg (str "2024") [str "victimkilled"]] |}
  /\ validateExcelFile
       (staged (one_sheet (str "2024") underscored_headers)) staged_path
     = {| valid := false;
          errors := [missing_severity_msg (str "2024")
                       [str "victimkilled"]] |}
  /\ validateExcelFile
       (staged (one_sheet (str "2024") spaced_headers)) staged_path
     = {| valid := false;
          errors := [missing_severity_msg (str "2024")
                       [str "victimkilled"]] |}
  /\ normalizeHeader (str "victim_killed") = str "victim_killed"
  /\ normalizeHeader (str "Victim Killed") = str "victim_killed".
Proof. repeat split; vm_compute; reflexivity. Qed.

(** ** The upload route *)

Lemma post_upload_accepted (cwd : jsstring) (now : Z) (file : part)
    (s : server) :
  valid (validateExcelFile (files (multer_store cwd file s))
                           (file_path cwd file)) = true ->
  post_upload cwd now (Some file) s
  = ({| run := {| isProcessing := true;
                  processingStartTime := Some now;
                  processingError := None |};
        children := children s ++ [stage_child (stage_scripts cwd) 0 false];
        files := <[file_path cwd file := data file]> (files s) |},
     [respond 200 (success_body (originalname file));
      spawn (List.length (children s)) (script1 cwd)]).
Proof.
  intros H. unfold post_upload. rewrite H. reflexivity.
Qed.

(** C4, as the code has it: the success response of an accepted upload is
    the object with the fields message and filename, sent before the first
    stage is spawned; when the handler returns the run is marked as
    processing and the process of the first stage has not closed. *)
Theorem upload_responds_before_pipeline (cwd : jsstring) (now : Z)
    (file : part) (s : server) :
  valid (validateExcelFile (files (multer_store cwd file s))
                           (file_path cwd file)) = true ->
  snd (post_upload cwd now (Some file) s)
  = [respond 200 (success_body (originalname file));
     spawn (List.length (children s)) (script1 cwd)]
  /\ isProcessing (run (fst (post_upload cwd now (Some file) s))) = true
  /\ closed <$> children (fst (post_upload cwd now (Some file) s))
              !! List.length (children s)
     = Some false.
Proof.
  intros H. rewrite (post_upload_accepted cwd now file s H). simpl.
  repeat split.
  rewrite lookup_app_r by lia. now rewrite Nat.sub_diag.
Qed.

Lemma upload_responds_before_pipeline_witness :
  snd (post_upload cwd 1000 (Some spaced_upload) (init ∅))
  = [respond 200 (success_body (str "my file.xlsx"));
     spawn 0 (script1 cwd)].
Proof.
  refine (proj1 (upload_responds_before_pipeline cwd 1000 spaced_upload
                   (init ∅) _)).
  vm_compute. reflexivity.
Defined.

(** C4, as the specification states it, fails on an accepted upload: the
    response has no field accepted. *)
Lemma upload_response_is_not_accepted_object :
  exists body rest,
    snd (post_upload cwd 1000 (Some spaced_upload) (init ∅))
    = respond 200 body :: rest
    /\ field "accepted" body = None
    /\ body <> accepted_response (str "my file.xlsx").
Proof.
  eexists _, _. split; [vm_compute; reflexivity|].
  split; [reflexivity|]. discriminate.
Qed.

(** C9, as the code has it: an accepted upload is stored in the data folder
    under the name the server received, unchanged, and that name is the one
    of the response; the upload page sends the file under the sanitized form
    of its name. *)
Theorem upload_stored_under_received_name (cwd : jsstring) (now : Z)
    (file : part) (s : server) (f : File) :
  valid (validateExcelFile (files (multer_store cwd file s))
                           (file_path cwd file)) = true ->
  validateFile f = [] ->
  files (fst (post_upload cwd now (Some file) s))
    !! path_join (path_join cwd (str "data")) (originalname file)
  = Some (data file)
  /\ field "filename"
       match snd (post_upload cwd now (Some file) s) with
       | respond _ body :: _ => body
       | _ => []
       end
     = Some (JStr (originalname file))
  /\ name <$> sent_files (onDrop_file f) = [sanitizeFileName (name f)].
Proof.
  intros H Hf. rewrite (post_upload_accepted cwd now file s H). simpl.
  split; [apply lookup_insert_eq|]. split; [reflexivity|].
  unfold onDrop_file. rewrite Hf. simpl.
  unfold jsstring_eqb.
  destruct (bool_decide_reflect (sanitizeFileName (name f) = name f))
    as [E|E]; simpl; [now rewrite E | reflexivity].
Qed.

Lemma upload_stored_under_received_name_witness :
  files (fst (post_upload cwd 1000 (Some spaced_upload) (init ∅)))
    !! str "/srv/osimap/data/my file.xlsx"
  = Some (data spaced_upload)
  /\ name <$> sent_files (onDrop_file good_file)
     = [str "Accidents_2024.xlsx"].
Proof.
  destruct (upload_stored_under_received_name cwd 1000 spaced_upload
              (init ∅) good_file) as [H1 [_ H2]].
  - vm_compute. reflexivity.
  - vm_compute. reflexivity.
  - split; [exact H1 | exact H2].
Defined.

(** C9, as the specification states it, fails on an accepted upload whose
    name has a space: the stored name is not the sanitized one. *)
Lemma server_keeps_unsanitized_name :
  files (fst (post_upload cwd 1000 (Some spaced_upload) (init ∅)))
    !! path_join (dataFolder cwd) (str "my file.xlsx")
  = Some (data spaced_upload)
  /\ files (fst (post_upload cwd 1000 (Some spaced_upload) (init ∅)))
       !! path_join (dataFolder cwd) (sanitizeFileName (str "my file.xlsx"))
     = None
  /\ filename spaced_upload <> sanitizeFileName (originalname spaced_upload).
Proof.
  split; [vm_compute; reflexivity|].
  split; [vm_compute; reflexivity|].
  vm_compute. discriminate.
Qed.

(** ** The global processing state *)

Lemma call_preserves (cb : callback) (s : server) :
  error_excludes_processing (run s) ->
  error_excludes_processing (run (fst (call cb s))).
Proof.
  intros H. destruct cb; simpl; [exact H|]. intros _. reflexivity.
Qed.

Lemma step_preserves (cwd : jsstring) (s : server) (e : event) :
  error_excludes_processing (run s) ->
  error_excludes_processing (run (fst (step cwd s e))).
Proof.
  intros H. destruct e as [now|now file|pid code|pid message]; simpl.
  - exact H.
  - unfold post_upload. destruct file as [file|]; [|exact H].
    destruct (negb _); simpl; [exact H|].
    intros E. simpl in E. congruence.
  - unfold on_close. destruct (children s !! pid) as [c|]; [|exact H].
    destruct (closed c); [exact H|].
    destruct (bool_decide _).
    + destruct (onSuccess c) as [cb|]; [|exact H].
      apply call_preserves. exact H.
    + intros _. reflexivity.
  - unfold on_error. destruct (children s !! pid) as [c|]; [|exact H].
    destruct (closed c); [exact H|]. intros _. reflexivity.
Qed.

(** C3: in every state the server reaches from its idle start by uploads,
    status queries and the close and error events of its child processes,
    a processing error that is set goes with isProcessing = false. *)
Theorem error_implies_not_processing (cwd : jsstring) (s : server) :
  reachable cwd s ->
  processingError (run s) <> None ->
  isProcessing (run s) = false.
Proof.
  intros R. change (error_excludes_processing (run s)).
  induction R as [files|s e R IH].
  - intros E. simpl in E. congruence.
  - apply step_preserves. exact IH.
Qed.

Lemma error_implies_not_processing_witness :
  isProcessing (run failed_server) = false.
Proof.
  apply (error_implies_not_processing cwd failed_server).
  - unfold failed_server. apply reach_step, reach_step, reach_init.
  - vm_compute. discriminate.
Defined.

(** ** Runs of the orchestrator *)

Lemma run_events_cons (cwd : jsstring) (s : server) (e : event)
    (es : list event) :
  run_events cwd s (e :: es)
  = (fst (run_events cwd (fst (step cwd s e)) es),
     snd (step cwd s e) ++ snd (run_events cwd (fst (step cwd s e)) es)).
Proof.
  simpl. destruct (step cwd s e) as [s1 a1]. simpl.
  destruct (run_events cwd s1 es) as [s2 a2]. reflexivity.
Qed.

Lemma run_events_app (cwd : jsstring) (es1 es2 : list event) (s : server) :
  run_events cwd s (es1 ++ es2)
  = (fst (run_events cwd (fst (run_events cwd s es1)) es2),
     snd (run_events cwd s es1)
     ++ snd (run_events cwd (fst (run_events cwd s es1)) es2)).
Proof.
  revert s. induction es1 as [|e es1 IH]; intros s.
  - simpl. now destruct (run_events cwd s es2).
  - rewrite <- app_comm_cons, !run_events_cons, IH. simpl.
    now rewrite app_assoc.
Qed.

Lemma lookup_current (cs : list child) (all : list jsstring) (j : nat)
    (done : bool) :
  (cs ++ run_children all j done) !! (List.length cs + j)
  = Some (stage_child all j done).
Proof.
  unfold run_children.
  rewrite lookup_app_r by lia.
  replace (List.length cs + j - List.length cs)%nat with j by lia.
  rewrite lookup_app_r; rewrite length_map, length_seq; [|lia].
  now rewrite Nat.sub_diag.
Qed.

Lemma insert_current (cs : list child) (all : list jsstring) (j : nat)
    (done : bool) (c : child) :
  <[List.length cs + j := c]> (cs ++ run_children all j done)
  = cs ++ map (fun i => stage_child all i true) (seq 0 j) ++ [c].
Proof.
  unfold run_children.
  rewrite insert_app_r_alt by lia.
  replace (List.length cs + j - List.length cs)%nat with j by lia.
  rewrite insert_app_r_alt; rewrite length_map, length_seq; [|lia].
  now rewrite Nat.sub_diag.
Qed.

Lemma run_children_length (all : list jsstring) (j : nat) (done : bool) :
  List.length (run_children all j done) = S j.
Proof.
  unfold run_children. rewrite length_app, length_map, length_seq.
  simpl. lia.
Qed.

(** A stage that exits with code 0 starts the next one. *)
Lemma close_success (r : PipelineRun) (cs : list child)
    (fs : gmap jsstring contents) (all : list jsstring) (j : nat) :
  (S j < List.length all)%nat ->
  on_close (List.length cs + j) (Some 0%Z)
    {| run := r; children := cs ++ run_children all j false; files := fs |}
  = ({| run := r; children := cs ++ run_children all (S j) false;
        files := fs |},
     [spawn (List.length cs + S j) (default [] (all !! S j))]).
Proof.
  intros Hj. unfold on_close. simpl children.
  rewrite lookup_current. simpl.
  destruct (lookup_lt_is_Some_2 all (S j) Hj) as [x Hx].
  rewrite (drop_S all x (S j) Hx). simpl.
  unfold runSingleScript. simpl. rewrite insert_current.
  f_equal.
  - f_equal. unfold run_children. rewrite seq_S, map_app. simpl.
    rewrite <- !app_assoc. simpl. do 2 f_equal.
    unfold stage_child. rewrite Hx, (drop_S all x (S j) Hx). reflexivity.
  - rewrite !length_app, length_map, length_seq, Hx. simpl.
    do 2 f_equal. lia.
Qed.

Lemma run_successes (cwd : jsstring) (r : PipelineRun) (cs : list child)
    (fs : gmap jsstring contents) (all : list jsstring) (j j0 : nat) :
  (j0 + j < List.length all)%nat ->
  run_events cwd
    {| run := r; children := cs ++ run_children all j0 false; files := fs |}
    (map (fun i => ChildClose (List.length cs + i) (Some 0%Z)) (seq j0 j))
  = ({| run := r; children := cs ++ run_children all (j0 + j) false;
        files := fs |},
     map (fun i => spawn (List.length cs + S i) (default [] (all !! S i)))
         (seq j0 j)).
Proof.
  revert j0. induction j as [|j IH]; intros j0 Hj.
  - simpl. now rewrite Nat.add_0_r.
  - simpl seq. simpl map. rewrite run_events_cons. simpl step.
    rewrite close_success by lia. simpl fst. simpl snd.
    rewrite IH by lia.
    replace (S j0 + j)%nat with (j0 + S j)%nat by lia. reflexivity.
Qed.

(** A stage that exits with another code records the failure and starts
    nothing. *)
Lemma close_failure (r : PipelineRun) (cs : list child)
    (fs : gmap jsstring contents) (all : list jsstring) (j : nat)
    (code : option Z) :
  code <> Some 0%Z ->
  on_close (List.length cs + j) code
    {| run := r; children := cs ++ run_children all j false; files := fs |}
  = ({| run := {| isProcessing := false;
                  processingStartTime := processingStartTime r;
                  processingError :=
                    Some (exit_msg (default [] (all !! j)) code) |};
        children := cs ++ run_children all j true;
        files := fs |}, []).
Proof.
  intros Hc. unfold on_close. simpl children.
  rewrite lookup_current. simpl.
  rewrite bool_decide_eq_false_2 by exact Hc.
  rewrite insert_current. reflexivity.
Qed.

(** A stage that cannot be started records the failure; its process has
    not closed yet. *)
Lemma error_failure (r : PipelineRun) (cs : list child)
    (fs : gmap jsstring contents) (all : list jsstring) (j : nat)
    (message : jsstring) :
  on_error (List.length cs + j) message
    {| run := r; children := cs ++ run_children all j false; files := fs |}
  = ({| run := {| isProcessing := false;
                  processingStartTime := processingStartTime r;
                  processingError :=
                    Some (start_msg (default [] (all !! j)) message) |};
        children := cs ++ run_children all j false;
        files := fs |}, []).
Proof.
  unfold on_error. simpl children. rewrite lookup_current. reflexivity.
Qed.

(** Once every process has closed, nothing but an upload changes the server
    or starts a process. *)
Lemma closed_children_ignore (cwd : jsstring) (s : server) (e : event) :
  Forall (fun c => closed c = true) (children s) ->
  no_upload e ->
  fst (step cwd s e) = s /\ List.filter is_spawn (snd (step cwd s e)) = [].
Proof.
  intros Hc He. destruct e as [now|now file|pid code|pid message];
    simpl in *; [auto|contradiction| |].
  - unfold on_close. destruct (children s !! pid) as [c|] eqn:E; [|auto].
    rewrite (proj1 (Forall_lookup _ _) Hc pid c E). auto.
  - unfold on_error. destruct (children s !! pid) as [c|] eqn:E; [|auto].
    rewrite (proj1 (Forall_lookup _ _) Hc pid c E). auto.
Qed.

Lemma closed_children_quiescent (cwd : jsstring) (es : list event)
    (s : server) :
  Forall (fun c => closed c = true) (children s) ->
  Forall no_upload es ->
  fst (run_events cwd s es) = s
  /\ List.filter is_spawn (snd (run_events cwd s es)) = [].
Proof.
  intros Hc Hes. induction Hes as [|e es He Hes IH]; [auto|].
  rewrite run_events_cons. simpl.
  destruct (closed_children_ignore cwd s e Hc He) as [E1 E2].
  rewrite E1, List.filter_app, E2. simpl. exact IH.
Qed.

Lemma run_children_closed (all : list jsstring) (j : nat) :
  Forall (fun c => closed c = true) (run_children all j true).
Proof.
  unfold run_children. apply Forall_app. split.
  - apply Forall_map. apply Forall_forall. intros; reflexivity.
  - repeat constructor.
Qed.

Lemma run_children_scripts (all : list jsstring) (j : nat) (done : bool) :
  (j < List.length all)%nat ->
  scriptPath <$> run_children all j done = take (S j) all.
Proof.
  revert done. induction j as [|j IH]; intros done Hj.
  - destruct all as [|x all]; [simpl in Hj; lia|]. reflexivity.
  - assert (E : run_children all (S j) done
                = run_children all j true ++ [stage_child all (S j) done]).
    { unfold run_children. rewrite seq_S, map_app. reflexivity. }
    rewrite E, fmap_app, IH by lia.
    destruct (lookup_lt_is_Some_2 all (S j) Hj) as [x Hx].
    rewrite (take_S_r all (S j) x Hx). simpl. now rewrite Hx.
Qed.

(** The file name of a script is what path.basename gives back. *)
Lemma lastIndexOf_absent (s : jsstring) (c : N) (i found : Z) :
  forallb (fun a => negb (a =? c)%N) s = true ->
  lastIndexOf_from s c i found = found.
Proof.
  revert i found. induction s as [|a s IH]; intros i found H; [reflexivity|].
  simpl in *. apply andb_true_iff in H as [Ha Hs].
  apply negb_true_iff in Ha. rewrite Ha. now apply IH.
Qed.

Lemma lastIndexOf_last (a b : jsstring) (c : N) (i found : Z) :
  forallb (fun x => negb (x =? c)%N) b = true ->
  lastIndexOf_from (a ++ c :: b) c i found = (i + Z.of_nat (List.length a))%Z.
Proof.
  intros Hb. revert i found. induction a as [|x a IH]; intros i found.
  - simpl. rewrite N.eqb_refl, lastIndexOf_absent by exact Hb. lia.
  - simpl lastIndexOf_from. rewrite IH. simpl List.length. lia.
Qed.

Lemma substring_from_drop (s : jsstring) (n : nat) :
  n <= List.length s ->
  substring_from s (Z.of_nat n) = drop n s.
Proof.
  intros Hn. unfold substring_from, substring, clamp, JS.length.
  replace (Z.to_nat (Z.min (Z.max (Z.of_nat n) 0) (Z.of_nat (List.length s))))
    with n by lia.
  replace (Z.to_nat (Z.min (Z.max (Z.of_nat (List.length s)) 0)
                           (Z.of_nat (List.length s))))
    with (List.length s) by lia.
  rewrite Nat.min_l, Nat.max_r by exact Hn.
  apply take_ge. rewrite length_drop. lia.
Qed.

Lemma segments_plain (file : jsstring) :
  forallb (fun c => negb (c =? slash)%N) file = true ->
  segments file = [file].
Proof.
  induction file as [|c f IH]; intros H; [reflexivity|].
  cbn [forallb] in H. apply andb_true_iff in H as [Hc Hf].
  apply negb_true_iff in Hc. cbn [segments]. rewrite Hc, (IH Hf).
  reflexivity.
Qed.

Lemma segments_nonempty (p : jsstring) : segments p <> [].
Proof.
  destruct p as [|c p]; cbn [segments]; [discriminate|].
  destruct (c =? slash)%N; [discriminate|].
  destruct (segments p); discriminate.
Qed.

Lemma segments_app (dir file : jsstring) :
  forallb (fun c => negb (c =? slash)%N) file = true ->
  segments (dir ++ slash :: file) = segments dir ++ [file].
Proof.
  intros H. induction dir as [|x dir IH].
  - cbn [app segments]. rewrite N.eqb_refl, (segments_plain file H).
    reflexivity.
  - change ((x :: dir) ++ slash :: file) with (x :: (dir ++ slash :: file)).
    cbn [segments]. rewrite IH.
    destruct (x =? slash)%N; [reflexivity|].
    pose proof (segments_nonempty dir) as Hne.
    destruct (segments dir) as [|seg segs]; [contradiction|reflexivity].
Qed.

Lemma normalize_segment_plain (allowAboveRoot : bool)
    (res : list jsstring) (file : jsstring) :
  file <> [] -> file <> str "." -> file <> str ".." ->
  normalize_segment allowAboveRoot res file = res ++ [file].
Proof.
  intros H0 H1 H2. unfold normalize_segment, jsstring_eqb.
  now rewrite !bool_decide_eq_false_2 by assumption.
Qed.

Lemma join_snoc (sep : jsstring) (res : list jsstring) (file : jsstring) :
  join sep (res ++ [file])
  = match res with
    | [] => file
    | _ :: _ => join sep res ++ sep ++ file
    end.
Proof.
  induction res as [|x res IH]; [reflexivity|].
  destruct res as [|y res]; [reflexivity|].
  change (join sep ((x :: y :: res) ++ [file]))
    with (x ++ sep ++ join sep ((y :: res) ++ [file])).
  rewrite IH.
  change (join sep (x :: y :: res)) with (x ++ sep ++ join sep (y :: res)).
  now rewrite <- !app_assoc.
Qed.

Lemma strip_slashes_plain (file : jsstring) :
  file <> [] ->
  forallb (fun c => negb (c =? slash)%N) file = true ->
  strip_slashes file = file.
Proof.
  induction file as [|c f IH]; intros Hne H; [contradiction|].
  cbn [forallb] in H. apply andb_true_iff in H as [Hc Hf].
  apply negb_true_iff in Hc. cbn [strip_slashes].
  destruct f as [|d f].
  - cbn [strip_slashes]. now rewrite Hc.
  - rewrite (IH ltac:(discriminate) Hf). reflexivity.
Qed.

Lemma strip_slashes_keep (pre file : jsstring) :
  file <> [] ->
  forallb (fun c => negb (c =? slash)%N) file = true ->
  strip_slashes (pre ++ file) = pre ++ file.
Proof.
  intros Hne H. induction pre as [|x pre IH].
  - now apply strip_slashes_plain.
  - change ((x :: pre) ++ file) with (x :: (pre ++ file)).
    cbn [strip_slashes]. rewrite IH.
    destruct (pre ++ file) as [|y l] eqn:E; [|reflexivity].
    apply app_eq_nil in E as [_ E]. contradiction.
Qed.

Lemma basename_suffix (pre file : jsstring) :
  pre = [] \/ (exists a, pre = a ++ [slash]) ->
  file <> [] ->
  forallb (fun c => negb (c =? slash)%N) file = true ->
  basename (pre ++ file) = file.
Proof.
  intros Hpre Hne H. unfold basename.
  rewrite (strip_slashes_keep pre file Hne H). cbv zeta.
  unfold lastIndexOf. destruct Hpre as [->|[a ->]].
  - cbn [app]. rewrite lastIndexOf_absent by exact H.
    change (-1 + 1)%Z with (Z.of_nat 0).
    rewrite substring_from_drop by lia. reflexivity.
  - rewrite <- app_assoc. cbn [app].
    rewrite lastIndexOf_last by exact H.
    replace (0 + Z.of_nat (List.length a) + 1)%Z
      with (Z.of_nat (S (List.length a))) by lia.
    rewrite substring_from_drop by (rewrite length_app; simpl; lia).
    change (a ++ slash :: file) with (a ++ [slash] ++ file).
    rewrite app_assoc.
    rewrite drop_app_length'; [reflexivity|].
    rewrite length_app. simpl. lia.
Qed.

Lemma last_plain (file : jsstring) :
  file <> [] ->
  forallb (fun c => negb (c =? slash)%N) file = true ->
  exists x, last file = Some x /\ (x =? slash)%N = false.
Proof.
  intros Hne H. destruct (last file) as [x|] eqn:L.
  - exists x. split; [reflexivity|].
    apply last_Some in L as [l ->].
    rewrite forallb_app in H. apply andb_true_iff in H as [_ H].
    cbn [forallb] in H. rewrite andb_true_r in H.
    now apply negb_true_iff in H.
  - apply last_None in L. contradiction.
Qed.

(** The shape of a normalized path that ends with a plain file name: the
    name, after nothing or after a prefix that ends with a separator. *)
Lemma normalize_file (p file : jsstring) :
  file <> [] -> file <> str "." -> file <> str ".." ->
  forallb (fun c => negb (c =? slash)%N) file = true ->
  p = file \/ (exists dir, p = dir ++ slash :: file) ->
  exists pre,
    normalize p = pre ++ file
    /\ (pre = [] \/ exists a, pre = a ++ [slash]).
Proof.
  intros H0 H1 H2 H Hp.
  assert (Hseg : exists segs, segments p = segs ++ [file]).
  { destruct Hp as [->|[dir ->]].
    - exists []. now apply segments_plain.
    - exists (segments dir). now apply segments_app. }
  assert (Hlast : match last p with
                  | Some l => (l =? slash)%N
                  | None => false
                  end = false).
  { destruct (last_plain file H0 H) as [x [L X]].
    destruct Hp as [->|[dir ->]].
    - now rewrite L.
    - change (dir ++ slash :: file) with (dir ++ [slash] ++ file).
      rewrite app_assoc, last_app, L. exact X. }
  destruct Hseg as [segs Hseg].
  destruct p as [|c p].
  { destruct Hp as [E|[dir E]].
    - now subst file.
    - destruct dir; discriminate. }
  unfold normalize. cbv zeta. rewrite Hlast, Hseg, fold_left_app.
  cbn [fold_left].
  rewrite (normalize_segment_plain _ _ file H0 H1 H2), join_snoc.
  remember (fold_left (normalize_segment (negb (c =? slash)%N)) segs [])
    as res eqn:Hres. clear Hres.
  assert (Hbody : exists pre',
             match res with
             | [] => file
             | _ :: _ => join [slash] res ++ [slash] ++ file
             end = pre' ++ file
             /\ (pre' = [] \/ exists a, pre' = a ++ [slash])).
  { destruct res as [|r res].
    - exists []. auto.
    - exists (join [slash] (r :: res) ++ [slash]). split.
      + now rewrite <- app_assoc.
      + right. eauto. }
  destruct Hbody as [pre' [-> Hpre']].
  destruct (pre' ++ file) as [|y l] eqn:E.
  { apply app_eq_nil in E as [_ E]. contradiction. }
  rewrite <- E, app_nil_r.
  exists ((if (c =? slash)%N then [slash] else []) ++ pre').
  split; [now rewrite app_assoc|].
  destruct (c =? slash)%N.
  - right. destruct Hpre' as [->|[a ->]].
    + exists []. reflexivity.
    + exists ([slash] ++ a). now rewrite app_assoc.
  - exact Hpre'.
Qed.

Lemma basename_path_join (dir file : jsstring) :
  file <> [] -> file <> str "." -> file <> str ".." ->
  forallb (fun c => negb (c =? slash)%N) file = true ->
  basename (path_join dir file) = file.
Proof.
  intros H0 H1 H2 H.
  assert (Hn : exists pre,
             path_join dir file = pre ++ file
             /\ (pre = [] \/ exists a, pre = a ++ [slash])).
  { destruct file as [|c f]; [contradiction|].
    destruct dir as [|d dir]; unfold path_join.
    - apply normalize_file; auto.
    - apply normalize_file; auto. right.
      exists (d :: dir). reflexivity. }
  destruct Hn as [pre [-> Hpre]].
  now apply basename_suffix.
Qed.

Lemma stage_script_lookup (cwd stage : jsstring) (j : nat) :
  stage_names !! j = Some stage ->
  (j < List.length (stage_scripts cwd))
  /\ default [] (stage_scripts cwd !! j) = path_join cwd stage
  /\ basename (path_join cwd stage) = stage.
Proof.
  intros H. split; [|split].
  - unfold stage_scripts. rewrite length_map.
    apply lookup_lt_is_Some. eauto.
  - unfold stage_scripts. now rewrite list_lookup_fmap, H.
  - do 5 (destruct j as [|j];
          [injection H as <-;
           apply basename_path_join; [discriminate..|reflexivity]|]).
    discriminate.
Qed.

(** C2: in a server whose earlier processes have all closed, let a run
    start and its stages 1 to k-1 exit with code 0. If stage k then fails
    (it exits with another code, or it cannot be started), isProcessing
    becomes false and a message with the file name of stage k and the
    reason is recorded, which the status route reports with status error.
    From then on, whatever the processes and the status route do as long as
    no new upload arrives, no process is spawned: the scripts the run has
    started are stages 1 to k and no other, and the status stays error with
    a message that names stage k. *)
Theorem failed_stage_stops_pipeline (cwd : jsstring) (s0 : server)
    (now now' : Z) (k : nat) (stage : jsstring) (f : failure)
    (later : list event) :
  Forall (fun c => closed c = true) (children s0) ->
  1 <= k < 5 ->
  stage_names !! (k - 1) = Some stage ->
  is_failure f ->
  Forall no_upload later ->
  let n := List.length (children s0) in
  let started := fst (runPythonScripts cwd now s0) in
  let failing :=
    fst (run_events cwd started
           (successes n (k - 1) ++ [failure_event (n + (k - 1)) f])) in
  let failed :=
    run_events cwd failing (failure_rest (n + (k - 1)) f ++ later) in
  (isProcessing (run failing) = false
   /\ processingError (run failing) = Some (first_message stage f)
   /\ snd (get_status now' failing)
      = [respond 200 (error_status now now' (first_message stage f))])
  /\ (scriptPath <$> children (fst failed)
      = (scriptPath <$> children s0) ++ take k (stage_scripts cwd)
      /\ List.filter is_spawn (snd failed) = []
      /\ isProcessing (run (fst failed)) = false
      /\ processingError (run (fst failed)) = Some (last_message stage f)
      /\ snd (get_status now' (fst failed))
         = [respond 200 (error_status now now' (last_message stage f))]).
Proof.
  intros Hclosed Hk Hstage Hf Hlater n started failing failed.
  destruct (stage_script_lookup cwd stage (k - 1) Hstage)
    as [Hlen [Hscript Hbase]].
  set (all := stage_scripts cwd) in *.
  set (r := {| isProcessing := true; processingStartTime := Some now;
               processingError := None |}).
  assert (Hstarted : started
            = {| run := r;
                 children := children s0 ++ run_children all 0 false;
                 files := files s0 |}) by reflexivity.
  assert (Hrun : run_events cwd started (successes n (k - 1))
            = ({| run := r;
                  children := children s0 ++ run_children all (k - 1) false;
                  files := files s0 |},
               map (fun i => spawn (n + S i) (default [] (all !! S i)))
                   (seq 0 (k - 1)))).
  { rewrite Hstarted. unfold successes.
    apply (run_successes cwd r (children s0) (files s0) all (k - 1) 0).
    simpl. exact Hlen. }
  assert (Hfailing : failing
            = {| run := {| isProcessing := false;
                           processingStartTime := Some now;
                           processingError := Some (first_message stage f) |};
                 children := children s0
                             ++ run_children all (k - 1)
                                  match f with
                                  | exits _ => true
                                  | fails_to_start _ _ => false
                                  end;
                 files := files s0 |}).
  { unfold failing. rewrite run_events_app, Hrun. cbn [fst snd].
    rewrite run_events_cons. cbn [fst snd]. unfold n.
    destruct f as [code|message errno]; cbn [failure_event step].
    - rewrite close_failure by exact Hf. cbn [fst].
      unfold exit_msg. now rewrite Hscript, Hbase.
    - rewrite error_failure. cbn [fst].
      unfold start_msg. now rewrite Hscript, Hbase. }
  split.
  { rewrite Hfailing. simpl. repeat split.
    destruct f; reflexivity. }
  assert (Hfailed : exists acts,
            failed
            = ({| run := {| isProcessing := false;
                            processingStartTime := Some now;
                            processingError :=
                              Some (last_message stage f) |};
                  children := children s0 ++ run_children all (k - 1) true;
                  files := files s0 |}, acts)
            /\ List.filter is_spawn acts = []).
  { unfold failed. rewrite Hfailing.
    assert (Hq : forall s' : server,
              children s' = children s0 ++ run_children all (k - 1) true ->
              fst (run_events cwd s' later) = s'
              /\ List.filter is_spawn (snd (run_events cwd s' later)) = []).
    { intros s' Hs'. apply closed_children_quiescent; [|exact Hlater].
      rewrite Hs'. apply Forall_app. split; [exact Hclosed|].
      apply run_children_closed. }
    destruct f as [code|message errno]; cbn [failure_rest app].
    - match goal with
      | |- context [run_events cwd ?s later] =>
          destruct (Hq s eq_refl) as [E1 E2];
          rewrite (surjective_pairing (run_events cwd s later)), E1
      end.
      eexists. split; [reflexivity|exact E2].
    - rewrite run_events_cons. cbn [step]. unfold n.
      rewrite close_failure
        by (simpl in Hf; intros E; injection E; lia).
      cbn [fst snd app processingStartTime].
      match goal with
      | |- context [run_events cwd ?s later] =>
          destruct (Hq s eq_refl) as [E1 E2]; rewrite E1
      end.
      eexists. split; [|exact E2].
      unfold exit_msg. now rewrite Hscript, Hbase. }
  destruct Hfailed as [acts [E Hacts]]. rewrite E. simpl.
  repeat split.
  - rewrite fmap_app, run_children_scripts by exact Hlen.
    now replace (S (k - 1)) with k by lia.
  - exact Hacts.
  - destruct f; reflexivity.
Qed.

Lemma failed_stage_stops_pipeline_witness :
  scriptPath
    <$> children
          (fst (run_events cwd
                  (fst (run_events cwd
                          (fst (runPythonScripts cwd 1000 (init ∅)))
                          (successes 0 1
                           ++ [failure_event 1 (exits (Some 3%Z))])))
                  (failure_rest 1 (exits (Some 3%Z)) ++ later_events)))
  = [] ++ take 2 (stage_scripts cwd).
Proof.
  destruct (failed_stage_stops_pipeline cwd (init ∅) 1000 9000 2
              (str "cleanup_files.py") (exits (Some 3%Z)) later_events)
    as [_ [H _]].
  - constructor.
  - lia.
  - reflexivity.
  - simpl. discriminate.
  - unfold later_events. repeat constructor.
  - exact H.
Defined.

(** ** The check of the year, in general *)

Lemma unit_at_true (s : jsstring) (i : nat) (p : N -> bool) :
  unit_at s i p = true -> exists c, s !! i = Some c /\ p c = true.
Proof.
  unfold unit_at. destruct (s !! i) as [c|]; [eauto|discriminate].
Qed.

Lemma take_four (l : jsstring) (a b c d : N) :
  l !! 0 = Some a -> l !! 1 = Some b -> l !! 2 = Some c -> l !! 3 = Some d ->
  take 4 l = [a; b; c; d].
Proof.
  destruct l as [|a' [|b' [|c' [|d' l]]]]; intros H0 H1 H2 H3;
    simpl in *; try discriminate.
  rewrite take_0. congruence.
Qed.

Lemma digit_bounds (c : N) : is_digit c = true -> (48 <= c <= 57)%N.
Proof.
  unfold is_digit, in_range. rewrite andb_true_iff, !N.leb_le. tauto.
Qed.

(** Where the regular expression matches, there is a 4-digit substring in
    1900-2099. *)
Lemma year_at_is_year (s : jsstring) (i : nat) :
  year_at s i = true -> is_year (take 4 (drop i s)) = true.
Proof.
  unfold year_at. rewrite !andb_true_iff.
  intros [[[[_ Hab] Hc] Hd] _].
  apply unit_at_true in Hc as [c [Lc Hc]].
  apply unit_at_true in Hd as [d [Ld Hd]].
  assert (Hw : exists a b, s !! i = Some a /\ s !! (i + 1) = Some b
               /\ ((a = 49%N /\ b = 57%N) \/ (a = 50%N /\ b = 48%N))).
  { apply orb_true_iff in Hab as [H|H]; apply andb_true_iff in H as [Ha Hb];
      apply unit_at_true in Ha as [a [La Ha]];
      apply unit_at_true in Hb as [b [Lb Hb]];
      apply N.eqb_eq in Ha, Hb; exists a, b; auto. }
  destruct Hw as [a [b [La [Lb Hyear]]]].
  rewrite (take_four (drop i s) a b c d).
  - apply digit_bounds in Hc as Bc. apply digit_bounds in Hd as Bd.
    unfold is_year, year_value. cbn [forallb].
    rewrite Hc, Hd.
    destruct Hyear as [[-> ->]|[-> ->]]; cbn [is_digit in_range N.leb andb];
      unfold digit_value; simpl N.compare; cbn [andb];
      apply andb_true_iff; rewrite !Z.leb_le; lia.
  - rewrite lookup_drop, Nat.add_0_r. exact La.
  - rewrite lookup_drop. exact Lb.
  - rewrite lookup_drop. exact Lc.
  - rewrite lookup_drop. exact Ld.
Qed.

(** A sheet name without a 4-digit substring in 1900-2099 is never matched:
    the regular expression is at least as strict as the substring test. *)
Lemma no_year_substring_no_match (sheetName : jsstring) :
  has_year_substring sheetName = false -> match_year sheetName = None.
Proof.
  intros H. unfold match_year.
  destruct (List.find (year_at sheetName) (seq 0 (List.length sheetName)))
    as [i|] eqn:E; [|reflexivity].
  apply List.find_some in E as [Hin Hy].
  apply year_at_is_year in Hy.
  assert (has_year_substring sheetName = true); [|congruence].
  apply existsb_exists. exists i. split; [exact Hin|exact Hy].
Qed.

Lemma count_push (kind : jsstring -> bool) (errors : list jsstring)
    (e : jsstring) :
  count kind (push errors e)
  = count kind errors + (if kind e then 1 else 0).
Proof.
  unfold count, push. rewrite List.filter_app, length_app. simpl.
  destruct (kind e); reflexivity.
Qed.

Lemma year_error_kinds (sheetName : jsstring) (cols : list jsstring) :
  is_year_error (year_msg sheetName) = true
  /\ is_year_error (empty_msg sheetName) = false
  /\ is_year_error (missing_basic_msg sheetName cols) = false
  /\ is_year_error (missing_severity_msg sheetName cols) = false
  /\ is_year_error (headers_only_msg sheetName) = false
  /\ is_year_error no_sheets_msg = false.
Proof. repeat split. Qed.

Lemma check_columns_year_count (errors : list jsstring)
    (sheetName : jsstring) (headers : list jsstring) :
  count is_year_error (check_columns errors sheetName headers)
  = count is_year_error errors.
Proof.
  unfold check_columns. cbv zeta.
  repeat match goal with
         | |- context [if ?b then _ else _] => destruct b
         end;
    rewrite ?count_push;
    rewrite ?(proj1 (proj2 (proj2 (year_error_kinds sheetName _))));
    rewrite ?(proj1 (proj2 (proj2 (proj2 (year_error_kinds sheetName _)))));
    lia.
Qed.

(** The year message of a sheet is pushed exactly when the regular
    expression does not match its name, once. *)
Lemma validate_sheet_year_count (wb : workbook) (errors : list jsstring)
    (sheetName : jsstring) :
  count is_year_error (validate_sheet wb errors sheetName)
  = count is_year_error errors
    + match match_year sheetName with Some _ => 0 | None => 1 end.
Proof.
  unfold validate_sheet. cbv zeta.
  set (errors1 := match match_year sheetName with
                  | Some _ => errors
                  | None => push errors (year_msg sheetName)
                  end).
  assert (H1 : count is_year_error errors1
               = count is_year_error errors
                 + match match_year sheetName with Some _ => 0 | None => 1 end).
  { unfold errors1. destruct (match_year sheetName).
    - simpl. lia.
    - rewrite count_push.
      now rewrite (proj1 (year_error_kinds sheetName [])). }
  destruct (sheet_to_json (Sheets wb !! sheetName)) as [|headers rows].
  - rewrite count_push. change (is_year_error (empty_msg sheetName)) with false.
    cbv iota. lia.
  - destruct (array_length (headers :: rows) <? 2)%Z.
    + rewrite count_push, check_columns_year_count.
      change (is_year_error (headers_only_msg sheetName)) with false.
      cbv iota. lia.
    + rewrite check_columns_year_count. exact H1.
Qed.

Lemma fold_year_count (wb : workbook) (sheetNames : list jsstring)
    (errors : list jsstring) :
  Forall (fun n => match_year n = None) sheetNames ->
  count is_year_error (fold_left (validate_sheet wb) sheetNames errors)
  = count is_year_error errors + List.length sheetNames.
Proof.
  intros H. revert errors. induction H as [|n ns Hn Hns IH]; intros errors.
  - simpl. lia.
  - simpl fold_left. rewrite IH, validate_sheet_year_count, Hn.
    simpl List.length. lia.
Qed.

(** When no sheet name of a workbook that opens has a 4-digit substring in
    1900-2099, the outcome holds exactly one year message per sheet. *)
Lemma year_errors_one_per_sheet (files : gmap jsstring contents)
    (filePath : jsstring) (wb : workbook) :
  files !! filePath = Some (Spreadsheet wb) ->
  Forall (fun n => has_year_substring n = false) (SheetNames wb) ->
  count is_year_error (errors (validateExcelFile files filePath))
  = List.length (SheetNames wb).
Proof.
  intros Hfile Hnames. unfold validateExcelFile, readFile. rewrite Hfile.
  destruct (array_length (SheetNames wb) =? 0)%Z eqn:E0.
  - unfold array_length in E0. apply Z.eqb_eq in E0.
    destruct (SheetNames wb); [reflexivity|simpl in E0; lia].
  - assert (H : count is_year_error
                  (fold_left (validate_sheet wb) (SheetNames wb) [])
                = List.length (SheetNames wb)).
    { rewrite fold_year_count; [reflexivity|].
      eapply Forall_impl; [exact Hnames|].
      intros n Hn. apply no_year_substring_no_match. exact Hn. }
    destruct (array_length (fold_left _ _ _) =? 0)%Z eqn:E1.
    + unfold array_length in E1. apply Z.eqb_eq in E1.
      destruct (fold_left (validate_sheet wb) (SheetNames wb) []);
        [exact H|simpl in E1; lia].
    + exact H.
Qed.

(** ** The check of the columns, in general *)

Ltac units :=
  unfold is_word, is_upper, is_lower, is_digit, in_range, underscore in *;
  repeat match goal with
         | |- context [(?a <=? ?b)%N] => destruct (N.leb_spec a b)
         | |- context [(?a =? ?b)%N] => destruct (N.eqb_spec a b)
         | H : context [(?a <=? ?b)%N] |- _ => destruct (N.leb_spec a b)
         | H : context [(?a =? ?b)%N] |- _ => destruct (N.eqb_spec a b)
         end;
  simpl in *; try reflexivity; try discriminate; try lia.

(** The table of the lower-case forms stays above U+007F, on both
    sides. *)
Lemma lower_table_high :
  forallb (fun e => (128 <=? fst e)%N && (128 <=? snd e)%N) lower_table
  = true.
Proof. vm_compute. reflexivity. Qed.

Lemma lower_other_in (c t : N) (table : list (N * N)) :
  lower_other c table = Some t -> In (c, t) table.
Proof.
  induction table as [|[k v] table IH]; [discriminate|].
  cbn [lower_other]. destruct (N.eqb_spec c k) as [->|_].
  - intros E. injection E as ->. now left.
  - intros E. right. auto.
Qed.

Lemma lower_other_high (c t : N) :
  lower_other c lower_table = Some t -> (128 <= c /\ 128 <= t)%N.
Proof.
  intros E. apply lower_other_in in E.
  pose proof lower_table_high as H.
  rewrite forallb_forall in H. specialize (H _ E).
  apply andb_true_iff in H as [H1 H2].
  apply N.leb_le in H1, H2. auto.
Qed.

(** The lower-case form of a code unit, by cases: an ASCII capital, the
    two code units that give an ASCII letter, a capital of the table, and
    every other code unit, which stays. *)
Lemma lower_unit_cases (x : N) :
  (is_upper x = true /\ lower_unit x = [(x + 32)%N])
  \/ lower_unit x = [105%N; 775%N]
  \/ lower_unit x = [107%N]
  \/ (exists t, (128 <= t)%N /\ lower_unit x = [t])
  \/ (is_upper x = false /\ lower_unit x = [x]).
Proof.
  unfold lower_unit. destruct (is_upper x); [auto|].
  destruct (x =? 304)%N; [auto|]. destruct (x =? 8490)%N; [auto|].
  destruct (lower_other x lower_table) as [t|] eqn:L; [|auto 8].
  apply lower_other_high in L. right. right. right. left.
  exists t. split; [lia|reflexivity].
Qed.

Lemma lower_unit_not_upper (c : N) :
  Forall (fun x => is_upper x = false) (lower_unit c).
Proof.
  destruct (lower_unit_cases c) as [[U ->]|[->|[->|[[t [Ht ->]]|[U ->]]]]];
    repeat constructor; try exact U; units.
Qed.

Lemma toLowerCase_not_upper (s : jsstring) :
  Forall (fun x => is_upper x = false) (toLowerCase s).
Proof.
  unfold toLowerCase. induction s as [|c s IH]; simpl; [constructor|].
  apply Forall_app. split; [apply lower_unit_not_upper|exact IH].
Qed.

Lemma collapse_spaces_not_upper (in_run : bool) (s : jsstring) :
  Forall (fun x => is_upper x = false) s ->
  Forall (fun x => is_upper x = false) (collapse_spaces in_run s).
Proof.
  intros H. revert in_run. induction H as [|c s Hc Hs IH]; intros in_run;
    simpl; [constructor|].
  destruct (is_space c).
  - apply Forall_app. split; [|apply IH].
    destruct in_run; repeat constructor.
  - constructor; [exact Hc|apply IH].
Qed.

Lemma filter_word_units (s : jsstring) :
  Forall (fun x => is_upper x = false) s ->
  Forall (fun x => is_word x = true /\ is_upper x = false)
         (List.filter is_word s).
Proof.
  intros H. induction H as [|c s Hc Hs IH]; simpl; [constructor|].
  destruct (is_word c) eqn:W; [constructor; auto|exact IH].
Qed.

Lemma toLowerCase_fixed (s : jsstring) :
  Forall (fun x => is_word x = true /\ is_upper x = false) s ->
  toLowerCase s = s.
Proof.
  intros H. unfold toLowerCase.
  induction H as [|c s [W U] Hs IH]; simpl; [reflexivity|].
  rewrite IH. unfold lower_unit. rewrite U.
  assert (c <= 122)%N by units.
  destruct (N.eqb_spec c 304); [lia|].
  destruct (N.eqb_spec c 8490); [lia|].
  destruct (lower_other c lower_table) as [t|] eqn:L; [|reflexivity].
  apply lower_other_high in L. lia.
Qed.

(** A normalized header is in lower case already. *)
Lemma normalizeHeader_lower (h : jsstring) :
  toLowerCase (normalizeHeader h) = normalizeHeader h.
Proof.
  apply toLowerCase_fixed. unfold normalizeHeader.
  apply filter_word_units, collapse_spaces_not_upper, toLowerCase_not_upper.
Qed.

Lemma existsb_over_map {A B : Type} (p : B -> bool) (g : A -> B)
    (l : list A) :
  existsb p (map g l) = existsb (fun x => p (g x)) l.
Proof.
  induction l as [|x l IH]; simpl; [reflexivity|]. now rewrite IH.
Qed.

Lemma required_column_plain (col : jsstring) :
  In col ALL_REQUIRED_COLUMNS ->
  toLowerCase (remove_underscores col) = col /\ toLowerCase col = col.
Proof.
  intros H. unfold ALL_REQUIRED_COLUMNS, REQUIRED_COLUMNS,
    SEVERITY_CALC_COLUMNS in H. simpl in H.
  repeat (destruct H as [<-|H]; [split; reflexivity|]). contradiction.
Qed.

(** A required column is found exactly when some header normalizes to
    it. *)
Lemma found_iff (headers : list jsstring) (col : jsstring) :
  In col ALL_REQUIRED_COLUMNS ->
  found (map normalizeHeader headers) col = true
  <-> In col (map normalizeHeader headers).
Proof.
  intros Hcol. destruct (required_column_plain col Hcol) as [E1 E2].
  unfold found. cbv zeta. rewrite E1, E2, existsb_over_map.
  rewrite existsb_exists, in_map_iff. unfold jsstring_eqb.
  split.
  - intros [h [Hin Hh]]. rewrite normalizeHeader_lower in Hh.
    exists h. split; [|exact Hin].
    destruct (bool_decide_reflect (normalizeHeader h = col)); [assumption|].
    discriminate.
  - intros [h [Hh Hin]]. exists h. split; [exact Hin|].
    rewrite normalizeHeader_lower, Hh.
    now rewrite bool_decide_eq_true_2.
Qed.

(** A header row that has every required column but
    victimkilled gives the single message on the severity columns, which
    names victimkilled. *)
Lemma check_columns_missing_victimkilled (errors : list jsstring)
    (sheetName : jsstring) (headers : list jsstring) :
  (forall col, In col ALL_REQUIRED_COLUMNS -> col <> str "victimkilled" ->
               In col (map normalizeHeader headers)) ->
  ~ In (str "victimkilled") (map normalizeHeader headers) ->
  check_columns errors sheetName headers
  = push errors (missing_severity_msg sheetName [str "victimkilled"]).
Proof.
  intros Hothers Hvk. unfold check_columns. cbv zeta.
  rewrite (List.filter_ext_in
             (fun col => negb (found (map normalizeHeader headers) col))
             (fun col => jsstring_eqb col (str "victimkilled"))).
  - reflexivity.
  - intros col Hcol. unfold jsstring_eqb.
    destruct (bool_decide_reflect (col = str "victimkilled")) as [->|Hne].
    + apply negb_true_iff. apply not_true_is_false.
      rewrite found_iff by exact Hcol. exact Hvk.
    + apply negb_false_iff. apply found_iff; auto.
Qed.

(** A header row that has every required column gives no message on the
    columns. *)
Lemma check_columns_complete (errors : list jsstring)
    (sheetName : jsstring) (headers : list jsstring) :
  (forall col, In col ALL_REQUIRED_COLUMNS ->
               In col (map normalizeHeader headers)) ->
  check_columns errors sheetName headers = errors.
Proof.
  intros Hall. unfold check_columns. cbv zeta.
  rewrite (List.filter_ext_in
             (fun col => negb (found (map normalizeHeader headers) col))
             (fun _ => false)).
  - reflexivity.
  - intros col Hcol. apply negb_false_iff. apply found_iff; auto.
Qed.

(** A header cell whose normalized
    form is exactly victimkilled, added anywhere to such a row, removes the
    message. *)
Lemma exact_header_removes_error (errors : list jsstring)
    (sheetName : jsstring) (headers headers' : list jsstring)
    (h : jsstring) :
  (forall col, In col ALL_REQUIRED_COLUMNS -> col <> str "victimkilled" ->
               In col (map normalizeHeader headers)) ->
  (forall x, In x headers -> In x headers') ->
  In h headers' ->
  normalizeHeader h = str "victimkilled" ->
  check_columns errors sheetName headers' = errors.
Proof.
  intros Hothers Hincl Hin Hh. apply check_columns_complete.
  intros col Hcol. unfold jsstring_eqb.
  destruct (decide (col = str "victimkilled")) as [->|Hne].
  - apply in_map_iff. exists h. auto.
  - specialize (Hothers col Hcol Hne).
    apply in_map_iff in Hothers as [x [Hx Hxin]].
    apply in_map_iff. exists x. auto.
Qed.

Lemma startsWith_app (a b c : jsstring) :
  startsWith (a ++ b) (a ++ c) = startsWith b c.
Proof.
  induction a as [|x a IH]; simpl; [reflexivity|].
  now rewrite N.eqb_refl, IH.
Qed.

Lemma severity_error_kinds (sheetName : jsstring) (cols : list jsstring) :
  is_severity_error sheetName (missing_severity_msg sheetName cols) = true
  /\ is_severity_error sheetName (headers_only_msg sheetName) = false
  /\ is_severity_error sheetName (year_msg sheetName) = false.
Proof.
  unfold is_severity_error, missing_severity_msg, headers_only_msg, msg,
    quoted.
  repeat split.
  - simpl. rewrite <- !app_assoc, (startsWith_app sheetName). simpl.
    generalize (join (str ", ") cols). intros l. now destruct l.
  - simpl. rewrite <- !app_assoc, (startsWith_app sheetName). reflexivity.
Qed.

(** On the whole sheet: among the messages of a sheet with
    a header row that lacks victimkilled only, exactly one is on the
    severity columns, and it names victimkilled. *)
Lemma validate_sheet_missing_victimkilled (wb : workbook)
    (errors : list jsstring) (sheetName : jsstring)
    (headers : list jsstring) (rows : list (list jsstring)) :
  Sheets wb !! sheetName = Some (headers :: rows) ->
  (forall col, In col ALL_REQUIRED_COLUMNS -> col <> str "victimkilled" ->
               In col (map normalizeHeader headers)) ->
  ~ In (str "victimkilled") (map normalizeHeader headers) ->
  validate_sheet wb errors sheetName
  = errors
    ++ match match_year sheetName with
       | Some _ => []
       | None => [year_msg sheetName]
       end
    ++ [missing_severity_msg sheetName [str "victimkilled"]]
    ++ match rows with
       | [] => [headers_only_msg sheetName]
       | _ :: _ => []
       end
  /\ count (is_severity_error sheetName)
           (validate_sheet wb errors sheetName)
     = count (is_severity_error sheetName) errors + 1.
Proof.
  intros Hsheet Hothers Hvk.
  assert (E : validate_sheet wb errors sheetName
              = errors
                ++ match match_year sheetName with
                   | Some _ => []
                   | None => [year_msg sheetName]
                   end
                ++ [missing_severity_msg sheetName [str "victimkilled"]]
                ++ match rows with
                   | [] => [headers_only_msg sheetName]
                   | _ :: _ => []
                   end).
  { unfold validate_sheet. cbv zeta. rewrite Hsheet.
    change (sheet_to_json (Some (headers :: rows))) with (headers :: rows).
    cbv iota.
    rewrite check_columns_missing_victimkilled by assumption.
    unfold push.
    destruct rows as [|row rows].
    - change (array_length [headers] <? 2)%Z with true. cbv iota.
      destruct (match_year sheetName); now rewrite <- ?app_assoc.
    - replace (array_length (headers :: row :: rows) <? 2)%Z with false.
      + destruct (match_year sheetName); now rewrite <- ?app_assoc.
      + symmetry. apply Z.ltb_ge. unfold array_length. simpl List.length.
        lia. }
  split; [exact E|]. rewrite E. unfold count.
  destruct (severity_error_kinds sheetName [str "victimkilled"])
    as [K1 [K2 K3]].
  rewrite !List.filter_app, !length_app.
  destruct (match_year sheetName); destruct rows; simpl;
    rewrite ?K1, ?K2, ?K3; simpl; lia.
Qed.

(** C8: for a sheet whose header row, once normalized, has every required
    column but victimkilled, the check adds exactly one message on the
    missing severity columns, and that message names victimkilled alone.
    With a cell added to the header row whose normalized form is
    victimkilled, the same sheet gets no message on its columns: what is
    left is the message on the year and the one on the data rows, if they
    apply. *)
Theorem missing_victimkilled_reported_once (wb : workbook)
    (errors : list jsstring) (sheetName : jsstring)
    (headers : list jsstring) (rows : list (list jsstring)) :
  Sheets wb !! sheetName = Some (headers :: rows) ->
  (forall col, In col ALL_REQUIRED_COLUMNS -> col <> str "victimkilled" ->
               In col (map normalizeHeader headers)) ->
  ~ In (str "victimkilled") (map normalizeHeader headers) ->
  (validate_sheet wb errors sheetName
   = errors
     ++ match match_year sheetName with
        | Some _ => []
        | None => [year_msg sheetName]
        end
     ++ [missing_severity_msg sheetName [str "victimkilled"]]
     ++ match rows with
        | [] => [headers_only_msg sheetName]
        | _ :: _ => []
        end
   /\ count (is_severity_error sheetName)
            (validate_sheet wb errors sheetName)
      = count (is_severity_error sheetName) errors + 1)
  /\ forall (wb' : workbook) (headers' : list jsstring) (h : jsstring),
       Sheets wb' !! sheetName = Some (headers' :: rows) ->
       (forall x, In x headers -> In x headers') ->
       In h headers' ->
       normalizeHeader h = str "victimkilled" ->
       validate_sheet wb' errors sheetName
       = errors
         ++ match match_year sheetName with
            | Some _ => []
            | None => [year_msg sheetName]
            end
         ++ match rows with
            | [] => [headers_only_msg sheetName]
            | _ :: _ => []
            end
       /\ count (is_severity_error sheetName)
                (validate_sheet wb' errors sheetName)
          = count (is_severity_error sheetName) errors.
Proof.
  intros Hsheet Hothers Hvk. split.
  - exact (validate_sheet_missing_victimkilled wb errors sheetName headers
             rows Hsheet Hothers Hvk).
  - intros wb' headers' h Hsheet' Hincl Hin Hh.
    assert (E : validate_sheet wb' errors sheetName
                = errors
                  ++ match match_year sheetName with
                     | Some _ => []
                     | None => [year_msg sheetName]
                     end
                  ++ match rows with
                     | [] => [headers_only_msg sheetName]
                     | _ :: _ => []
                     end).
    { unfold validate_sheet. cbv zeta. rewrite Hsheet'.
      change (sheet_to_json (Some (headers' :: rows)))
        with (headers' :: rows).
      cbv iota.
      rewrite (exact_header_removes_error _ sheetName headers headers' h)
        by assumption.
      unfold push.
      destruct rows as [|row rows].
      - change (array_length [headers'] <? 2)%Z with true. cbv iota.
        destruct (match_year sheetName); now rewrite <- ?app_assoc.
      - replace (array_length (headers' :: row :: rows) <? 2)%Z
          with false.
        + destruct (match_year sheetName);
            now rewrite ?app_nil_r.
        + symmetry. apply Z.ltb_ge. unfold array_length.
          simpl List.length. lia. }
    split; [exact E|]. rewrite E. unfold count.
    destruct (severity_error_kinds sheetName [str "victimkilled"])
      as [_ [K2 K3]].
    rewrite !List.filter_app, !length_app.
    destruct (match_year sheetName); destruct rows; simpl;
      rewrite ?K2, ?K3; simpl; lia.
Qed.

Lemma missing_victimkilled_reported_once_witness :
  validate_sheet (one_sheet (str "2024") eleven_headers) [] (str "2024")
  = [missing_severity_msg (str "2024") [str "victimkilled"]]
  /\ validate_sheet
       (one_sheet (str "2024") (eleven_headers ++ [str "Victim-Killed "]))
       [] (str "2024")
     = [].
Proof.
  destruct (missing_victimkilled_reported_once
              (one_sheet (str "2024") eleven_headers) [] (str "2024")
              eleven_headers [data_row])
    as [[E _] Hadd].
  - vm_compute. reflexivity.
  - intros col Hcol Hne. vm_compute in Hcol.
    repeat (destruct Hcol as [<-|Hcol];
            [first [exfalso; apply Hne; vm_compute; reflexivity
                   |vm_compute; repeat (first [left; reflexivity|right])]
            |]).
    destruct Hcol.
  - vm_compute. intros H.
    repeat (destruct H as [H|H]; [discriminate H|]). exact H.
  - split; [exact E|].
    destruct (Hadd (one_sheet (str "2024")
                      (eleven_headers ++ [str "Victim-Killed "]))
                   (eleven_headers ++ [str "Victim-Killed "])
                   (str "Victim-Killed "))
      as [E' _].
    + vm_compute. reflexivity.
    + intros x Hx. apply in_or_app. now left.
    + apply in_or_app. right. now left.
    + vm_compute. reflexivity.
    + exact E'.
Defined.

(** ** The sanitizer below its length limit *)

Lemma pairs_ind (P : jsstring -> Prop) :
  P [] -> (forall a, P [a]) ->
  (forall a b l, P l -> P (b :: l) -> P (a :: b :: l)) ->
  forall l, P l.
Proof.
  intros H0 H1 H2 l.
  assert (H : P l /\ forall a, P (a :: l)); [|apply H].
  induction l as [|b l [IH1 IH2]]; split; auto.
Qed.

Lemma remove_dotdot_cons (a : N) (s : jsstring) :
  (a =? dot)%N = false -> remove_dotdot (a :: s) = a :: remove_dotdot s.
Proof.
  intros H. destruct s as [|b s]; simpl; [reflexivity|]. now rewrite H.
Qed.

Lemma remove_dotdot_pair (a b : N) (l : jsstring) :
  remove_dotdot (a :: b :: l)
  = if (a =? dot)%N && (b =? dot)%N then remove_dotdot l
    else a :: remove_dotdot (b :: l).
Proof. reflexivity. Qed.

Lemma startsWith_dot_cons (a : N) (s : jsstring) :
  startsWith (a :: s) (str ".") = (dot =? a)%N.
Proof.
  change (startsWith (a :: s) (str ".")) with ((dot =? a)%N && true).
  apply andb_true_r.
Qed.

Lemma includes_dotdot_cons (a : N) (s : jsstring) :
  includes (a :: s) (str "..")
  = ((dot =? a)%N && startsWith s (str ".")) || includes s (str "..").
Proof.
  simpl. destruct s as [|b s]; simpl; rewrite ?andb_true_r; reflexivity.
Qed.

(** After the first step no two dots are left next to each other. *)
Lemma remove_dotdot_clean (s : jsstring) :
  includes (remove_dotdot s) (str "..") = false.
Proof.
  induction s as [|a|a b l IH1 IH2] using pairs_ind;
    [reflexivity|simpl; now rewrite andb_false_r|].
  rewrite remove_dotdot_pair.
  destruct ((a =? dot)%N && (b =? dot)%N) eqn:E; [exact IH1|].
  rewrite includes_dotdot_cons, IH2, orb_false_r.
  destruct (N.eqb_spec dot a) as [<-|Ha]; [|reflexivity].
  simpl in E. rewrite remove_dotdot_cons by exact E.
  rewrite startsWith_dot_cons, N.eqb_sym, E. reflexivity.
Qed.

Lemma remove_dotdot_fixed (s : jsstring) :
  includes s (str "..") = false -> remove_dotdot s = s.
Proof.
  induction s as [|a|a b l IH1 IH2] using pairs_ind; [reflexivity..|].
  intros H. rewrite includes_dotdot_cons in H.
  apply orb_false_iff in H as [Hh Ht].
  rewrite remove_dotdot_pair.
  replace ((a =? dot)%N && (b =? dot)%N) with false.
  - now rewrite IH2.
  - simpl in Hh. rewrite andb_true_r in Hh.
    now rewrite (N.eqb_sym a), (N.eqb_sym b).
Qed.

Lemma remove_dotdot_length (s : jsstring) :
  List.length (remove_dotdot s) <= List.length s.
Proof.
  induction s as [|a|a b l IH1 IH2] using pairs_ind; [simpl; lia..|].
  rewrite remove_dotdot_pair.
  destruct ((a =? dot)%N && (b =? dot)%N); simpl List.length in *; lia.
Qed.

Lemma replace_unsafe_dot (c : N) :
  (dot =? (if is_safe c then c else underscore))%N = (dot =? c)%N.
Proof.
  destruct (is_safe c) eqn:S; [reflexivity|].
  destruct (N.eqb_spec dot c) as [<-|]; [discriminate|reflexivity].
Qed.

Lemma replace_unsafe_dotdot (s : jsstring) :
  includes (replace_unsafe s) (str "..") = includes s (str "..")
  /\ startsWith (replace_unsafe s) (str ".") = startsWith s (str ".").
Proof.
  induction s as [|a s [IH1 IH2]]; [split; reflexivity|].
  unfold replace_unsafe in *. simpl map. split.
  - rewrite !includes_dotdot_cons, IH1, IH2, replace_unsafe_dot.
    reflexivity.
  - rewrite !startsWith_dot_cons. apply replace_unsafe_dot.
Qed.

Lemma replace_unsafe_safe (s : jsstring) :
  forallb is_safe (replace_unsafe s) = true.
Proof.
  induction s as [|a s IH]; [reflexivity|]. simpl. rewrite IH.
  destruct (is_safe a) eqn:S; [now rewrite S|reflexivity].
Qed.

Lemma replace_unsafe_fixed (s : jsstring) :
  forallb is_safe s = true -> replace_unsafe s = s.
Proof.
  induction s as [|a s IH]; [reflexivity|]. simpl.
  intros H. apply andb_true_iff in H as [Ha Hs]. now rewrite Ha, IH.
Qed.

(** A clean name of at most 200 code units is left as it is. *)
Lemma sanitizeFileName_fixed (s : jsstring) :
  includes s (str "..") = false ->
  forallb is_safe s = true ->
  startsWith s (str ".") = false ->
  (JS.length s <= 200)%Z ->
  sanitizeFileName s = s.
Proof.
  intros Hd Hs Hh Hl. unfold sanitizeFileName. cbv zeta.
  rewrite remove_dotdot_fixed, replace_unsafe_fixed, Hh by assumption.
  now replace (200 <? JS.length s)%Z with false by (symmetry; lia).
Qed.

(** Wherever the length limit does not cut, that is for every name
    of at most 195 code units the result has no two dots in a row and is
    left as it is by a second pass. *)
Lemma sanitizeFileName_short (s : jsstring) :
  (JS.length s <= 195)%Z ->
  includes (sanitizeFileName s) (str "..") = false
  /\ sanitizeFileName (sanitizeFileName s) = sanitizeFileName s.
Proof.
  intros Hl.
  set (t := replace_unsafe (remove_dotdot s)).
  assert (Ht : List.length t <= List.length s).
  { unfold t, replace_unsafe. rewrite length_map.
    apply remove_dotdot_length. }
  assert (Hd : includes t (str "..") = false).
  { unfold t. rewrite (proj1 (replace_unsafe_dotdot _)).
    apply remove_dotdot_clean. }
  assert (Hs : forallb is_safe t = true) by apply replace_unsafe_safe.
  set (u := if startsWith t (str ".") then str "file_" ++ t else t).
  assert (Hu : includes u (str "..") = false
               /\ forallb is_safe u = true
               /\ startsWith u (str ".") = false
               /\ (JS.length u <= 200)%Z).
  { unfold u, JS.length in *.
    destruct (startsWith t (str ".")) eqn:E.
    - repeat split.
      + change (str "file_" ++ t) with (102 :: 105 :: 108 :: 101 :: 95 :: t)%N.
        rewrite !includes_dotdot_cons. rewrite Hd. reflexivity.
      + simpl. exact Hs.
      + rewrite length_app. simpl List.length. lia.
    - repeat split; auto. lia. }
  assert (E : sanitizeFileName s = u).
  { unfold sanitizeFileName. cbv zeta. fold t. fold u.
    now replace (200 <? JS.length u)%Z with false by (symmetry; lia). }
  rewrite E. destruct Hu as [H1 [H2 [H3 H4]]].
  split; [exact H1|]. now apply sanitizeFileName_fixed.
Qed.

(** * Further properties of the code *)

Import Page Logging Facts.

(** ** The outcome of the check of the workbook *)

Lemma check_columns_app (errors : list jsstring) (sheetName : jsstring)
    (headers : list jsstring) :
  check_columns errors sheetName headers
  = errors ++ check_columns [] sheetName headers.
Proof.
  unfold check_columns. cbv zeta. unfold push.
  repeat match goal with
         | |- context [if ?b then _ else _] => destruct b
         end;
    simpl; rewrite <- ?app_assoc, ?app_nil_r; reflexivity.
Qed.

Lemma validate_sheet_app (wb : workbook) (errors : list jsstring)
    (sheetName : jsstring) :
  validate_sheet wb errors sheetName
  = errors ++ validate_sheet wb [] sheetName.
Proof.
  unfold validate_sheet. cbv zeta. unfold push.
  destruct (sheet_to_json (Sheets wb !! sheetName)) as [|headers rows].
  - destruct (match_year sheetName); simpl;
      rewrite <- ?app_assoc; reflexivity.
  - rewrite (check_columns_app (match match_year sheetName with
                                | Some _ => errors
                                | None => errors ++ [year_msg sheetName]
                                end)).
    rewrite (check_columns_app (match match_year sheetName with
                                | Some _ => []
                                | None => [] ++ [year_msg sheetName]
                                end)).
    destruct (array_length (headers :: rows) <? 2)%Z;
      destruct (match_year sheetName); simpl;
      rewrite <- ?app_assoc; reflexivity.
Qed.

Lemma fold_validate_sheet (wb : workbook) (sheetNames : list jsstring)
    (errors : list jsstring) :
  fold_left (validate_sheet wb) sheetNames errors
  = errors ++ flat_map (validate_sheet wb []) sheetNames.
Proof.
  revert errors. induction sheetNames as [|n ns IH]; intros errors; simpl.
  - now rewrite app_nil_r.
  - rewrite IH, validate_sheet_app, <- app_assoc. reflexivity.
Qed.

Lemma array_length_zero {A : Type} (a : list A) :
  (array_length a =? 0)%Z = true <-> a = [].
Proof.
  unfold array_length. rewrite Z.eqb_eq.
  destruct a; simpl; split; intros H; reflexivity || discriminate.
Qed.

(** X1: the flag valid of an outcome says exactly that its error list is
    empty, for a workbook that opens as for one that does not. *)
Theorem valid_iff_no_errors (files : gmap jsstring contents)
    (filePath : jsstring) :
  valid (validateExcelFile files filePath) = true
  <-> errors (validateExcelFile files filePath) = [].
Proof.
  unfold validateExcelFile.
  destruct (readFile files filePath) as [message|wb].
  - destruct (includes message (str "Unsupported file"));
      [|destruct (includes message (str "ENOENT")
                  || includes message (str "no such file"))];
      simpl; split; discriminate.
  - destruct (array_length (SheetNames wb) =? 0)%Z;
      [simpl; split; discriminate|].
    destruct (array_length (fold_left (validate_sheet wb) (SheetNames wb) [])
              =? 0)%Z eqn:E; simpl.
    + tauto.
    + split; [discriminate|]. intros H. apply array_length_zero in H.
      congruence.
Qed.

(** X2: the sheets are checked one by one, in the order of SheetNames, and
    none stops the check of the next: the errors of a workbook with sheets
    are the messages of its sheets, each taken alone, one after the
    other. *)
Theorem errors_are_per_sheet (files : gmap jsstring contents)
    (filePath : jsstring) (wb : workbook) :
  files !! filePath = Some (Spreadsheet wb) ->
  SheetNames wb <> [] ->
  errors (validateExcelFile files filePath)
  = flat_map (validate_sheet wb []) (SheetNames wb).
Proof.
  intros Hfile Hnames. unfold validateExcelFile, readFile. rewrite Hfile.
  destruct (array_length (SheetNames wb) =? 0)%Z eqn:E0.
  - apply array_length_zero in E0. contradiction.
  - rewrite fold_validate_sheet. simpl app.
    destruct (array_length (flat_map _ _) =? 0)%Z eqn:E1; simpl.
    + apply array_length_zero in E1. now rewrite E1.
    + reflexivity.
Qed.

Lemma errors_are_per_sheet_witness :
  errors (validateExcelFile
            (staged (one_sheet (str "Report") eleven_headers)) staged_path)
  = flat_map (validate_sheet (one_sheet (str "Report") eleven_headers) [])
             [str "Report"].
Proof.
  apply (errors_are_per_sheet
           (staged (one_sheet (str "Report") eleven_headers)) staged_path
           (one_sheet (str "Report") eleven_headers)).
  - reflexivity.
  - discriminate.
Defined.

Lemma array_includes_In (a : list jsstring) (x : jsstring) :
  array_includes a x = true <-> In x a.
Proof.
  unfold array_includes, jsstring_eqb. rewrite existsb_exists. split.
  - intros [y [Hy E]]. apply bool_decide_eq_true in E. now subst.
  - intros H. exists x. split; [exact H|]. now apply bool_decide_eq_true.
Qed.

Lemma found_includes (headers : list jsstring) (col : jsstring) :
  In col ALL_REQUIRED_COLUMNS ->
  found (map normalizeHeader headers) col
  = array_includes (map normalizeHeader headers) col.
Proof.
  intros H. apply eq_iff_eq_true.
  rewrite (found_iff headers col H), array_includes_In. reflexivity.
Qed.

Lemma filter_keeps_all {A : Type} (p : A -> bool) (l : list A) :
  (forall x, In x l -> p x = true) -> List.filter p l = l.
Proof.
  induction l as [|x l IH]; intros H; simpl; [reflexivity|].
  rewrite (H x) by (left; reflexivity). f_equal. apply IH.
  intros y Hy. apply H. now right.
Qed.

Lemma filter_keeps_none {A : Type} (p : A -> bool) (l : list A) :
  (forall x, In x l -> p x = false) -> List.filter p l = [].
Proof.
  induction l as [|x l IH]; intros H; simpl; [reflexivity|].
  rewrite (H x) by (left; reflexivity). apply IH.
  intros y Hy. apply H. now right.
Qed.

Lemma basic_column_kind (col : jsstring) :
  In col Server.REQUIRED_COLUMNS ->
  array_includes Server.REQUIRED_COLUMNS col = true
  /\ array_includes Server.SEVERITY_CALC_COLUMNS col = false.
Proof.
  intros H. unfold Server.REQUIRED_COLUMNS in H. simpl in H.
  repeat (destruct H as [<-|H]; [split; reflexivity|]). contradiction.
Qed.

Lemma severity_column_kind (col : jsstring) :
  In col Server.SEVERITY_CALC_COLUMNS ->
  array_includes Server.REQUIRED_COLUMNS col = false
  /\ array_includes Server.SEVERITY_CALC_COLUMNS col = true.
Proof.
  intros H. unfold Server.SEVERITY_CALC_COLUMNS in H. simpl in H.
  repeat (destruct H as [<-|H]; [split; reflexivity|]). contradiction.
Qed.

Lemma missing_among_subset (columns headers : list jsstring)
    (col : jsstring) :
  In col (missing_among columns headers) -> In col columns.
Proof.
  unfold missing_among. intros H. now apply List.filter_In in H.
Qed.

(** X3: the messages on the columns of a sheet name exactly the required
    columns that no header of the first row normalizes to, in the order of
    the constant lists: the basic ones in a first message, the severity
    ones in a second, and a group with nothing missing gives no message. *)
Theorem missing_columns_named (errors : list jsstring)
    (sheetName : jsstring) (headers : list jsstring) :
  check_columns errors sheetName headers
  = errors
    ++ match missing_among Server.REQUIRED_COLUMNS headers with
       | [] => []
       | _ :: _ =>
           [missing_basic_msg sheetName
              (missing_among Server.REQUIRED_COLUMNS headers)]
       end
    ++ match missing_among Server.SEVERITY_CALC_COLUMNS headers with
       | [] => []
       | _ :: _ =>
           [missing_severity_msg sheetName
              (missing_among Server.SEVERITY_CALC_COLUMNS headers)]
       end.
Proof.
  unfold check_columns. cbv zeta.
  rewrite (List.filter_ext_in
             (fun col => negb (found (map normalizeHeader headers) col))
             (fun col => negb (array_includes (map normalizeHeader headers)
                                              col)))
    by (intros col Hcol; now rewrite found_includes).
  change (List.filter
            (fun col => negb (array_includes (map normalizeHeader headers)
                                             col))
            Server.ALL_REQUIRED_COLUMNS)
    with (missing_among Server.ALL_REQUIRED_COLUMNS headers).
  assert (Hsplit : missing_among Server.ALL_REQUIRED_COLUMNS headers
                   = missing_among Server.REQUIRED_COLUMNS headers
                     ++ missing_among Server.SEVERITY_CALC_COLUMNS headers).
  { unfold missing_among, Server.ALL_REQUIRED_COLUMNS.
    apply List.filter_app. }
  rewrite Hsplit.
  set (mb := missing_among Server.REQUIRED_COLUMNS headers).
  set (ms := missing_among Server.SEVERITY_CALC_COLUMNS headers).
  rewrite !List.filter_app.
  rewrite (filter_keeps_all (fun col => array_includes Server.REQUIRED_COLUMNS col) mb)
    by (intros x Hx; apply basic_column_kind;
        apply (missing_among_subset _ headers); exact Hx).
  rewrite (filter_keeps_none (fun col => array_includes Server.REQUIRED_COLUMNS col) ms)
    by (intros x Hx; apply severity_column_kind;
        apply (missing_among_subset _ headers); exact Hx).
  rewrite (filter_keeps_none (fun col => array_includes Server.SEVERITY_CALC_COLUMNS col) mb)
    by (intros x Hx; apply basic_column_kind;
        apply (missing_among_subset _ headers); exact Hx).
  rewrite (filter_keeps_all (fun col => array_includes Server.SEVERITY_CALC_COLUMNS col) ms)
    by (intros x Hx; apply severity_column_kind;
        apply (missing_among_subset _ headers); exact Hx).
  rewrite app_nil_r. simpl app. unfold push.
  destruct mb as [|b mb]; destruct ms as [|c ms]; simpl;
    rewrite <- ?app_assoc, ?app_nil_r; reflexivity.
Qed.

Lemma missing_among_nil (columns headers : list jsstring) :
  missing_among columns headers = []
  <-> forall col, In col columns -> In col (map normalizeHeader headers).
Proof.
  unfold missing_among. split.
  - intros H col Hcol. apply array_includes_In.
    destruct (array_includes (map normalizeHeader headers) col) eqn:E;
      [reflexivity|].
    assert (Hin : In col (List.filter
                            (fun c => negb (array_includes
                                              (map normalizeHeader headers)
                                              c)) columns)).
    { apply List.filter_In. split; [exact Hcol|]. now rewrite E. }
    rewrite H in Hin. contradiction.
  - intros H. apply filter_keeps_none. intros col Hcol.
    apply negb_false_iff, array_includes_In, H, Hcol.
Qed.

Lemma validate_sheet_no_rows (wb : workbook) (errors : list jsstring)
    (sheetName : jsstring) :
  Sheets wb !! sheetName = None \/ Sheets wb !! sheetName = Some [] ->
  validate_sheet wb errors sheetName
  = match match_year sheetName with
    | Some _ => errors
    | None => errors ++ [year_msg sheetName]
    end ++ [empty_msg sheetName].
Proof.
  intros [H|H]; unfold validate_sheet; rewrite H; reflexivity.
Qed.

Lemma validate_sheet_rows (wb : workbook) (errors : list jsstring)
    (sheetName : jsstring) (headers : list jsstring)
    (rows : list (list jsstring)) :
  Sheets wb !! sheetName = Some (headers :: rows) ->
  validate_sheet wb errors sheetName
  = check_columns
      match match_year sheetName with
      | Some _ => errors
      | None => errors ++ [year_msg sheetName]
      end sheetName headers
    ++ match rows with
       | [] => [headers_only_msg sheetName]
       | _ :: _ => []
       end.
Proof.
  intros H. unfold validate_sheet. rewrite H.
  change (sheet_to_json (Some (headers :: rows))) with (headers :: rows).
  cbv zeta iota. unfold push.
  destruct rows as [|row rows].
  - reflexivity.
  - replace (array_length (headers :: row :: rows) <? 2)%Z with false
      by (symmetry; apply Z.ltb_ge; unfold array_length;
          simpl List.length; lia).
    now rewrite app_nil_r.
Qed.

Lemma validate_sheet_clean (wb : workbook) (sheetName : jsstring) :
  validate_sheet wb [] sheetName = [] <-> sheet_passes wb sheetName.
Proof.
  unfold sheet_passes. split.
  - intros H.
    destruct (Sheets wb !! sheetName) as [[|headers rows]|] eqn:E.
    + rewrite validate_sheet_no_rows in H by auto.
      apply app_eq_nil in H as [_ H]. discriminate.
    + rewrite (validate_sheet_rows wb [] sheetName headers rows E) in H.
      rewrite missing_columns_named in H.
      remember (missing_among Server.REQUIRED_COLUMNS headers) as mb
        eqn:Emb.
      remember (missing_among Server.SEVERITY_CALC_COLUMNS headers) as ms
        eqn:Ems.
      destruct (match_year sheetName) as [y|]; [|discriminate H].
      split; [discriminate|].
      destruct mb; [|discriminate H]. destruct ms; [|discriminate H].
      destruct rows as [|row rows]; [discriminate H|].
      exists headers, row, rows. split; [reflexivity|].
      intros col Hcol. unfold Server.ALL_REQUIRED_COLUMNS in Hcol.
      apply in_app_or in Hcol as [Hcol|Hcol].
      * apply (proj1 (missing_among_nil Server.REQUIRED_COLUMNS headers));
          [now symmetry|exact Hcol].
      * apply (proj1 (missing_among_nil Server.SEVERITY_CALC_COLUMNS
                        headers)); [now symmetry|exact Hcol].
    + rewrite validate_sheet_no_rows in H by auto.
      apply app_eq_nil in H as [_ H]. discriminate.
  - intros [Hy [headers [row [rows [Hs Hcols]]]]].
    rewrite (validate_sheet_rows wb [] sheetName headers (row :: rows) Hs).
    rewrite check_columns_complete by exact Hcols.
    destruct (match_year sheetName); [reflexivity|contradiction].
Qed.

Lemma flat_map_nil {A B : Type} (f : A -> list B) (l : list A) :
  flat_map f l = [] <-> Forall (fun x => f x = []) l.
Proof.
  induction l as [|x l IH]; simpl.
  - split; [constructor|reflexivity].
  - split.
    + intros H. apply app_eq_nil in H as [H1 H2].
      constructor; [exact H1|now apply IH].
    + intros H. inversion H as [|? ? H1 H2]; subst.
      rewrite H1. simpl. now apply IH.
Qed.

(** X4: a staged file is accepted exactly when it opens as a workbook with
    at least one sheet and every sheet passes: its name has a year the
    regular expression finds, its first row has a header for every
    required column, and it has at least one more row. *)
Theorem accepted_iff_every_sheet_passes (files : gmap jsstring contents)
    (filePath : jsstring) :
  valid (validateExcelFile files filePath) = true
  <-> exists wb,
        files !! filePath = Some (Spreadsheet wb)
        /\ SheetNames wb <> []
        /\ Forall (sheet_passes wb) (SheetNames wb).
Proof.
  rewrite valid_iff_no_errors. split.
  - intros H. unfold validateExcelFile, readFile in H.
    destruct (files !! filePath) as [[wb|message]|] eqn:E.
    + exists wb. split; [reflexivity|].
      destruct (array_length (SheetNames wb) =? 0)%Z eqn:E0;
        [discriminate|].
      assert (Hn : SheetNames wb <> []).
      { intros Hn. rewrite Hn in E0. discriminate. }
      split; [exact Hn|].
      pose proof (errors_are_per_sheet files filePath wb E Hn) as Hp.
      unfold validateExcelFile, readFile in Hp. rewrite E, E0 in Hp.
      rewrite Hp in H. apply flat_map_nil in H.
      eapply Forall_impl; [exact H|].
      intros n Hnn. apply validate_sheet_clean. exact Hnn.
    + destruct (includes message (str "Unsupported file"));
        [|destruct (includes message (str "ENOENT")
                    || includes message (str "no such file"))];
        discriminate.
    + destruct (includes (enoent filePath) (str "Unsupported file"));
        [|destruct (includes (enoent filePath) (str "ENOENT")
                    || includes (enoent filePath) (str "no such file"))];
        discriminate.
  - intros [wb [Hfile [Hn Hall]]].
    rewrite (errors_are_per_sheet files filePath wb Hfile Hn).
    apply flat_map_nil. eapply Forall_impl; [exact Hall|].
    intros n Hnn. apply validate_sheet_clean. exact Hnn.
Qed.

(** ** The normal form of a header *)

Ltac bools H :=
  unfold is_space, is_word, is_upper, is_lower, is_digit, in_range,
    underscore in H;
  rewrite ?orb_true_iff, ?andb_true_iff, ?N.leb_le, ?N.eqb_eq in H.

Lemma word_not_space (c : N) : is_word c = true -> is_space c = false.
Proof.
  intros H. apply not_true_is_false. intros Hs. bools H. bools Hs. lia.
Qed.

Lemma trimStart_fixed (s : jsstring) :
  Forall (fun c => is_space c = false) s -> trimStart s = s.
Proof.
  intros H. destruct H as [|c s Hc Hs]; [reflexivity|].
  simpl. now rewrite Hc.
Qed.

Lemma trim_fixed (s : jsstring) :
  Forall (fun c => is_space c = false) s -> trim s = s.
Proof.
  intros H. unfold trim. rewrite (trimStart_fixed s H).
  rewrite trimStart_fixed by (apply Forall_rev; exact H).
  apply rev_involutive.
Qed.

Lemma collapse_spaces_fixed (in_run : bool) (s : jsstring) :
  Forall (fun c => is_space c = false) s -> collapse_spaces in_run s = s.
Proof.
  intros H. revert in_run. induction H as [|c s Hc Hs IH]; intros in_run;
    simpl; [reflexivity|].
  now rewrite Hc, IH.
Qed.

(** X5: a normalized header holds only lower-case letters, digits and
    underscores, and normalizing it again leaves it as it is. *)
Theorem normalizeHeader_normal_form (h : jsstring) :
  Forall (fun c => is_lower c || is_digit c || (c =? underscore)%N = true)
         (normalizeHeader h)
  /\ normalizeHeader (normalizeHeader h) = normalizeHeader h.
Proof.
  assert (H : Forall (fun x => is_word x = true /\ is_upper x = false)
                     (normalizeHeader h)).
  { unfold normalizeHeader.
    apply filter_word_units, collapse_spaces_not_upper,
      toLowerCase_not_upper. }
  split.
  - eapply Forall_impl; [exact H|]. intros c [W U].
    unfold is_word in W. rewrite U, orb_false_r in W. exact W.
  - assert (Hs : Forall (fun c => is_space c = false) (normalizeHeader h)).
    { eapply Forall_impl; [exact H|]. intros c [W _].
      now apply word_not_space. }
    unfold normalizeHeader at 1.
    rewrite (trim_fixed _ Hs), (toLowerCase_fixed _ H),
      (collapse_spaces_fixed false _ Hs).
    apply filter_keeps_all. intros c Hc.
    apply (proj1 (Forall_forall _ _) H c).
    now apply list_elem_of_In.
Qed.

(** ** What the regular expression of the year accepts *)

Lemma is_year_shape (y : jsstring) :
  is_year y = true
  <-> exists a b c d,
        y = [a; b; c; d]
        /\ ((a = 49%N /\ b = 57%N) \/ (a = 50%N /\ b = 48%N))
        /\ is_digit c = true /\ is_digit d = true.
Proof.
  split.
  - unfold is_year, year_value.
    destruct y as [|a [|b [|c [|d [|e y]]]]]; try discriminate.
    destruct (forallb is_digit [a; b; c; d]) eqn:F; [|discriminate].
    simpl in F. rewrite !andb_true_iff in F.
    destruct F as [Ha [Hb [Hc [Hd _]]]].
    intros H. apply andb_true_iff in H as [H1 H2].
    apply Z.leb_le in H1, H2. unfold digit_value in *.
    apply digit_bounds in Ha as Ba. apply digit_bounds in Hb as Bb.
    apply digit_bounds in Hc as Bc. apply digit_bounds in Hd as Bd.
    exists a, b, c, d. repeat split; auto. lia.
  - intros [a [b [c [d [-> [Hab [Hc Hd]]]]]]].
    apply digit_bounds in Hc as Bc. apply digit_bounds in Hd as Bd.
    unfold is_year, year_value. cbn [forallb]. rewrite Hc, Hd.
    destruct Hab as [[-> ->]|[-> ->]]; cbn [is_digit in_range N.leb andb];
      unfold digit_value; simpl N.compare; cbn [andb];
      apply andb_true_iff; rewrite !Z.leb_le; lia.
Qed.

Lemma year_at_parts (s : jsstring) (i : nat) :
  year_at s i = true
  <-> word_boundary s i = true /\ word_boundary s (i + 4) = true
      /\ exists a b c d,
           s !! i = Some a /\ s !! (i + 1) = Some b
           /\ s !! (i + 2) = Some c /\ s !! (i + 3) = Some d
           /\ ((a = 49%N /\ b = 57%N) \/ (a = 50%N /\ b = 48%N))
           /\ is_digit c = true /\ is_digit d = true.
Proof.
  unfold year_at. rewrite !andb_true_iff. split.
  - intros [[[[Hb1 Hab] Hc] Hd] Hb2].
    apply unit_at_true in Hc as [c [Lc Hc]].
    apply unit_at_true in Hd as [d [Ld Hd]].
    split; [exact Hb1|]. split; [exact Hb2|].
    apply orb_true_iff in Hab as [H|H]; apply andb_true_iff in H as [Ha Hb];
      apply unit_at_true in Ha as [a [La Ha]];
      apply unit_at_true in Hb as [b [Lb Hb]];
      apply N.eqb_eq in Ha, Hb; exists a, b, c, d; repeat split; auto.
  - intros [Hb1 [Hb2 [a [b [c [d [La [Lb [Lc [Ld [Hab [Hc Hd]]]]]]]]]]]].
    unfold unit_at. rewrite La, Lb, Lc, Ld, Hc, Hd.
    repeat split; auto.
    destruct Hab as [[-> ->]|[-> ->]]; reflexivity.
Qed.

Lemma word_at_lookup (s : jsstring) (i : nat) (c : N) :
  s !! i = Some c -> word_at s i = is_word c.
Proof. intros H. unfold word_at. now rewrite H. Qed.

Lemma year_digit_is_word (a : N) :
  a = 49%N \/ a = 50%N \/ is_digit a = true -> is_word a = true.
Proof.
  intros [->|[->|H]]; [reflexivity..|].
  unfold is_word. rewrite H. now rewrite !orb_true_r.
Qed.

(** X6: the check of the year accepts a sheet name exactly when the name
    holds four digits that read 1900 to 2099 with no letter, digit or
    underscore right before them and none right after them; the text it
    finds is such a year. *)
Theorem match_year_accepts (sheetName : jsstring) :
  (match_year sheetName <> None
   <-> exists pre y post,
         sheetName = pre ++ y ++ post
         /\ is_year y = true /\ clear_before pre /\ clear_after post)
  /\ (forall y, match_year sheetName = Some y -> is_year y = true).
Proof.
  split; [split|].
  - intros H. unfold match_year in H.
    destruct (List.find (year_at sheetName)
                        (seq 0 (List.length sheetName))) as [i|] eqn:E;
      [clear H|congruence].
    apply List.find_some in E as [_ Hy].
    pose proof (year_at_is_year _ _ Hy) as Hyear.
    apply year_at_parts in Hy
      as [Hb1 [Hb2 [a [b [c [d [La [Lb [Lc [Ld [Hab [Hc Hd]]]]]]]]]]]].
    exists (take i sheetName), (take 4 (drop i sheetName)),
      (drop 4 (drop i sheetName)).
    split; [now rewrite !take_drop|]. split; [exact Hyear|].
    assert (Wa : word_at sheetName i = true).
    { rewrite (word_at_lookup _ _ _ La). apply year_digit_is_word.
      destruct Hab as [[-> _]|[-> _]]; auto. }
    assert (Wd : word_at sheetName (i + 3) = true).
    { rewrite (word_at_lookup _ _ _ Ld). apply year_digit_is_word. auto. }
    split.
    + unfold clear_before. rewrite last_lookup.
      assert (Hi : i < List.length sheetName)
        by (apply lookup_lt_is_Some; eauto).
      rewrite length_take, Nat.min_l by lia.
      destruct i as [|j]; [reflexivity|].
      simpl Nat.pred. rewrite lookup_take_lt by lia.
      unfold word_boundary in Hb1. rewrite Wa in Hb1.
      unfold word_at in Hb1.
      destruct (sheetName !! j) as [c'|]; [|exact I].
      now destruct (is_word c').
    + unfold clear_after. rewrite drop_drop.
      destruct (drop (i + 4) sheetName) as [|c' post] eqn:Ep; [exact I|].
      assert (Lp : sheetName !! (i + 4) = Some c').
      { pose proof (lookup_drop sheetName (i + 4) 0) as Hl.
        rewrite Ep, Nat.add_0_r in Hl. simpl in Hl. now symmetry. }
      unfold word_boundary in Hb2.
      replace (i + 4) with (S (i + 3)) in Hb2 by lia.
      rewrite Wd in Hb2.
      replace (S (i + 3)) with (i + 4) in Hb2 by lia.
      rewrite (word_at_lookup _ _ _ Lp) in Hb2.
      now destruct (is_word c').
  - intros [pre [y [post [Hs [Hy [Hpre Hpost]]]]]].
    apply is_year_shape in Hy as [a [b [c [d [-> [Hab [Hc Hd]]]]]]].
    assert (Hat : year_at sheetName (List.length pre) = true).
    { apply year_at_parts.
      assert (L : forall k x, [a; b; c; d] !! k = Some x ->
                              sheetName !! (List.length pre + k) = Some x).
      { intros k x Hk. rewrite Hs, lookup_app_r by lia.
        replace (List.length pre + k - List.length pre) with k by lia.
        now apply lookup_app_l_Some. }
      assert (La : sheetName !! List.length pre = Some a).
      { rewrite <- (Nat.add_0_r (List.length pre)). now apply L. }
      assert (Wa : word_at sheetName (List.length pre) = true).
      { rewrite (word_at_lookup _ _ _ La). apply year_digit_is_word.
        destruct Hab as [[-> _]|[-> _]]; auto. }
      assert (Wd : word_at sheetName (List.length pre + 3) = true).
      { rewrite (word_at_lookup _ _ d) by (now apply L).
        apply year_digit_is_word. auto. }
      split; [|split].
      - unfold word_boundary. rewrite Wa.
        destruct pre as [|x pre _] using rev_ind; [reflexivity|].
        rewrite length_app. simpl List.length.
        replace (List.length pre + 1) with (S (List.length pre)) by lia.
        unfold clear_before in Hpre. rewrite last_snoc in Hpre.
        rewrite (word_at_lookup _ _ x).
        + now rewrite Hpre.
        + rewrite Hs, <- !app_assoc. apply list_lookup_middle. reflexivity.
      - unfold word_boundary.
        replace (List.length pre + 4) with (S (List.length pre + 3)) by lia.
        rewrite Wd.
        replace (S (List.length pre + 3)) with (List.length pre + 4) by lia.
        unfold word_at. rewrite Hs, lookup_app_r by lia.
        replace (List.length pre + 4 - List.length pre) with 4 by lia.
        simpl. unfold clear_after in Hpost.
        destruct post as [|c' post]; [reflexivity|]. simpl.
        now rewrite Hpost.
      - exists a, b, c, d. repeat split; auto; now apply L. }
    unfold match_year.
    destruct (List.find (year_at sheetName)
                        (seq 0 (List.length sheetName))) as [i|] eqn:E;
      [discriminate|].
    pose proof (List.find_none _ _ E (List.length pre)) as Hn.
    rewrite Hn in Hat; [discriminate|].
    apply in_seq. rewrite Hs, !length_app. simpl. lia.
  - intros y H. unfold match_year in H.
    destruct (List.find (year_at sheetName)
                        (seq 0 (List.length sheetName))) as [i|] eqn:E;
      [|discriminate].
    injection H as <-. apply List.find_some in E as [_ Hy].
    now apply year_at_is_year.
Qed.

(** ** The upload route, whatever the file *)

Lemma post_upload_rejected (cwd : jsstring) (now : Z) (file : part)
    (s : server) :
  valid (validateExcelFile (files (multer_store cwd file s))
                           (file_path cwd file)) = false ->
  post_upload cwd now (Some file) s
  = ({| run := run s; children := children s;
        files := delete (file_path cwd file) (files s) |},
     [unlink (file_path cwd file);
      respond 400
        [("message"%string, JStr (str "Excel file validation failed"));
         ("error"%string, JStr (str "File does not meet requirements"));
         ("validationErrors"%string,
          JStrings (errors (validateExcelFile
                              (files (multer_store cwd file s))
                              (file_path cwd file))))]]).
Proof.
  intros H. unfold post_upload. rewrite H. simpl.
  now rewrite delete_insert_eq.
Qed.

(** X7: an upload that fails the check of the workbook is answered with
    status 400 and the error list of the check; the staged file is deleted,
    and with it any earlier file of that name; the processing state and the
    processes are left as they were. *)
Theorem rejected_upload_deletes_file (cwd : jsstring) (now : Z)
    (file : part) (s : server) :
  valid (validateExcelFile (files (multer_store cwd file s))
                           (file_path cwd file)) = false ->
  files (fst (post_upload cwd now (Some file) s)) !! file_path cwd file
  = None
  /\ run (fst (post_upload cwd now (Some file) s)) = run s
  /\ children (fst (post_upload cwd now (Some file) s)) = children s
  /\ exists body,
       snd (post_upload cwd now (Some file) s)
       = [unlink (file_path cwd file); respond 400 body]
       /\ field "validationErrors" body
          = Some (JStrings
                    (errors (validateExcelFile
                               (files (multer_store cwd file s))
                               (file_path cwd file)))).
Proof.
  intros H. rewrite (post_upload_rejected cwd now file s H). simpl.
  split; [apply lookup_delete_eq|]. repeat split.
  eexists. split; reflexivity.
Qed.

Lemma rejected_upload_deletes_file_witness :
  files (fst (post_upload cwd 1000
                (Some {| originalname := str "report.xlsx";
                         data := Spreadsheet
                                   (one_sheet (str "Report")
                                              full_headers) |})
                (init ∅)))
    !! str "/srv/osimap/data/report.xlsx"
  = None.
Proof.
  refine (proj1 (rejected_upload_deletes_file cwd 1000
                   {| originalname := str "report.xlsx";
                      data := Spreadsheet
                                (one_sheet (str "Report") full_headers) |}
                   (init ∅) _)).
  vm_compute. reflexivity.
Defined.

(** X8: the upload route starts the pipeline exactly for a request with a
    file that passes the check of the workbook; for every other request it
    spawns nothing and leaves the processing state and the processes as
    they were. *)
Theorem pipeline_starts_iff_valid (cwd : jsstring) (now : Z)
    (file : option part) (s : server) :
  (existsb is_spawn (snd (post_upload cwd now file s)) = true
   <-> exists f, file = Some f
         /\ valid (validateExcelFile (files (multer_store cwd f s))
                                     (file_path cwd f)) = true)
  /\ (existsb is_spawn (snd (post_upload cwd now file s)) = false ->
      run (fst (post_upload cwd now file s)) = run s
      /\ children (fst (post_upload cwd now file s)) = children s).
Proof.
  destruct file as [f|].
  - destruct (valid (validateExcelFile (files (multer_store cwd f s))
                                       (file_path cwd f))) eqn:V.
    + rewrite (post_upload_accepted cwd now f s V). simpl. split.
      * split; [eauto|reflexivity].
      * discriminate.
    + rewrite (post_upload_rejected cwd now f s V). split.
      * split; [simpl; discriminate|]. intros [f' [E V']].
        injection E as E. subst f'. rewrite V in V'. discriminate.
      * simpl. auto.
  - simpl. split.
    + split; [discriminate|]. intros [f [E _]]. discriminate.
    + auto.
Qed.

(** ** The orchestrator, beyond a failure *)

(** The last stage that exits with code 0 ends the run. *)
Lemma close_last (r : PipelineRun) (cs : list child)
    (fs : gmap jsstring contents) (all : list jsstring) (j : nat) :
  S j = List.length all ->
  on_close (List.length cs + j) (Some 0%Z)
    {| run := r; children := cs ++ run_children all j false; files := fs |}
  = ({| run := {| isProcessing := false;
                  processingStartTime := processingStartTime r;
                  processingError := processingError r |};
        children := cs ++ run_children all j true;
        files := fs |}, []).
Proof.
  intros Hj. unfold on_close. simpl children.
  rewrite lookup_current. simpl.
  rewrite drop_ge by lia. simpl.
  rewrite insert_current. unfold set_run, run_children, stage_child.
  simpl. rewrite (drop_ge all (S j)) by lia. reflexivity.
Qed.

(** X10: when the five stages of a run exit with code 0 one after the
    other, the five scripts have been spawned in the order cleaning2,
    cleanup_files, export_geojson, cluster_hdbscan, mobile_cluster_fetch,
    each process has closed, isProcessing is false again with no error, and
    the status route answers idle. *)
Theorem successful_run_completes (cwd : jsstring) (s0 : server)
    (now now' : Z) :
  let n := List.length (children s0) in
  let started := runPythonScripts cwd now s0 in
  let done := run_events cwd (fst started) (successes n 5) in
  run (fst done)
  = {| isProcessing := false; processingStartTime := Some now;
       processingError := None |}
  /\ scriptPath <$> children (fst done)
     = (scriptPath <$> children s0) ++ stage_scripts cwd
  /\ closed <$> drop n (children (fst done))
     = [true; true; true; true; true]
  /\ spawned_scripts (snd started ++ snd done) = stage_scripts cwd
  /\ snd (get_status now' (fst done))
     = [respond 200
          [("isProcessing"%string, JBool false);
           ("processingTime"%string, JNum ((now' - now) / 1000));
           ("processingStartTime"%string, JDate now);
           ("processingError"%string, JNull);
           ("status"%string, JStr (str "idle"))]].
Proof.
  intros n started done.
  set (all := stage_scripts cwd).
  set (r := {| isProcessing := true; processingStartTime := Some now;
               processingError := None |}).
  assert (Hdone : done
            = ({| run := {| isProcessing := false;
                            processingStartTime := Some now;
                            processingError := None |};
                  children := children s0 ++ run_children all 4 true;
                  files := files s0 |},
               map (fun i => spawn (n + S i) (default [] (all !! S i)))
                   (seq 0 4))).
  { unfold done, successes.
    change (seq 0 5) with (seq 0 4 ++ [4]). rewrite map_app.
    rewrite run_events_app.
    change (fst started)
      with {| run := r;
              children := children s0 ++ run_children all 0 false;
              files := files s0 |}.
    unfold n.
    rewrite (run_successes cwd r (children s0) (files s0) all 4 0)
      by (simpl; lia).
    cbn [fst snd map]. rewrite run_events_cons. cbn [step fst snd].
    rewrite close_last by reflexivity.
    cbn [fst snd run_events]. now rewrite !app_nil_r. }
  rewrite Hdone. cbn [fst snd run children].
  split; [reflexivity|]. split; [|split; [|split]].
  - rewrite fmap_app, run_children_scripts by (simpl; lia). reflexivity.
  - unfold n. rewrite drop_app_length. reflexivity.
  - reflexivity.
  - reflexivity.
Qed.

Lemma live_app (r : PipelineRun) (fs : gmap jsstring contents)
    (cs extra : list child) :
  live {| run := r; children := cs ++ extra; files := fs |}
  = live {| run := r; children := cs; files := fs |}
    + List.length (List.filter (fun c => negb (closed c)) extra).
Proof.
  unfold live. simpl. now rewrite List.filter_app, length_app.
Qed.

Lemma live_insert_closed (l : list child) (pid : nat) (c c' : child) :
  l !! pid = Some c -> closed c = false -> closed c' = true ->
  List.length (List.filter (fun x => negb (closed x)) (<[pid := c']> l)) + 1
  = List.length (List.filter (fun x => negb (closed x)) l).
Proof.
  revert pid. induction l as [|x l IH]; intros pid Hl Hc Hc';
    [discriminate|].
  destruct pid as [|pid]; simpl in *.
  - injection Hl as ->. rewrite Hc, Hc'. simpl. lia.
  - specialize (IH pid Hl Hc Hc').
    destruct (negb (closed x)); simpl; lia.
Qed.

Lemma step_live (cwd : jsstring) (s : server) (e : event) :
  live (fst (step cwd s e))
  <= live s + (if is_upload e then 1 else 0).
Proof.
  destruct e as [now|now file|pid code|pid message]; simpl.
  - lia.
  - destruct file as [f|]; [|simpl; lia].
    destruct (valid (validateExcelFile (files (multer_store cwd f s))
                                       (file_path cwd f))) eqn:V.
    + rewrite (post_upload_accepted cwd now f s V). simpl.
      rewrite live_app. unfold live. simpl. lia.
    + rewrite (post_upload_rejected cwd now f s V). unfold live. simpl. lia.
  - unfold on_close. destruct (children s !! pid) as [c|] eqn:L; [|simpl; lia].
    destruct (closed c) eqn:C; [simpl; lia|].
    pose proof (live_insert_closed (children s) pid c
                  {| scriptPath := scriptPath c; onSuccess := onSuccess c;
                     closed := true |} L C eq_refl) as Hins.
    destruct (bool_decide (code = Some 0%Z)).
    + destruct (onSuccess c) as [[script cb|]|]; simpl.
      * rewrite live_app. unfold live in *. simpl. lia.
      * unfold live in *. simpl. lia.
      * unfold live in *. simpl. lia.
    + unfold live in *. simpl. lia.
  - unfold on_error. destruct (children s !! pid) as [c|]; [|simpl; lia].
    destruct (closed c); unfold live; simpl; lia.
Qed.

(** X11: the stages of a run never run side by side: an exit or an error
    of a process never raises the number of processes that have not closed,
    and an upload raises it by at most one, so that number never exceeds
    the number of uploads received. *)
Theorem live_bounded_by_uploads (cwd : jsstring) (es : list event)
    (s : server) :
  live (fst (run_events cwd s es))
  <= live s + List.length (List.filter is_upload es).
Proof.
  revert s. induction es as [|e es IH]; intros s.
  - simpl. lia.
  - rewrite run_events_cons. cbn [fst].
    specialize (IH (fst (step cwd s e))).
    pose proof (step_live cwd s e) as Hs.
    simpl List.filter. destruct (is_upload e); simpl List.length in *; lia.
Qed.

(** ** The status route on the states the server reaches *)

Lemma step_error_text (cwd : jsstring) (s : server) (e : event) :
  truthy (processingError (run s)) = true
  \/ processingError (run s) = None ->
  truthy (processingError (run (fst (step cwd s e)))) = true
  \/ processingError (run (fst (step cwd s e))) = None.
Proof.
  intros H. destruct e as [now|now file|pid code|pid message]; simpl.
  - exact H.
  - unfold post_upload. destruct file as [file|]; [|exact H].
    destruct (negb _); simpl; [exact H|]. now right.
  - unfold on_close. destruct (children s !! pid) as [c|]; [|exact H].
    destruct (closed c); [exact H|].
    destruct (bool_decide _).
    + destruct (onSuccess c) as [[script cb|]|]; exact H.
    + left. reflexivity.
  - unfold on_error. destruct (children s !! pid) as [c|]; [|exact H].
    destruct (closed c); [exact H|]. left. reflexivity.
Qed.

Lemma reachable_invariant (cwd : jsstring) (s : server) :
  reachable cwd s ->
  error_excludes_processing (run s)
  /\ (truthy (processingError (run s)) = true
      \/ processingError (run s) = None).
Proof.
  intros R. induction R as [files|s e R [IH1 IH2]].
  - split; [intros E; simpl in E; congruence|now right].
  - split; [now apply step_preserves|now apply step_error_text].
Qed.

(** X13: in every state the server reaches, the status the route reports
    tells the state apart: it is processing exactly when isProcessing is
    set, error exactly when a processing error is recorded, and idle
    exactly when neither is. *)
Theorem status_reflects_state (cwd : jsstring) (s : server) :
  reachable cwd s ->
  (status_of (run s) = str "processing" <-> isProcessing (run s) = true)
  /\ (status_of (run s) = str "error" <-> processingError (run s) <> None)
  /\ (status_of (run s) = str "idle"
      <-> isProcessing (run s) = false /\ processingError (run s) = None).
Proof.
  intros R. destruct (reachable_invariant cwd s R) as [I1 I2].
  unfold error_excludes_processing in I1. unfold status_of.
  destruct (isProcessing (run s)) eqn:P.
  - assert (E : processingError (run s) = None).
    { destruct (processingError (run s)); [|reflexivity].
      assert (true = false) by (apply I1; discriminate). discriminate. }
    rewrite E. repeat split; try discriminate; try tauto.
    intros [H _]. discriminate.
  - destruct I2 as [T|E].
    + rewrite T. repeat split; try discriminate.
      * intros _ E. rewrite E in T. discriminate.
      * intros [_ E]. rewrite E in T. discriminate.
    + rewrite E. simpl. repeat split; try discriminate.
      intros H. contradiction.
Qed.

Lemma status_reflects_state_witness :
  status_of (run failed_server) = str "error".
Proof.
  apply (proj1 (proj2 (status_reflects_state cwd failed_server
                         ltac:(unfold failed_server;
                               apply reach_step, reach_step, reach_init)))).
  vm_compute. discriminate.
Defined.

Lemma step_keeps_start (cwd : jsstring) (s : server) (e : event) :
  processingStartTime (run s) <> None ->
  processingStartTime (run (fst (step cwd s e))) <> None.
Proof.
  intros H. destruct e as [now|now file|pid code|pid message]; simpl.
  - exact H.
  - unfold post_upload. destruct file as [file|]; [|exact H].
    destruct (negb _); simpl; [exact H|]. discriminate.
  - unfold on_close. destruct (children s !! pid) as [c|]; [|exact H].
    destruct (closed c); [exact H|].
    destruct (bool_decide _); [|exact H].
    destruct (onSuccess c) as [[script cb|]|]; exact H.
  - unfold on_error. destruct (children s !! pid) as [c|]; [|exact H].
    destruct (closed c); exact H.
Qed.

(** X14: the start time is written by every run and never cleared: in the
    states the server reaches it is absent only as long as no run has
    started (no process was ever spawned and the state is the idle one), and
    once set it stays set through every event, so the status route goes on
    counting processingTime from the last start after the run has ended. *)
Theorem start_time_never_cleared (cwd : jsstring) (s : server) :
  reachable cwd s ->
  (processingStartTime (run s) = None ->
   run s = idle /\ children s = [])
  /\ (forall es, processingStartTime (run s) <> None ->
                 processingStartTime (run (fst (run_events cwd s es)))
                 <> None).
Proof.
  intros R. split.
  - induction R as [files|s e R IH]; [auto|].
    destruct e as [now|now file|pid code|pid message]; simpl.
    + exact IH.
    + destruct file as [f|]; [|exact IH].
      destruct (valid (validateExcelFile (files (multer_store cwd f s))
                                         (file_path cwd f))) eqn:V.
      * rewrite (post_upload_accepted cwd now f s V). discriminate.
      * rewrite (post_upload_rejected cwd now f s V). exact IH.
    + unfold on_close.
      destruct (children s !! pid) as [c|] eqn:L; [|exact IH].
      destruct (closed c); [exact IH|].
      intros H.
      assert (Hs : processingStartTime (run s) = None).
      { destruct (bool_decide _); [|exact H].
        destruct (onSuccess c) as [[script cb|]|]; exact H. }
      destruct (IH Hs) as [_ Hc]. rewrite Hc in L. discriminate.
    + unfold on_error.
      destruct (children s !! pid) as [c|] eqn:L; [|exact IH].
      destruct (closed c); [exact IH|].
      intros H. destruct (IH H) as [_ Hc]. rewrite Hc in L. discriminate.
  - clear R. intros es. revert s. induction es as [|e es IH]; intros s H.
    + exact H.
    + rewrite run_events_cons. cbn [fst]. apply IH.
      now apply step_keeps_start.
Qed.

Lemma start_time_never_cleared_witness :
  processingStartTime
    (run (fst (run_events cwd failed_server later_events))) <> None.
Proof.
  refine (proj2 (start_time_never_cleared cwd failed_server _)
                later_events _).
  - unfold failed_server. apply reach_step, reach_step, reach_init.
  - vm_compute. discriminate.
Defined.

(** ** The checks of the upload page, taken together *)

Lemma push_if_nil (b : bool) (errors : list jsstring) (e : jsstring) :
  (if b then push errors e else errors) = []
  <-> b = false /\ errors = [].
Proof.
  destruct b; unfold push.
  - split; [|intros [H _]; discriminate].
    intros H. apply app_eq_nil in H as [_ H]. discriminate.
  - tauto.
Qed.

(** X15: validateFile gives no error exactly for a file that passes every
    check: the size is in [1024, 50 MiB], the name has no control or
    reserved character, at most 255 code units, no script pattern, an
    extension .xlsx or .xls in any case, at most one dot, no dot in front,
    and the declared type is one of the two Excel types or empty. *)
Theorem validateFile_accepts_iff (file : File) :
  validateFile file = [] <-> file_passes file.
Proof.
  unfold validateFile, file_passes. cbv zeta.
  rewrite !push_if_nil.
  rewrite !negb_false_iff, !Z.ltb_ge.
  unfold jsstring_eqb.
  split.
  - intros [Hm [Hst [Hd [He [Hs [Hl [Hf [Hmin [Hmax _]]]]]]]]].
    repeat split; auto.
    apply andb_false_iff in Hm as [Hm|Hm].
    + left. now apply negb_false_iff.
    + right. apply negb_false_iff in Hm. now apply bool_decide_eq_true in Hm.
  - intros [[Hmin Hmax] [Hf [Hl [Hs [He [Hd [Hst Hm]]]]]]].
    repeat split; auto.
    apply andb_false_iff. destruct Hm as [Hm|Hm].
    + left. now rewrite Hm.
    + right. rewrite Hm. reflexivity.
Qed.

Lemma forallb_take_drop (p : N -> bool) (s : jsstring) (n : nat) :
  forallb p s = true ->
  forallb p (take n s) = true /\ forallb p (drop n s) = true.
Proof.
  revert n. induction s as [|c s IH]; intros n H.
  - now destruct n.
  - simpl in H. apply andb_true_iff in H as [Hc Hs].
    destruct n as [|n]; simpl.
    + now rewrite Hc, Hs.
    + rewrite Hc. simpl. now apply IH.
Qed.

Lemma forallb_substring (p : N -> bool) (s : jsstring) (a b : Z) :
  forallb p s = true -> forallb p (substring s a b) = true.
Proof.
  intros H. unfold substring.
  apply forallb_take_drop. now apply forallb_take_drop.
Qed.

(** X16: whatever the name, the sanitized name holds only letters, digits,
    dots, underscores and hyphens: in particular no slash and no
    backslash. *)
Theorem sanitizeFileName_safe_units (fileName : jsstring) :
  forallb is_safe (sanitizeFileName fileName) = true.
Proof.
  unfold sanitizeFileName. cbv zeta.
  set (t := replace_unsafe (remove_dotdot fileName)).
  assert (Ht : forallb is_safe t = true) by apply replace_unsafe_safe.
  set (u := if startsWith t (str ".") then str "file_" ++ t else t).
  assert (Hu : forallb is_safe u = true).
  { unfold u. destruct (startsWith t (str ".")); [|exact Ht].
    rewrite forallb_app, Ht. reflexivity. }
  destruct (200 <? JS.length u)%Z; [|exact Hu].
  rewrite forallb_app.
  unfold substring_from. now rewrite !forallb_substring.
Qed.

Lemma no_dot_no_dotdot (s : jsstring) :
  forallb (fun c => negb (c =? dot)%N) s = true ->
  includes s (str "..") = false /\ startsWith s (str ".") = false.
Proof.
  induction s as [|a s IH]; intros H; [split; reflexivity|].
  simpl in H. apply andb_true_iff in H as [Ha Hs].
  apply negb_true_iff in Ha. rewrite N.eqb_sym in Ha.
  destruct (IH Hs) as [I1 I2].
  rewrite includes_dotdot_cons, startsWith_dot_cons, Ha, I1.
  split; reflexivity.
Qed.

Lemma replace_unsafe_no_dot (s : jsstring) :
  forallb (fun c => negb (c =? dot)%N) s = true ->
  forallb (fun c => negb (c =? dot)%N) (replace_unsafe s) = true.
Proof.
  induction s as [|a s IH]; intros H; [reflexivity|].
  simpl in *. apply andb_true_iff in H as [Ha Hs].
  rewrite (IH Hs), andb_true_r.
  rewrite N.eqb_sym, replace_unsafe_dot, N.eqb_sym. exact Ha.
Qed.

Lemma substring_from_negative (s : jsstring) (z : Z) :
  (z <= 0)%Z -> substring_from s z = s.
Proof.
  intros Hz. unfold substring_from, substring, clamp, JS.length.
  replace (Z.to_nat (Z.min (Z.max z 0) (Z.of_nat (List.length s))))
    with 0 by lia.
  replace (Z.to_nat (Z.min (Z.max (Z.of_nat (List.length s)) 0)
                           (Z.of_nat (List.length s))))
    with (List.length s) by lia.
  simpl. rewrite Nat.sub_0_r. apply firstn_all.
Qed.

Lemma substring_to_negative (s : jsstring) (z : Z) :
  (z <= 0)%Z -> substring s 0 z = [].
Proof.
  intros Hz. unfold substring, clamp, JS.length.
  replace (Z.to_nat (Z.min (Z.max z 0) (Z.of_nat (List.length s))))
    with 0 by lia.
  replace (Z.to_nat (Z.min (Z.max 0 0) (Z.of_nat (List.length s))))
    with 0 by lia.
  reflexivity.
Qed.

(** X17: the length limit does not reach a name without a dot: such a name
    is only cleaned of its unsafe characters and keeps its length, also
    beyond 200 code units. *)
Theorem dotless_name_not_shortened (fileName : jsstring) :
  forallb (fun c => negb (c =? dot)%N) fileName = true ->
  sanitizeFileName fileName = replace_unsafe fileName
  /\ JS.length (sanitizeFileName fileName) = JS.length fileName.
Proof.
  intros H.
  assert (E : sanitizeFileName fileName = replace_unsafe fileName).
  { unfold sanitizeFileName. cbv zeta.
    rewrite remove_dotdot_fixed by (now apply no_dot_no_dotdot).
    pose proof (replace_unsafe_no_dot fileName H) as Hu.
    rewrite (proj2 (no_dot_no_dotdot _ Hu)).
    destruct (200 <? JS.length (replace_unsafe fileName))%Z eqn:L;
      [|reflexivity].
    unfold lastIndexOf. rewrite lastIndexOf_absent by exact Hu.
    rewrite substring_from_negative by lia.
    rewrite substring_to_negative by (apply Z.ltb_lt in L; lia).
    reflexivity. }
  split; [exact E|]. rewrite E. unfold JS.length, replace_unsafe.
  now rewrite length_map.
Qed.

Lemma dotless_name_not_shortened_witness :
  JS.length (sanitizeFileName (replicate 300 97%N)) = 300%Z.
Proof.
  refine (eq_trans
            (proj2 (dotless_name_not_shortened (replicate 300 97%N) _)) _).
  - vm_compute. reflexivity.
  - vm_compute. reflexivity.
Defined.

Lemma onDrop_file_sends (file : File) :
  sent_files (onDrop_file file)
  = if passes file then [renamed file] else [].
Proof.
  unfold passes, onDrop_file.
  destruct (bool_decide_reflect (validateFile file = [])) as [E|E].
  - rewrite E. simpl. unfold renamed, jsstring_eqb.
    destruct (bool_decide_reflect (sanitizeFileName (name file) = name file))
      as [S|S]; simpl; [|reflexivity].
    rewrite S. now destruct file.
  - destruct (validateFile file) as [|e l]; [congruence|]. reflexivity.
Qed.

(** X18: onDrop sends nothing when the drop zone has rejected a file;
    otherwise it sends one file for each accepted file that passes
    validateFile, in their order, under the sanitized name and with the
    size and the type of the original. *)
Theorem onDrop_sends_valid_files (acceptedFiles : list File)
    (rejectedFiles : list Rejection) :
  sent_files (onDrop acceptedFiles rejectedFiles)
  = match rejectedFiles with
    | [] => map renamed (List.filter passes acceptedFiles)
    | _ :: _ => []
    end.
Proof.
  unfold onDrop. destruct rejectedFiles as [|r rs].
  - change (0 <? array_length [])%Z with false. cbv iota.
    destruct acceptedFiles as [|f fs]; [reflexivity|].
    replace (array_length (f :: fs) =? 0)%Z with false
      by (symmetry; apply Z.eqb_neq; unfold array_length;
          simpl List.length; lia).
    rewrite sent_files_app.
    change (sent_files resetStatus) with (@nil File). rewrite app_nil_l.
    generalize (f :: fs). intros l.
    induction l as [|x l IH]; [reflexivity|].
    simpl flat_map. rewrite sent_files_app, IH, onDrop_file_sends.
    simpl List.filter. destruct (passes x); reflexivity.
  - replace (0 <? array_length (r :: rs))%Z with true
      by (symmetry; apply Z.ltb_lt; unfold array_length;
          simpl List.length; lia).
    reflexivity.
Qed.

(** ** The sanitizer on the names that pass validateFile *)

Lemma last_dot_split (s : jsstring) :
  forallb (fun c => negb (c =? dot)%N) s = true
  \/ exists a b, s = a ++ dot :: b
                 /\ forallb (fun c => negb (c =? dot)%N) b = true.
Proof.
  induction s as [|x s [IH|[a [b [-> Hb]]]]].
  - now left.
  - destruct (N.eqb_spec x dot) as [->|Hx].
    + right. exists [], s. auto.
    + left. simpl. rewrite IH, andb_true_r.
      apply negb_true_iff. now apply N.eqb_neq.
  - right. exists (x :: a), b. auto.
Qed.

Lemma count_dots_zero (s : jsstring) :
  List.filter (fun c => (c =? dot)%N) s = []
  <-> forallb (fun c => negb (c =? dot)%N) s = true.
Proof.
  induction s as [|x s IH]; simpl; [tauto|].
  destruct (x =? dot)%N; simpl.
  - split; discriminate.
  - exact IH.
Qed.

Lemma one_dot_split (a b : jsstring) :
  (count_dots (a ++ dot :: b) <= 1)%Z ->
  forallb (fun c => negb (c =? dot)%N) a = true
  /\ forallb (fun c => negb (c =? dot)%N) b = true.
Proof.
  unfold count_dots, array_length. rewrite List.filter_app. simpl.
  rewrite length_app. simpl. intros H.
  split; apply count_dots_zero.
  - destruct (List.filter (fun c => (c =? dot)%N) a); [reflexivity|].
    simpl in H. lia.
  - destruct (List.filter (fun c => (c =? dot)%N) b); [reflexivity|].
    simpl in H. lia.
Qed.

Lemma toLowerCase_no_dot (s : jsstring) :
  forallb (fun c => negb (c =? dot)%N) s = true ->
  forallb (fun c => negb (c =? dot)%N) (toLowerCase s) = true.
Proof.
  unfold toLowerCase. induction s as [|x s IH]; intros H; [reflexivity|].
  simpl in *. apply andb_true_iff in H as [Hx Hs].
  rewrite forallb_app, (IH Hs), andb_true_r.
  destruct (lower_unit_cases x) as [[U ->]|[->|[->|[[t [Ht ->]]|[U ->]]]]].
  - simpl. rewrite andb_true_r. apply negb_true_iff.
    unfold dot. bools U. apply N.eqb_neq. lia.
  - reflexivity.
  - reflexivity.
  - simpl. rewrite andb_true_r. apply negb_true_iff, N.eqb_neq.
    unfold dot. lia.
  - simpl. now rewrite Hx.
Qed.

Lemma lower_letters (b t : jsstring) :
  toLowerCase b = t ->
  Forall (fun c => is_lower c = true /\ c <> 105%N /\ c <> 107%N) t ->
  List.length b = List.length t
  /\ forallb (fun c => is_lower c || is_upper c) b = true.
Proof.
  revert t. unfold toLowerCase.
  induction b as [|x b IH]; intros t E Ht.
  - simpl in E. subst t. auto.
  - simpl in E.
    destruct (lower_unit_cases x) as [[U L]|[L|[L|[[u [Hu L]]|[U L]]]]];
      rewrite L in E; simpl in E; subst t;
      inversion Ht as [|? ? [Hl [H1 H2]] Ht']; subst; try congruence;
      try (exfalso; bools Hl; lia);
      destruct (IH _ eq_refl Ht') as [I1 I2];
      simpl List.length; simpl forallb; rewrite I1, I2.
    + rewrite U, orb_true_r. auto.
    + rewrite Hl. auto.
Qed.

Lemma letters_are_safe (b : jsstring) :
  forallb (fun c => is_lower c || is_upper c) b = true ->
  forallb is_safe b = true
  /\ forallb (fun c => negb (c =? dot)%N) b = true.
Proof.
  induction b as [|x b IH]; intros H; [auto|].
  simpl in H. apply andb_true_iff in H as [Hx Hb].
  destruct (IH Hb) as [I1 I2]. simpl. rewrite I1, I2, !andb_true_r.
  split.
  - unfold is_safe. apply orb_true_iff in Hx as [Hx|Hx]; rewrite Hx;
      now rewrite ?orb_true_r.
  - apply negb_true_iff, N.eqb_neq. unfold dot.
    apply orb_true_iff in Hx as [Hx|Hx]; bools Hx; lia.
Qed.

Lemma one_dot_no_dotdot (a b : jsstring) :
  forallb (fun c => negb (c =? dot)%N) a = true ->
  forallb (fun c => negb (c =? dot)%N) b = true ->
  includes (a ++ dot :: b) (str "..") = false.
Proof.
  intros Ha Hb. destruct (no_dot_no_dotdot b Hb) as [B1 B2].
  induction a as [|x a IH].
  - simpl app. now rewrite includes_dotdot_cons, B1, B2, andb_false_r.
  - simpl in Ha. apply andb_true_iff in Ha as [Hx Ha].
    apply negb_true_iff in Hx. rewrite N.eqb_sym in Hx.
    rewrite <- app_comm_cons, includes_dotdot_cons, Hx, (IH Ha).
    reflexivity.
Qed.

Lemma substring_take (s : jsstring) (z : Z) :
  (0 <= z <= JS.length s)%Z ->
  substring s 0 z = take (Z.to_nat z) s.
Proof.
  intros Hz. unfold substring, clamp, JS.length in *.
  replace (Z.to_nat (Z.min (Z.max 0 0) (Z.of_nat (List.length s))))
    with 0 by lia.
  replace (Z.to_nat (Z.min (Z.max z 0) (Z.of_nat (List.length s))))
    with (Z.to_nat z) by lia.
  simpl. now rewrite Nat.sub_0_r.
Qed.

Lemma clean_name_fixed (stem b : jsstring) :
  stem <> [] ->
  forallb (fun c => negb (c =? dot)%N) stem = true ->
  forallb is_safe stem = true ->
  forallb (fun c => negb (c =? dot)%N) b = true ->
  forallb is_safe b = true ->
  (JS.length (stem ++ dot :: b) <= 200)%Z ->
  includes (stem ++ dot :: b) (str "..") = false
  /\ sanitizeFileName (stem ++ dot :: b) = stem ++ dot :: b.
Proof.
  intros Hne Hd Hs Hbd Hbs Hl.
  pose proof (one_dot_no_dotdot stem b Hd Hbd) as Hi.
  split; [exact Hi|].
  apply sanitizeFileName_fixed; [exact Hi| | |exact Hl].
  - rewrite forallb_app, Hs. simpl. now rewrite Hbs.
  - destruct stem as [|x stem]; [contradiction|].
    rewrite <- app_comm_cons, startsWith_dot_cons.
    simpl in Hd. apply andb_true_iff in Hd as [Hx _].
    apply negb_true_iff in Hx. now rewrite N.eqb_sym.
Qed.

(** X19: on a name that passes validateFile the sanitizer is sound: the
    name has exactly one dot, and the sanitized name has no two dots in a
    row, is left as it is by a second pass, has at most 200 code units and
    ends with the extension of the original, unchanged. *)
Theorem validated_name_sanitized (file : File) :
  validateFile file = [] ->
  count_dots (name file) = 1%Z
  /\ includes (sanitizeFileName (name file)) (str "..") = false
  /\ sanitizeFileName (sanitizeFileName (name file))
     = sanitizeFileName (name file)
  /\ (JS.length (sanitizeFileName (name file)) <= 200)%Z
  /\ exists stem,
       sanitizeFileName (name file)
       = stem ++ substring_from (name file) (lastIndexOf (name file) dot).
Proof.
  intros H. apply validateFile_accepts_iff in H.
  destruct H as [_ [_ [Hl [_ [He [Hd [Hst _]]]]]]].
  apply array_includes_In in He.
  destruct (last_dot_split (name file)) as [Hno|[a [b [Hn Hb]]]].
  - exfalso. unfold lastIndexOf in He.
    rewrite lastIndexOf_absent in He by exact Hno.
    rewrite substring_from_negative in He by lia.
    pose proof (toLowerCase_no_dot _ Hno) as Hlow.
    destruct He as [E|[E|[]]]; rewrite <- E in Hlow; discriminate.
  - rewrite Hn in *. clear Hn.
    destruct (one_dot_split a b Hd) as [Ha _].
    assert (Hlast : lastIndexOf (a ++ dot :: b) dot
                    = Z.of_nat (List.length a)).
    { unfold lastIndexOf. rewrite lastIndexOf_last by exact Hb. lia. }
    assert (Hext : substring_from (a ++ dot :: b)
                     (lastIndexOf (a ++ dot :: b) dot) = dot :: b).
    { rewrite Hlast, substring_from_drop
        by (rewrite length_app; simpl; lia).
      apply drop_app_length. }
    rewrite Hext in *.
    assert (Hletters : (List.length b <= 4)
                       /\ forallb (fun c => is_lower c || is_upper c) b
                          = true).
    { change (toLowerCase (dot :: b)) with (dot :: toLowerCase b) in He.
      destruct He as [E|[E|[]]]; injection E as E; symmetry in E;
        apply lower_letters in E
          as [E1 E2];
        try (split; [rewrite E1; simpl; lia|exact E2]);
        repeat constructor; discriminate. }
    destruct Hletters as [Hlen Hlet].
    destruct (letters_are_safe b Hlet) as [Hbs _].
    assert (Hne : a <> []).
    { intros ->. simpl in Hst. discriminate. }
    assert (Hcount : count_dots (a ++ dot :: b) = 1%Z).
    { unfold count_dots, array_length. rewrite List.filter_app. simpl.
      rewrite (proj2 (count_dots_zero a) Ha),
        (proj2 (count_dots_zero b) Hb). reflexivity. }
    split; [exact Hcount|].
    set (a' := replace_unsafe a).
    assert (Ha'd : forallb (fun c => negb (c =? dot)%N) a' = true)
      by (now apply replace_unsafe_no_dot).
    assert (Ha's : forallb is_safe a' = true) by apply replace_unsafe_safe.
    assert (Ha'l : List.length a' = List.length a)
      by (unfold a', replace_unsafe; apply length_map).
    assert (Ha'ne : a' <> []).
    { intros E. rewrite E in Ha'l. destruct a; [congruence|discriminate]. }
    assert (Hu : replace_unsafe (remove_dotdot (a ++ dot :: b))
                 = a' ++ dot :: b).
    { rewrite remove_dotdot_fixed by (now apply one_dot_no_dotdot).
      unfold replace_unsafe. rewrite map_app. simpl.
      fold (replace_unsafe b). fold (replace_unsafe a).
      now rewrite (replace_unsafe_fixed b Hbs). }
    assert (Hstart : startsWith (a' ++ dot :: b) (str ".") = false).
    { destruct a' as [|x a'']; [contradiction|].
      rewrite <- app_comm_cons, startsWith_dot_cons.
      simpl in Ha'd. apply andb_true_iff in Ha'd as [Hx _].
      apply negb_true_iff in Hx. now rewrite N.eqb_sym. }
    assert (Hout : exists stem,
               sanitizeFileName (a ++ dot :: b) = stem ++ dot :: b
               /\ stem <> []
               /\ forallb (fun c => negb (c =? dot)%N) stem = true
               /\ forallb is_safe stem = true
               /\ (JS.length (stem ++ dot :: b) <= 200)%Z).
    { unfold sanitizeFileName. cbv zeta. rewrite Hu, Hstart.
      destruct (200 <? JS.length (a' ++ dot :: b))%Z eqn:L.
      - apply Z.ltb_lt in L. unfold JS.length in L.
        rewrite length_app in L. simpl List.length in L.
        assert (Hlast' : lastIndexOf (a' ++ dot :: b) dot
                         = Z.of_nat (List.length a')).
        { unfold lastIndexOf. rewrite lastIndexOf_last by exact Hb. lia. }
        rewrite Hlast', substring_from_drop
          by (rewrite length_app; simpl; lia).
        rewrite drop_app_length.
        rewrite substring_take
          by (unfold JS.length; rewrite length_app; simpl List.length; lia).
        unfold JS.length. simpl List.length.
        rewrite take_app_le by lia.
        exists (take (Z.to_nat (200 - Z.of_nat (S (List.length b)))) a').
        split; [reflexivity|].
        split.
        { intros E. apply (f_equal List.length) in E.
          rewrite length_take in E. simpl in E. lia. }
        split; [now apply forallb_take_drop|].
        split; [now apply forallb_take_drop|].
        rewrite length_app, length_take. simpl List.length. lia.
      - apply Z.ltb_ge in L. exists a'. auto. }
    destruct Hout as [stem [E [S1 [S2 [S3 S4]]]]].
    rewrite E.
    destruct (clean_name_fixed stem b S1 S2 S3 Hb Hbs S4) as [C1 C2].
    split; [exact C1|]. split; [exact C2|]. split; [exact S4|].
    exists stem. reflexivity.
Qed.

Lemma validated_name_sanitized_witness :
  sanitizeFileName (sanitizeFileName (name good_file))
  = sanitizeFileName (name good_file).
Proof.
  refine (proj1 (proj2 (proj2 (validated_name_sanitized good_file _)))).
  vm_compute. reflexivity.
Defined.

(** ** The page against the server *)

Lemma status_data_of_get_status (now : Z) (s : server) :
  response_of (snd (get_status now s))
  = Some (200%Z,
          [("isProcessing"%string, JBool (isProcessing (run s)));
           ("processingTime"%string,
            JNum match processingStartTime (run s) with
                 | Some t => (now - t) / 1000
                 | None => 0
                 end%Z);
           ("processingStartTime"%string,
            match processingStartTime (run s) with
            | Some t => JDate t
            | None => JNull
            end);
           ("processingError"%string,
            match processingError (run s) with
            | Some e => JStr e
            | None => JNull
            end);
           ("status"%string, JStr (status_of (run s)))]).
Proof. reflexivity. Qed.

Lemma poll_server_eq (now : Z) (s : server) :
  poll_server now s
  = on_status
      {| data_isProcessing := isProcessing (run s);
         data_processingTime :=
           match processingStartTime (run s) with
           | Some t => (now - t) / 1000
           | None => 0
           end%Z;
         data_processingError := processingError (run s);
         data_status := status_of (run s) |}.
Proof.
  unfold poll_server. rewrite status_data_of_get_status.
  unfold status_data_of. simpl.
  destruct (processingError (run s)); reflexivity.
Qed.

(** X20: a tick of the polling against a state the server reaches always
    takes one of its three branches. While isProcessing is set it goes on;
    with a recorded error it stops, shows that message after the words
    Processing failed and logs it; with neither it stops and reports the
    pipeline as complete. *)
Theorem poll_follows_server (cwd : jsstring) (now : Z) (s : server) :
  reachable cwd s ->
  stops (poll_server now s) = negb (isProcessing (run s))
  /\ poll_server now s <> []
  /\ (forall m, processingError (run s) = Some m ->
        poll_server now s
        = [clearInterval;
           page (setProcessingStage (str "error"));
           page (setUploadStatus (msg (str "Processing failed: " ++ m)));
           page (logProcessingFailed m)])
  /\ (isProcessing (run s) = false -> processingError (run s) = None ->
        poll_server now s
        = [clearInterval;
           page (setProcessingStage (str "complete"));
           page (setCurrentStep 4);
           page (setUploadStatus completed_status);
           logProcessingCompleted]).
Proof.
  intros R. destruct (reachable_invariant cwd s R) as [I1 I2].
  unfold error_excludes_processing in I1.
  rewrite poll_server_eq. unfold on_status, status_of. simpl.
  destruct (isProcessing (run s)) eqn:P.
  - assert (E : processingError (run s) = None).
    { destruct (processingError (run s)); [|reflexivity].
      assert (true = false) by (apply I1; discriminate). discriminate. }
    rewrite E. simpl.
    repeat split; try discriminate.
    + now repeat destruct (_ <? _)%Z.
    + repeat destruct (_ <? _)%Z; discriminate.
  - destruct I2 as [T|E].
    + rewrite T.
      change (jsstring_eqb (str "error") (str "error")) with true.
      cbv iota. repeat split; try discriminate.
      * intros m Hm. rewrite Hm in *. unfold or_unknown, truthy_text.
        destruct m; [discriminate|]. reflexivity.
      * intros _ E. rewrite E in T. discriminate.
    + rewrite E. simpl. repeat split; discriminate || auto.
Qed.

Lemma poll_follows_server_witness :
  stops (poll_server 9000 failed_server) = true.
Proof.
  refine (eq_trans (proj1 (poll_follows_server cwd 9000 failed_server _)) _).
  - unfold failed_server. apply reach_step, reach_step, reach_init.
  - vm_compute. reflexivity.
Defined.

(** X21: while a run is processing, what the page shows depends on the
    time since the start of the run alone: step 2 with the processing text
    before 3000 ms, step 3 with the converting text before 6000 ms, and from
    then on step 3 with the whole seconds elapsed. *)
Theorem poll_label_by_elapsed_time (now start : Z) (s : server) :
  isProcessing (run s) = true ->
  processingStartTime (run s) = Some start ->
  processingError (run s) = None ->
  poll_server now s
  = if (now - start <? 3000)%Z then
      [page (setCurrentStep 2); page (setUploadStatus processing_status)]
    else if (now - start <? 6000)%Z then
      [page (setCurrentStep 3); page (setUploadStatus converting_status)]
    else
      [page (setCurrentStep 3);
       page (setUploadStatus
               (still_processing_status ((now - start) / 1000)))].
Proof.
  intros P S E. rewrite poll_server_eq. unfold on_status, status_of.
  rewrite !P, !S, ?E.
  cbn [data_status data_isProcessing data_processingTime
       data_processingError negb andb].
  change (jsstring_eqb (str "processing") (str "error")) with false.
  cbv iota.
  replace ((now - start) / 1000 <? 3)%Z with (now - start <? 3000)%Z.
  - replace ((now - start) / 1000 <? 6)%Z with (now - start <? 6000)%Z;
      [reflexivity|].
    apply eq_iff_eq_true. rewrite !Z.ltb_lt.
    pose proof (Z.mod_pos_bound (now - start) 1000 ltac:(lia)).
    pose proof (Z.div_mod (now - start) 1000 ltac:(lia)). lia.
  - apply eq_iff_eq_true. rewrite !Z.ltb_lt.
    pose proof (Z.mod_pos_bound (now - start) 1000 ltac:(lia)).
    pose proof (Z.div_mod (now - start) 1000 ltac:(lia)). lia.
Qed.

Lemma poll_label_by_elapsed_time_witness :
  poll_server 5500
    (fst (step cwd (init ∅) spaced_upload_event))
  = [page (setCurrentStep 3); page (setUploadStatus converting_status)].
Proof.
  rewrite (poll_label_by_elapsed_time 5500 1000
             (fst (step cwd (init ∅) spaced_upload_event))).
  - reflexivity.
  - vm_compute. reflexivity.
  - vm_compute. reflexivity.
  - vm_compute. reflexivity.
Defined.

Lemma join_text_of (errors : list jsstring) :
  join (str ", ") (map text_of (map Some errors)) = join (str ", ") errors.
Proof.
  rewrite List.map_map. simpl. now rewrite List.map_id.
Qed.

Lemma on_rejected_reply (fileName : jsstring) (e : option jsstring)
    (errs : list jsstring) :
  on_upload_reply fileName
    (HttpResponse 400 []
       {| reply_error := e; reply_validationErrors := Some errs |})
  = [showErrors (map Some errs);
     page (setProcessingStage (str "error"));
     page (setUploadStatus failed_status);
     page (logProcessingFailed
             (str "Validation failed: " ++ join (str ", ") errs))].
Proof.
  unfold on_upload_reply, first_then, backendErrors.
  change (res_ok 400) with false.
  cbn [negb reply_validationErrors second_then].
  now rewrite join_text_of, app_nil_r.
Qed.

Lemma response_of_rejected (p : jsstring) (status : Z)
    (body : list (string * value)) :
  response_of [unlink p; respond status body] = Some (status, body).
Proof. reflexivity. Qed.

Lemma upload_reply_of_rejected (m e : jsstring) (errs : list jsstring) :
  upload_reply_of
    [("message"%string, JStr m); ("error"%string, JStr e);
     ("validationErrors"%string, JStrings errs)]
  = {| reply_error := Some e; reply_validationErrors := Some errs |}.
Proof. reflexivity. Qed.

(** X22: the page after an upload, in the three cases of the route. With
    no file it shows the single error No file received; with a file that
    fails the check of the workbook it shows exactly the error list of
    validateExcelFile and does not poll; with a file that passes it logs
    the upload under the name sent and starts polling. *)
Theorem page_follows_upload_route (cwd : jsstring) (now : Z)
    (file : option part) (s : server) (fileName : jsstring) :
  page_after_upload cwd now file s fileName
  = match file with
    | None =>
        [showErrors [Some (str "No file received")];
         page (setProcessingStage (str "error"));
         page (setUploadStatus failed_status);
         page (logProcessingFailed
                 (str "Validation failed: No file received"))]
    | Some f =>
        let validation :=
          validateExcelFile (files (multer_store cwd f s))
                            (file_path cwd f) in
        if valid validation then
          [logFileUploaded fileName;
           page (setProcessingStage (str "processing"));
           page (setCurrentStep 2);
           page (setUploadStatus processing_status);
           logProcessingStarted;
           pollBackendStatus]
        else
          [showErrors (map Some (errors validation));
           page (setProcessingStage (str "error"));
           page (setUploadStatus failed_status);
           page (logProcessingFailed
                   (str "Validation failed: "
                    ++ join (str ", ") (errors validation)))]
    end.
Proof.
  unfold page_after_upload. destruct file as [f|]; [|reflexivity].
  cbv zeta.
  destruct (valid (validateExcelFile (files (multer_store cwd f s))
                                     (file_path cwd f))) eqn:V.
  - rewrite (post_upload_accepted cwd now f s V). reflexivity.
  - rewrite (post_upload_rejected cwd now f s V). cbn [snd].
    rewrite response_of_rejected, upload_reply_of_rejected.
    apply on_rejected_reply.
Qed.

(** ** The log of the session *)

Lemma auth_run_cons (flag : bool) (e : auth_event) (es : list auth_event) :
  auth_run flag (e :: es)
  = (fst (auth_run (fst (auth_step flag e)) es),
     snd (auth_step flag e) ++ snd (auth_run (fst (auth_step flag e)) es)).
Proof.
  simpl. destruct (auth_step flag e) as [f c]. simpl.
  now destruct (auth_run f es).
Qed.

Lemma expired_calls_app (a b : list LogCall) :
  expired_calls (a ++ b) = expired_calls a + expired_calls b.
Proof.
  unfold expired_calls. now rewrite List.filter_app, length_app.
Qed.

(** X23: the end of a session is logged once: over any sequence of logins,
    logouts and session expirations, the calls that log Session expired
    are at most one per login, plus one if the flag was not set at the
    start. *)
Theorem session_expired_logged_once (es : list auth_event) (flag : bool) :
  expired_calls (snd (auth_run flag es))
  <= (if flag then 0 else 1) + List.length (List.filter is_login es).
Proof.
  revert flag. induction es as [|e es IH]; intros flag.
  - simpl. destruct flag; unfold expired_calls; simpl; lia.
  - rewrite auth_run_cons. cbn [snd]. rewrite expired_calls_app.
    destruct e as [ip|ip|]; simpl List.filter; cbn [auth_step fst snd].
    + specialize (IH false).
      change (expired_calls
                [{| activity := str "User logged in successfully";
                    logType := str "LOGIN"; details := None;
                    ipAddress := ip |}]) with 0.
      cbn [base.length List.length]. cbv iota in IH. destruct flag; lia.
    + specialize (IH flag).
      change (expired_calls
                [{| activity := str "User logged out";
                    logType := str "LOGOUT"; details := None;
                    ipAddress := ip |}]) with 0.
      lia.
    + destruct flag; cbn [negb fst snd].
      * specialize (IH true). change (expired_calls []) with 0.
        cbv iota in IH. cbv iota. lia.
      * specialize (IH true).
        change (expired_calls [session_expired_call]) with 1.
        cbv iota in IH. cbv iota. lia.
Qed.
